(** * BARNACLE: the average dark and its diagnostics

    A shallow embedding of [barnacle/calibration/dark.py]
    ([get_histogram], [save_histo_dark], [get_average_dark], [check_dark])
    together with the properties its specification states about it.

    Conventions of the model.
    - A float64 is an [npfloat]: an exact rational or one of the IEEE special
      values.  Arithmetic on finite values is exact (no rounding, no overflow,
      no signed zero); the special values follow IEEE 754.
    - An [ndarray] is a (nested) list; an elementwise operation between two
      arrays broadcasts the axes of length one as numpy does and raises
      [ValueError] when the shapes do not agree.
    - Python exceptions are values of [exn]; a statement sequence is a
      computation in the monad [M], which threads the [world] (file system
      and the log of effects) and keeps it when an exception is raised.
    - The file system answers through the [world]: which folders can be
      listed, which paths exist, what [os.makedirs] creates or raises, and
      whether a file can be opened for writing.
    - Code of the repository that is not part of the modelled file
      ([glint_classes.Null], [get_channel_positions], [gaussian_curve]) and
      library routines whose result is not determined by the source
      ([curve_fit], [np.polyfit], automatic-range [np.histogram], [std])
      are the fields of the record [externals]. *)

From Stdlib Require Import List ZArith QArith Qreduction Qround String Ascii Bool Lia
  Permutation.
Import ListNotations.

Set Implicit Arguments.

(* ================================================================== *)
(** ** Floating-point values *)
(* ================================================================== *)

Module NpFloat.

Inductive npfloat : Type :=
| Fin (q : Q)
| PInf
| NInf
| NaN.

Definition of_Z (z : Z) : npfloat := Fin (inject_Z z).
Definition of_nat (n : nat) : npfloat := of_Z (Z.of_nat n).

Definition is_finite (x : npfloat) : bool :=
  match x with Fin _ => true | _ => false end.

Definition is_nan (x : npfloat) : bool :=
  match x with NaN => true | _ => false end.

Definition Qsgn (q : Q) : Z := Z.sgn (Qnum q).

Definition fneg (x : npfloat) : npfloat :=
  match x with
  | Fin q => Fin (Qred (- q))
  | PInf => NInf
  | NInf => PInf
  | NaN => NaN
  end.

Definition fadd (x y : npfloat) : npfloat :=
  match x, y with
  | NaN, _ | _, NaN => NaN
  | Fin a, Fin b => Fin (Qred (a + b))
  | PInf, NInf | NInf, PInf => NaN
  | PInf, _ | _, PInf => PInf
  | NInf, _ | _, NInf => NInf
  end.

Definition fsub (x y : npfloat) : npfloat :=
  match x, y with
  | NaN, _ | _, NaN => NaN
  | Fin a, Fin b => Fin (Qred (a - b))
  | PInf, PInf | NInf, NInf => NaN
  | PInf, _ | _, NInf => PInf
  | NInf, _ | _, PInf => NInf
  end.

Definition signed_inf (s : Z) : npfloat :=
  match s with
  | Z0 => NaN
  | Zpos _ => PInf
  | Zneg _ => NInf
  end.

Definition fsgn (x : npfloat) : Z :=
  match x with
  | Fin q => Qsgn q
  | PInf => 1
  | NInf => (-1)
  | NaN => 0
  end.

Definition fmul (x y : npfloat) : npfloat :=
  match x, y with
  | NaN, _ | _, NaN => NaN
  | Fin a, Fin b => Fin (Qred (a * b))
  | _, _ => signed_inf (fsgn x * fsgn y)
  end.

(** True division.  A finite value over zero is [nan] when the numerator
    is zero and an infinity of the numerator's sign otherwise. *)
Definition fdiv (x y : npfloat) : npfloat :=
  match x, y with
  | NaN, _ | _, NaN => NaN
  | Fin a, Fin b =>
      if Qeq_bool b 0 then signed_inf (Qsgn a) else Fin (Qred (a / b))
  | Fin _, _ => Fin 0
  | _, Fin b => if Qeq_bool b 0 then x else signed_inf (fsgn x * Qsgn b)
  | _, _ => NaN
  end.

(** Comparisons: every comparison with [nan] is false. *)
Definition flt (x y : npfloat) : bool :=
  match x, y with
  | NaN, _ | _, NaN => false
  | Fin a, Fin b => negb (Qle_bool b a)
  | _, NInf | PInf, _ => false
  | NInf, _ | _, PInf => true
  end.

Definition fle (x y : npfloat) : bool :=
  match x, y with
  | NaN, _ | _, NaN => false
  | Fin a, Fin b => Qle_bool a b
  | NInf, _ | _, PInf => true
  | _, _ => false
  end.

Definition fgt (x y : npfloat) : bool := flt y x.

Definition feqb (x y : npfloat) : bool :=
  match x, y with
  | Fin a, Fin b => Qeq_bool a b
  | PInf, PInf | NInf, NInf => true
  | _, _ => false
  end.

End NpFloat.
Export NpFloat.

(* ================================================================== *)
(** ** Python exceptions and results *)
(* ================================================================== *)

Module Py.

Inductive exn : Type :=
| UnboundLocalError (name : string)
| NameError (name : string)
| ValueError (msg : string)
| IndexError (msg : string)
| AxisError (msg : string)
| TypeError (msg : string)
| FileNotFoundError (path : string)
| FileExistsError (path : string)
| NotADirectoryError (path : string)
| PermissionError (path : string)
| OSError (msg : string)
| ExternalError (msg : string).

(** [except NameError] also catches [UnboundLocalError], its subclass. *)
Definition is_NameError (e : exn) : bool :=
  match e with
  | UnboundLocalError _ | NameError _ => true
  | _ => false
  end.

Inductive result (A : Type) : Type :=
| Ok (a : A)
| Raise (e : exn).

Arguments Ok {A} a.
Arguments Raise {A} e.

Definition rbind {A B} (r : result A) (k : A -> result B) : result B :=
  match r with
  | Ok a => k a
  | Raise e => Raise e
  end.

(** Reading a local variable: an unbound one raises. *)
Definition read_local {A} (name : string) (v : option A) : result A :=
  match v with
  | Some a => Ok a
  | None => Raise (UnboundLocalError name)
  end.

(** [l[i]] for a non-negative index. *)
Definition getitem {A} (l : list A) (i : nat) : result A :=
  match nth_error l i with
  | Some a => Ok a
  | None => Raise (IndexError "index out of range")
  end.

Fixpoint mapr {A B} (f : A -> result B) (l : list A) : result (list B) :=
  match l with
  | [] => Ok []
  | x :: r =>
      rbind (f x) (fun y => rbind (mapr f r) (fun ys => Ok (y :: ys)))
  end.

(** [l.index(x)]: position of the first occurrence. *)
Fixpoint list_index (x : string) (l : list string) : result nat :=
  match l with
  | [] => Raise (ValueError "not in list")
  | y :: r =>
      if String.eqb x y then Ok O
      else rbind (list_index x r) (fun i => Ok (S i))
  end.

(** [sub in s] on strings. *)
Fixpoint str_in (sub s : string) : bool :=
  if String.prefix sub s then true
  else match s with
       | EmptyString => false
       | String _ s' => str_in sub s'
       end.

(** [s.endswith(suffix)]. *)
Fixpoint str_endswith (suffix s : string) : bool :=
  if String.eqb s suffix then true
  else match s with
       | EmptyString => false
       | String _ s' => str_endswith suffix s'
       end.

(** [l[lo:hi]] with optional, possibly negative bounds. *)
Definition slice_bound (len : Z) (dflt : Z) (b : option Z) : Z :=
  match b with
  | None => dflt
  | Some i => if (i <? 0)%Z then Z.max 0 (i + len) else Z.min i len
  end.

Definition py_slice {A} (lo hi : option Z) (l : list A) : list A :=
  let len := Z.of_nat (List.length l) in
  let a := slice_bound len 0%Z lo in
  let b := slice_bound len len hi in
  firstn (Z.to_nat (b - a)) (skipn (Z.to_nat a) l).

(** The builtin [max] over a sequence: the first element is kept until a
    strictly greater one is met. *)
Definition py_max (l : list npfloat) : result npfloat :=
  match l with
  | [] => Raise (ValueError "max() arg is an empty sequence")
  | x :: r => Ok (fold_left (fun m y => if fgt y m then y else m) r x)
  end.

End Py.
Export Py.

(* ================================================================== *)
(** ** Arrays *)
(* ================================================================== *)

Module Np.

Definition arr1 := list npfloat.
Definition arr2 := list arr1.
Definition arr3 := list arr2.
Definition arr4 := list arr3.

Inductive ndarray : Type :=
| Nd0 (x : npfloat)
| Nd1 (a : arr1)
| Nd2 (a : arr2)
| Nd3 (a : arr3).

(** [a[i]] on the first axis. *)
Definition nd_getitem (a : ndarray) (i : nat) : result ndarray :=
  match a with
  | Nd0 _ => Raise (IndexError "invalid index to scalar variable")
  | Nd1 l => rbind (getitem l i) (fun x => Ok (Nd0 x))
  | Nd2 l => rbind (getitem l i) (fun x => Ok (Nd1 x))
  | Nd3 l => rbind (getitem l i) (fun x => Ok (Nd2 x))
  end.

Definition zeros1 (n : nat) : arr1 := repeat (Fin 0) n.
Definition zeros2 (n m : nat) : arr2 := repeat (zeros1 m) n.
Definition zeros3 (n m k : nat) : arr3 := repeat (zeros2 m k) n.

Fixpoint zip_with {A B C} (f : A -> B -> C) (a : list A) (b : list B)
  : list C :=
  match a, b with
  | x :: a', y :: b' => f x y :: zip_with f a' b'
  | _, _ => []
  end.

(** Pairing the entries of two axes of the same length. *)
Fixpoint zip_with_r {A B C} (f : A -> B -> result C) (a : list A)
  (b : list B) : result (list C) :=
  match a, b with
  | [], [] => Ok []
  | x :: a', y :: b' =>
      rbind (f x y) (fun z =>
      rbind (zip_with_r f a' b') (fun r => Ok (z :: r)))
  | _, _ => Raise (ValueError "operands could not be broadcast together")
  end.

(** One axis of an elementwise operation, with numpy's broadcasting: the
    lengths must agree unless one of them is 1, and the single entry of
    an axis of length 1 is paired with every entry of the other array.
    Arrays are nested lists: an axis of length zero hides the lengths of
    the axes below it, which are then not compared. *)
Definition broadcast_r {A B C} (f : A -> B -> result C) (a : list A)
  (b : list B) : result (list C) :=
  match a, b with
  | [x], _ => mapr (f x) b
  | _, [y] => mapr (fun x => f x y) a
  | _, _ => zip_with_r f a b
  end.

(** Elementwise operation between two arrays of the same number of
    axes. *)
Definition ew1 (op : npfloat -> npfloat -> npfloat) (a b : arr1)
  : result arr1 := broadcast_r (fun x y => Ok (op x y)) a b.
Definition ew2 (op : npfloat -> npfloat -> npfloat) (a b : arr2)
  : result arr2 := broadcast_r (ew1 op) a b.
Definition ew3 (op : npfloat -> npfloat -> npfloat) (a b : arr3)
  : result arr3 := broadcast_r (ew2 op) a b.

(** Array by scalar. *)
Definition div1 (a : arr1) (d : npfloat) : arr1 :=
  map (fun x => fdiv x d) a.
Definition div2 (a : arr2) (d : npfloat) : arr2 := map (fun r => div1 r d) a.
Definition div3 (a : arr3) (d : npfloat) : arr3 := map (fun r => div2 r d) a.

(** [a.sum()] and [a.mean()] of a flat array; the mean of an empty array
    is [0.0 / 0], that is [nan]. *)
Definition np_sum (a : arr1) : npfloat := fold_left fadd a (Fin 0).
Definition np_mean (a : arr1) : npfloat :=
  fdiv (np_sum a) (of_nat (List.length a)).

Definition ravel2 (a : arr2) : arr1 := List.concat a.
Definition ravel3 (a : arr3) : arr1 := List.concat (map ravel2 a).
Definition ravel4 (a : arr4) : arr1 := List.concat (map ravel3 a).

(** [a.sum(axis=0)]: the elementwise sum of the entries along the first
    axis.  The entries of one ndarray all have the same shape; [empty] is
    the all-zero array of that shape, the result when the axis is empty. *)
Definition sum_axis0 {A} (add : A -> A -> A) (empty : A) (a : list A) : A :=
  match a with
  | [] => empty
  | x :: r => fold_left add r x
  end.

Definition add1 : arr1 -> arr1 -> arr1 := zip_with fadd.
Definition add2 : arr2 -> arr2 -> arr2 := zip_with add1.
Definition add3 : arr3 -> arr3 -> arr3 := zip_with add2.

Definition set_last {A} (l : list A) (v : A) : list A :=
  match l with
  | [] => []
  | _ => removelast l ++ [v]
  end.

(** [np.linspace(start, stop, num, retstep=True)], endpoint included. *)
Definition linspace (start stop : npfloat) (num : Z)
  : result (arr1 * npfloat) :=
  if (num <? 0)%Z then Raise (ValueError "Number of samples must be non-negative")
  else
    let div := (num - 1)%Z in
    let idx := map of_nat (seq 0 (Z.to_nat num)) in
    let delta := fsub stop start in
    let '(y, step) :=
      if (0 <? div)%Z then
        let step := fdiv delta (of_Z div) in
        if feqb step (Fin 0)
        then (map (fun i => fmul (fdiv i (of_Z div)) delta) idx, step)
        else (map (fun i => fmul i step) idx, step)
      else (map (fun i => fmul i delta) idx, NaN) in
    let y := map (fun v => fadd v start) y in
    let y := if (1 <? num)%Z then set_last y stop else y in
    Ok (y, step).

(** Order used by [np.sort] and [searchsorted]: [nan] is the greatest. *)
Definition sort_lt (x v : npfloat) : bool :=
  match x, v with
  | NaN, _ => false
  | _, NaN => true
  | _, _ => flt x v
  end.

Definition sort_le (x v : npfloat) : bool :=
  match x, v with
  | _, NaN => true
  | NaN, _ => false
  | _, _ => fle x v
  end.

Definition count (p : npfloat -> bool) (a : arr1) : Z :=
  Z.of_nat (List.length (filter p a)).

Fixpoint increasing_edges (bins : arr1) : bool :=
  match bins with
  | e :: ((e' :: _) as r) => negb (fgt e e') && increasing_edges r
  | _ => true
  end.

(** Cumulative counts at the edges: strictly below every edge but the
    last, below or equal at the last one. *)
Fixpoint cum_counts (a : arr1) (bins : arr1) : list Z :=
  match bins with
  | [] => []
  | [e] => [count (fun x => sort_le x e) a]
  | e :: r => count (fun x => sort_lt x e) a :: cum_counts a r
  end.

Fixpoint diff (l : list Z) : list Z :=
  match l with
  | x :: ((y :: _) as r) => (y - x)%Z :: diff r
  | _ => []
  end.

(** [np.histogram(a, bins=edges)[0]] for an array of edges. *)
Definition np_histogram (a : arr1) (bins : arr1) : result (list Z) :=
  if increasing_edges bins then Ok (diff (cum_counts a bins))
  else Raise (ValueError "`bins` must increase monotonically, when an array").

Definition sumZ (l : list Z) : Z := fold_left Z.add l 0%Z.

End Np.
Export Np.

(* ================================================================== *)
(** ** The world: file system, effects, and the monad of statements *)
(* ================================================================== *)

Module World.

Inductive pyarg : Type :=
| AStr (s : string)
| AInt (z : Z)
| ANum (x : npfloat).

(** Calls with an effect outside of the interpreter, in program order. *)
Inductive event : Type :=
| EvPrint (fmt : string) (args : list pyarg)
| EvLoad (path : string)
| EvMakedirs (path : string)
| EvNpSave (path : string) (a : ndarray)
| EvH5Open (path : string) (mode : string)
| EvH5Dataset (path : string) (key : string) (a : ndarray)
| EvSavefig (path : string).

(** [listing d] is what [os.listdir d] returns ([None]: no such folder);
    [paths] are the paths that exist; [log] is the history of effects.
    The last two fields are the answers of the file system, which do
    not change during a run: [fs_makedirs p] is what [os.makedirs(p)]
    does for a path that does not exist, namely the missing parent
    directories that it creates, in order, and the [OSError] that it
    raises when a directory cannot be created ([None]: [p] is created
    as well); [fs_open p] is the [OSError] raised when the file [p] is
    opened for writing, if any. *)
Record world : Type := {
  listing : string -> option (list string);
  paths : list string;
  log : list event;
  fs_makedirs : string -> list string * option exn;
  fs_open : string -> option exn
}.

Definition M (A : Type) : Type := world -> result A * world.

Definition ret {A} (a : A) : M A := fun w => (Ok a, w).

Definition raise {A} (e : exn) : M A := fun w => (Raise e, w).

Definition bind {A B} (m : M A) (k : A -> M B) : M B :=
  fun w =>
    match m w with
    | (Ok a, w') => k a w'
    | (Raise e, w') => (Raise e, w')
    end.

Definition lift {A} (r : result A) : M A := fun w => (r, w).

Definition emit (ev : event) : M unit :=
  fun w => (Ok tt, {| listing := listing w; paths := paths w;
                      log := log w ++ [ev];
                      fs_makedirs := fs_makedirs w; fs_open := fs_open w |}).

Definition touch (p : string) : M unit :=
  fun w => (Ok tt, {| listing := listing w; paths := p :: paths w;
                      log := log w;
                      fs_makedirs := fs_makedirs w; fs_open := fs_open w |}).

Declare Scope py_scope.
Delimit Scope py_scope with py.

Notation "x <- c1 ;; c2" := (bind c1 (fun x => c2))
  (at level 61, c1 at next level, right associativity) : py_scope.
Notation "' p <- c1 ;; c2" := (bind c1 (fun p => c2))
  (at level 61, p pattern, c1 at next level, right associativity) : py_scope.
Notation "c1 ;; c2" := (bind c1 (fun _ => c2))
  (at level 61, right associativity) : py_scope.

Local Open Scope py_scope.

(** A [for] loop threading the variables it assigns. *)
Fixpoint for_each {A S} (body : S -> A -> M S) (l : list A) (s : S) : M S :=
  match l with
  | [] => ret s
  | x :: r => s' <- body s x ;; for_each body r s'
  end.

Definition when (b : bool) (m : M unit) : M unit :=
  if b then m else ret tt.

(** *** The [os] module *)

Definition os_listdir (d : string) : M (list string) :=
  fun w =>
    match listing w d with
    | Some names => (Ok names, w)
    | None => (Raise (FileNotFoundError d), w)
    end.

Definition os_path_exists (p : string) : M bool :=
  fun w => (Ok (existsb (String.eqb p) (paths w)), w).

(** [os.makedirs(p)]: an existing path is refused; otherwise the missing
    parent directories are created, then [p] itself, and a directory
    that cannot be created makes the call raise, the directories made
    so far being left in place.  [EvMakedirs p] records a call that
    succeeded. *)
Definition os_makedirs (p : string) : M unit :=
  ex <- os_path_exists p ;;
  if ex then raise (FileExistsError p)
  else
    ' (parents, err) <- (fun w => (Ok (fs_makedirs w p), w)) ;;
    for_each (fun (_ : unit) d => touch d) parents tt ;;
    match err with
    | Some e => raise e
    | None => emit (EvMakedirs p) ;; touch p
    end.

(** *** Writers *)

(** Opening [file] for writing: the file system may refuse (a missing
    or protected directory), and then nothing is written.  The events
    of the writers record the calls that succeeded. *)
Definition open_for_writing (file : string) : M unit :=
  fun w => match fs_open w file with
           | Some e => (Raise e, w)
           | None => (Ok tt, w)
           end.

(** [np.save(file, arr)]: the extension [.npy] is appended to the file
    name if it does not already have one. *)
Definition np_save (file : string) (a : ndarray) : M unit :=
  let f := if str_endswith ".npy" file then file
           else (file ++ ".npy")%string in
  open_for_writing f ;; emit (EvNpSave file a) ;; touch f.

Definition plt_savefig (file : string) : M unit :=
  open_for_writing file ;; emit (EvSavefig file) ;; touch file.

(** [h5py.File(path, mode)] for the modes [w] and [a]. *)
Definition h5_open (path mode : string) : M unit :=
  open_for_writing path ;; emit (EvH5Open path mode) ;; touch path.

Definition h5_create_dataset (path key : string) (a : ndarray) : M unit :=
  emit (EvH5Dataset path key a).

Definition print (fmt : string) (args : list pyarg) : M unit :=
  emit (EvPrint fmt args).

End World.
Export World.

(* ================================================================== *)
(** ** barnacle/calibration/dark.py *)
(* ================================================================== *)

Module Dark.

Local Open Scope py_scope.
Local Open Scope string_scope.

(** What the modelled file calls and does not define. *)
Record externals : Type := {
  (** [glint_classes.Null(f).data]: the frames of the exposure [f]. *)
  Null : string -> result arr3;
  (** [get_channel_positions(n)]: channel centres and their gap. *)
  get_channel_positions : Z -> arr1 * npfloat;
  (** The region of the 16 channels in one frame. *)
  channel_slice : arr1 -> npfloat -> list Z -> arr2 -> arr3;
  (** [curve_fit(gaussian_curve, xdata, ydata, p0)[0]]. *)
  curve_fit : arr1 -> arr1 -> arr1 -> result arr1;
  (** [np.histogram(a, bins=n)] with an integer number of bins. *)
  np_histogram_auto : arr1 -> Z -> result (list Z * arr1);
  (** [a.std()]. *)
  np_std : arr1 -> npfloat;
  (** [np.polyfit(x, y, deg)]. *)
  np_polyfit : arr1 -> arr1 -> Z -> result arr1
}.

Definition NB_TRACKS : Z := 16.

(** Modelled from the spec: the attribute [nbimg] of [glint_classes.Null],
    whose class is not in the modelled file; the spec gives the frame count
    of an exposure as the length N of the frame axis of its data. *)
Definition nbimg (data : arr3) : Z := Z.of_nat (List.length data).

(** Modelled from the spec: the method [getChannels] of [glint_classes.Null];
    the spec describes the channel slice as a per-frame extraction of the
    channels' pixel regions, of shape frames x 96 x 16 x 20. *)
Definition getChannels (E : externals) (channel_pos : arr1) (sep : npfloat)
  (spatial_axis : list Z) (data : arr3) : arr4 :=
  map (channel_slice E channel_pos sep spatial_axis) data.

Definition load (E : externals) (f : string) : M arr3 :=
  emit (EvLoad f) ;; lift (Null E f).

Definition arange (n : nat) : list Z := map Z.of_nat (seq 0 n).

(** [np.reshape(a, (-1, 1))] of a flat array, and of a scalar. *)
Definition reshape_col (a : arr1) : arr2 := map (fun x => [x]) a.

(** [np.vstack((a, b))]: the rows of [a] followed by those of [b]; rows
    of different widths are refused. *)
Definition vstack (a b : arr2) : result arr2 :=
  match a, b with
  | ra :: _, rb :: _ =>
      if (List.length ra =? List.length rb)%nat then Ok (a ++ b)%list
      else Raise (ValueError "all the input array dimensions except for the concatenation axis must match exactly")
  | _, _ => Ok (a ++ b)%list
  end.

(** [data.mean(axis=(1, 2))]: the mean of each frame. *)
Definition mean_per_frame (data : arr3) : arr1 :=
  map (fun fr => np_mean (ravel2 fr)) data.

(** *** save_histo_dark *)

Definition track_id : list (string * nat) :=
  [("p1", 15); ("p2", 13); ("p3", 2); ("p4", 0);
   ("null1", 11); ("null2", 3); ("null3", 1); ("null4", 6);
   ("null5", 5); ("null6", 8); ("antinull1", 9); ("antinull2", 12);
   ("antinull3", 14); ("antinull4", 4); ("antinull5", 7);
   ("antinull6", 10)]%nat.

Definition save_histo_dark (path : string) (dic_data : ndarray)
  (mode : string) : M unit :=
  ex <- os_path_exists path ;;
  let opening_mode := if ex then "w" else "a" in
  if String.eqb mode "channel" then
    h5_open path opening_mode ;;
    for_each (fun (_ : unit) (kv : string * nat) =>
                d <- lift (nd_getitem dic_data (snd kv)) ;;
                h5_create_dataset path (fst kv) d)
             track_id tt
  else
    h5_open path opening_mode ;;
    h5_create_dataset path "histogram" dic_data.

(** *** get_histogram *)

(** The data is flattened by the caller's [np.ravel]; flattening a flat
    array again changes nothing. *)
Definition get_histogram (data : arr1) (bins : arr1) : result (list Z) :=
  np_histogram data bins.

(** *** check_dark *)

(** Variables of [check_dark] assigned in its loop over the files; the
    three time series are unbound until the first file is processed. *)
Record diag : Type := {
  hist_slices : list (list (list Z));
  list_hist : list (list Z);
  dark_current : option arr2;
  dk56 : option arr2;
  dk56bis : option arr2
}.

(** [data - data.mean(axis=(1, 2))[:, None, None]]. *)
Definition sub_frame_mean (data : arr3) : arr3 :=
  map (fun fr => let m := np_mean (ravel2 fr) in
                 map (map (fun x => fsub x m)) fr) data.

(** [slices.mean(axis=(1, 3))] for one frame: one mean per channel. *)
Definition mean_axes_1_3 (block : arr3) : arr1 :=
  map (fun k => np_mean (List.concat (map (fun row => nth k row []) block)))
      (seq 0 (List.length (hd [] block))).

(** [slices[:, 56, 15, :]] and [slices[:, 56, 15, 10]] for one frame. *)
Definition at_56_15 (block : arr3) : result arr1 :=
  rbind (getitem block 56) (fun row => getitem row 15).

Definition at_56_15_10 (block : arr3) : result npfloat :=
  rbind (at_56_15 block) (fun v => getitem v 10).

(** [slices[:, :, k, :]]. *)
Definition channel (k : nat) (slices : arr4) : result arr3 :=
  mapr (mapr (fun row => getitem row k)) slices.

(** The three series contributed by one exposure. *)
Definition new_dark_current (slices : arr4) : arr2 :=
  map mean_axes_1_3 slices.

Definition new_dk56 (slices : arr4) : result arr2 :=
  rbind (mapr at_56_15 slices) (fun px => Ok (reshape_col (map np_mean px))).

Definition new_dk56bis (slices : arr4) : result arr2 :=
  rbind (mapr at_56_15_10 slices) (fun px => Ok [[np_mean px]]).

(** The body of the [try]: each statement reads the series it extends. *)
Definition extend_series (st : diag) (slices : arr4)
  : result (arr2 * arr2 * arr2) :=
  rbind (read_local "dark_current" (dark_current st)) (fun dc =>
  rbind (vstack dc (new_dark_current slices)) (fun dc' =>
  rbind (read_local "dk56" (dk56 st)) (fun d =>
  rbind (new_dk56 slices) (fun n56 =>
  rbind (vstack d n56) (fun d' =>
  rbind (new_dk56bis slices) (fun nbis =>
  rbind (vstack d' nbis) (fun bis' =>
  Ok (dc', d', bis')))))))).

(** The handler of [except NameError]. *)
Definition start_series (slices : arr4) : M (arr2 * arr2 * arr2) :=
  print "except 2" [] ;;
  n56 <- lift (new_dk56 slices) ;;
  nbis <- lift (new_dk56bis slices) ;;
  ret (new_dark_current slices, n56, nbis).

Definition time_series (st : diag) (slices : arr4)
  : M (arr2 * arr2 * arr2) :=
  match extend_series st slices with
  | Ok r => ret r
  | Raise e => if is_NameError e then start_series slices else raise e
  end.

(** One iteration of the loop over the files. *)
Definition diagnose (E : externals) (dark_list : list string)
  (channel_pos : arr1) (sep : npfloat) (bin_hist : arr1)
  (super_dark_channel : arr3) (st : diag) (f : string) : M diag :=
  i <- lift (list_index f dark_list) ;;
  print "Histogram of : %s (%d / %d)"
        [AStr f; AInt (Z.of_nat i + 1); AInt (Z.of_nat (List.length dark_list))] ;;
  data <- load E f ;;
  let spatial_axis := arange (List.length data) in
  hist <- lift (np_histogram (ravel3 (sub_frame_mean data)) bin_hist) ;;
  let list_hist' := (list_hist st ++ [hist])%list in
  let slices := getChannels E channel_pos sep spatial_axis data in
  slices <- lift (mapr (fun s => ew3 fsub s super_dark_channel) slices) ;;
  ' (dc, d56, dbis) <- time_series st slices ;;
  histo_per_file <-
    lift (mapr (fun k => rbind (channel k slices) (fun c =>
                         get_histogram (ravel3 c) bin_hist))
               (seq 0 16)) ;;
  ret {| hist_slices := (hist_slices st ++ [histo_per_file])%list;
         list_hist := list_hist';
         dark_current := Some dc;
         dk56 := Some d56;
         dk56bis := Some dbis |}.

(** [np.sum(h, axis=0)] over the files. *)
Definition sum_files (h : list (list (list Z))) : list (list Z) :=
  sum_axis0 (zip_with (zip_with Z.add)) [] h.

Definition sum_hists (h : list (list Z)) : list Z :=
  sum_axis0 (zip_with Z.add) [] h.

(** [h / np.sum(h)]: integer counts over their total, in floating point. *)
Definition normalize (h : list Z) : arr1 :=
  map (fun c => fdiv (of_Z c) (of_Z (sumZ h))) h.

(** [h / np.sum(h, axis=1)[:, None]]. *)
Definition normalize_rows (h : list (list Z)) : arr2 := map normalize h.

(** [super_hist] of [check_dark]: the histograms per channel summed over
    the files and normalized.  Without any file, [np.sum(..., axis=0)] is
    a scalar and the sum over its axis 1 is refused. *)
Definition super_hist_of (hist_slices : list (list (list Z)))
  : result arr2 :=
  match hist_slices with
  | [] => Raise (AxisError "axis 1 is out of bounds for array of dimension 0")
  | _ => Ok (normalize_rows (sum_files hist_slices))
  end.

(** The fit of one normalized histogram with the guess [max, 0, 50]. *)
Definition fit_histogram (E : externals) (bin_hist_cent : arr1) (h : arr1)
  : result arr1 :=
  rbind (py_max h) (fun m => curve_fit E bin_hist_cent h [m; Fin 0; Fin 50]).

Definition fdiff (l : arr1) : arr1 :=
  zip_with (fun a b => fsub b a) l (tl l).

(** Histogram and fit of one pixel series. *)
Definition fit_series (E : externals) (series : arr2) : result arr1 :=
  let flat := ravel2 series in
  rbind (np_histogram_auto E flat (Z.sqrt (Z.of_nat (List.length series))))
    (fun hb =>
  let cent := zip_with fadd (removelast (snd hb))
                (map (fun d => fdiv d (Fin 2)) (fdiff (snd hb))) in
  let h := normalize (fst hb) in
  rbind (py_max h) (fun m =>
  curve_fit E cent h [m; np_mean flat; np_std E flat])).

(** Means over windows of [binning] consecutive samples; an incomplete
    last window is dropped. *)
Definition binned (binning : nat) (a : arr1) : arr1 :=
  map (fun j => np_mean (firstn binning (skipn (binning * j) a)))
      (seq 0 (List.length a / binning)).

Definition drift (E : externals) (series : arr1) : result arr1 :=
  let time := map of_Z (arange (List.length series)) in
  np_polyfit E (binned 10 time) (binned 10 series) 1.

Definition drift_channel (E : externals) (dark_current : arr2) (i : nat)
  : M arr1 :=
  let n := (List.length dark_current / 10 * 10)%nat in
  col <- lift (mapr (fun row => getitem row i) (firstn n dark_current)) ;;
  let b := binned 10 col in
  print "%s %s" [ANum (np_mean b); ANum (np_std E b)] ;;
  lift (np_polyfit E (binned 10 (map of_Z (arange (List.length dark_current))))
                   b 1).

(** The edges of the histograms and their step:
    [np.linspace(edge_min-0.5, edge_max+0.5, edge_max-edge_min+1,
    retstep=True)]. *)
Definition histogram_edges (edge_min edge_max : Z)
  : result (arr1 * npfloat) :=
  linspace (fsub (of_Z edge_min) (Fin (1 # 2)))
           (fadd (of_Z edge_max) (Fin (1 # 2)))
           (edge_max - edge_min + 1).

Definition diag0 : diag :=
  {| hist_slices := []; list_hist := [];
     dark_current := None; dk56 := None; dk56bis := None |}.

Definition check_dark (E : externals) (dark_list : list string)
  (avg_dark : arr2) (channel_pos : arr1) (sep : npfloat)
  (spatial_axis : list Z) (edge_min edge_max : Z)
  (super_dark_channel : arr3) (save : bool) (output_path : string)
  : M (arr2 * arr3 * arr2) :=
  ' (bin_hist, step) <- lift (histogram_edges edge_min edge_max) ;;
  let bin_hist_cent :=
    map (fun e => fadd e (fdiv step (Fin 2))) (removelast bin_hist) in
  st <- for_each (diagnose E dark_list channel_pos sep bin_hist
                           super_dark_channel)
                 dark_list diag0 ;;
  super_hist <- lift (super_hist_of (hist_slices st)) ;;
  let list_hist := normalize (sum_hists (list_hist st)) in
  params <- lift (mapr (fun i => rbind (getitem super_hist i)
                                       (fit_histogram E bin_hist_cent))
                       (seq 0 16)) ;;
  let hist_to_save :=
    map (fun row => zip_with (fun h e => [h; e]) row (removelast bin_hist))
        super_hist in
  let hist_global := [list_hist; removelast bin_hist] in
  when save
    (save_histo_dark (output_path ++ "hist_dk_params.hdf5") (Nd2 params)
                     "channel" ;;
     save_histo_dark (output_path ++ "hist_dk_slices.hdf5")
                     (Nd3 hist_to_save) "channel" ;;
     save_histo_dark (output_path ++ "hist_dk.hdf5") (Nd2 hist_global)
                     "global") ;;
  _ <- lift (fit_histogram E bin_hist_cent list_hist) ;;
  when save (plt_savefig (output_path ++ "histogram_dark_fullframe.png")) ;;
  when save (plt_savefig (output_path ++ "histogram_dark.png")) ;;
  when save (plt_savefig (output_path ++ "histogram_dark_logscale.png")) ;;
  d56 <- lift (read_local "dk56" (dk56 st)) ;;
  _ <- lift (fit_series E d56) ;;
  dbis <- lift (read_local "dk56bis" (dk56bis st)) ;;
  _ <- lift (fit_series E dbis) ;;
  dc <- lift (read_local "dark_current" (dark_current st)) ;;
  for_each (fun (_ : unit) i => _ <- drift_channel E dc i ;; ret tt)
           (seq 0 16) tt ;;
  when save (plt_savefig (output_path ++ "avg_time_lapse.png")) ;;
  _ <- lift (drift E (ravel2 avg_dark)) ;;
  when save (plt_savefig (output_path ++ "avg_dark_fullframe.png")) ;;
  ret (params, hist_to_save, hist_global).

(** *** get_average_dark *)

(** Variables of [get_average_dark] assigned in its loop; [avg_dark] and
    [spatial_axis] are unbound until the loop assigns them. *)
Record acc : Type := {
  super_dark : arr2;
  super_dark_channel : arr3;
  nb_img : Z;
  avg_dark : option arr2;
  spatial_axis : option (list Z)
}.

(** The file selection: [keyword in f and not '.txt' in f]. *)
Definition selected (keyword f : string) : bool :=
  str_in keyword f && negb (str_in ".txt" f).

Definition select_files (data_path keyword : string)
  (nb_files : option Z * option Z) (names : list string) : list string :=
  py_slice (fst nb_files) (snd nb_files)
           (map (fun f => data_path ++ f) (filter (selected keyword) names)).

(** The monitoring statement of the loop, with its [try]. *)
Definition monitor_average (st : acc) (data : arr3) : M (option arr2) :=
  let col := reshape_col (mean_per_frame data) in
  match rbind (read_local "avg_dark" (avg_dark st))
              (fun a => vstack a col) with
  | Ok v => ret (Some v)
  | Raise e =>
      if is_NameError e then print "except" [] ;; ret (Some col)
      else raise e
  end.

(** One iteration of the loop over the files. *)
Definition accumulate (E : externals) (monitor : bool) (channel_pos : arr1)
  (sep : npfloat) (dark_list : list string) (st : acc) (f : string)
  : M acc :=
  i <- lift (list_index f dark_list) ;;
  print "Process of : %s (%d / %d)"
        [AStr f; AInt (Z.of_nat i + 1); AInt (Z.of_nat (List.length dark_list))] ;;
  data <- load E f ;;
  sd <- lift (ew2 fadd (super_dark st)
                       (sum_axis0 add2 (zeros2 344 96) data)) ;;
  let nb := (nb_img st + nbimg data)%Z in
  let sa := arange (List.length data) in
  let slices := getChannels E channel_pos sep sa data in
  sdc <- lift (ew3 fadd (super_dark_channel st)
                        (sum_axis0 add3 (zeros3 96 16 20) slices)) ;;
  avg <- (if monitor then monitor_average st data else ret (avg_dark st)) ;;
  ret {| super_dark := sd; super_dark_channel := sdc; nb_img := nb;
         avg_dark := avg; spatial_axis := Some sa |}.

Definition acc0 : acc :=
  {| super_dark := zeros2 344 96;
     super_dark_channel := zeros3 96 16 20;
     nb_img := 0;
     avg_dark := None;
     spatial_axis := None |}.

(** The division by the frame count and the two [np.save], under
    [if nb_img != 0.]. *)
Definition finalize (st : acc) (save : bool) (output_path : string)
  : M (arr2 * arr3) :=
  if negb (nb_img st =? 0)%Z then
    let sd := div2 (super_dark st) (of_Z (nb_img st)) in
    let sdc := div3 (super_dark_channel st) (of_Z (nb_img st)) in
    when save (np_save (output_path ++ "superdark") (Nd2 sd) ;;
               np_save (output_path ++ "superdarkchannel") (Nd3 sdc)) ;;
    ret (sd, sdc)
  else ret (super_dark st, super_dark_channel st).

(** The statements of [get_average_dark] that follow the selection of
    the files and the creation of the output folder: the accumulation
    over [dark_list], the two averages, the monitoring. *)
Definition average_dark_list (E : externals) (dark_list : list string)
  (output_path : string) (save monitor : bool) (edge_min edge_max : Z)
  : M (arr2 * arr3 * option (arr2 * arr3 * arr2)) :=
  let '(channel_pos, sep) := get_channel_positions E NB_TRACKS in
  st <- for_each (accumulate E monitor channel_pos sep dark_list)
                 dark_list acc0 ;;
  ' (sd, sdc) <- finalize st save output_path ;;
  if monitor then
    avg <- lift (read_local "avg_dark" (avg_dark st)) ;;
    sa <- lift (read_local "spatial_axis" (spatial_axis st)) ;;
    r <- check_dark E dark_list avg channel_pos sep sa edge_min edge_max
                    sdc save output_path ;;
    ret (sd, sdc, Some r)
  else ret (sd, sdc, None).

Definition get_average_dark (E : externals) (data_path output_path : string)
  (nb_files : option Z * option Z) (save monitor : bool) (edges : Z * Z)
  (keyword : string)
  : M (arr2 * arr3 * option (arr2 * arr3 * arr2)) :=
  let '(edge_min, edge_max) := edges in
  names <- os_listdir data_path ;;
  let dark_list := select_files data_path keyword nb_files names in
  ex <- os_path_exists output_path ;;
  when (negb ex) (os_makedirs output_path) ;;
  average_dark_list E dark_list output_path save monitor edge_min edge_max.

End Dark.
Export Dark.

(* ================================================================== *)
(** ** Vocabulary of the specification *)
(* ================================================================== *)

Module Spec.

Local Open Scope string_scope.

(** [sub] occurs in [s]. *)
Definition is_substring (sub s : string) : Prop :=
  exists pre post, s = pre ++ sub ++ post.

(** [s] ends with [suffix]. *)
Definition has_suffix (suffix s : string) : Prop :=
  exists pre, s = pre ++ suffix.

(** The total frame count of a list of exposures, when all of them load. *)
Fixpoint frame_count_total (E : externals) (dark_list : list string)
  : option Z :=
  match dark_list with
  | [] => Some 0%Z
  | f :: r =>
      match Null E f, frame_count_total E r with
      | Ok data, Some n => Some (nbimg data + n)%Z
      | _, _ => None
      end
  end.

(** The events a computation appends to the log of the world [w]. *)
Definition new_events {A} (m : M A) (w : world) : list event :=
  skipn (List.length (log w)) (log (snd (m w))).

Definition is_load (ev : event) : bool :=
  match ev with EvLoad _ => true | _ => false end.

Definition is_np_save (ev : event) : bool :=
  match ev with EvNpSave _ _ => true | _ => false end.

(** Events that write a file or create a directory. *)
Definition is_write (ev : event) : bool :=
  match ev with
  | EvPrint _ _ | EvLoad _ => false
  | _ => true
  end.

Definition is_makedirs (ev : event) : bool :=
  match ev with EvMakedirs _ => true | _ => false end.

(** [extends P T w w']: from [w] to [w'] the listing is unchanged, the
    log grew by events that satisfy [P], and the paths by paths that
    satisfy [T]. *)
Definition extends (P : event -> bool) (T : string -> bool)
  (w w' : world) : Prop :=
  listing w' = listing w /\
  (exists evs, log w' = (log w ++ evs)%list /\ forallb P evs = true) /\
  (exists ps, paths w' = (ps ++ paths w)%list /\ forallb T ps = true).

(** [effects P T m Q]: every run of [m] extends the world within [P] and
    [T], and a value it returns satisfies [Q]. *)
Definition effects (P : event -> bool) (T : string -> bool) {A}
  (m : M A) (Q : A -> Prop) : Prop :=
  forall w,
    extends P T w (snd (m w)) /\
    match fst (m w) with
    | Ok a => Q a
    | Raise _ => True
    end.

(** Events that are neither a write nor the creation of a directory. *)
Definition quiet (ev : event) : bool := negb (is_write ev).

Definition not_np_save (ev : event) : bool := negb (is_np_save ev).

(** The exception that the creation of the output folder raises, if
    any: [os.makedirs] is called when [output_path] does not exist. *)
Definition output_dir_error (output_path : string) (w : world)
  : option exn :=
  if existsb (String.eqb output_path) (paths w) then None
  else snd (fs_makedirs w output_path).

(** The world after the creation of the output folder: unchanged when
    [output_path] exists; otherwise with the parent directories that
    [os.makedirs] makes and, when it succeeds, with [output_path] and
    the record of the call. *)
Definition with_output_dir (output_path : string) (w : world) : world :=
  if existsb (String.eqb output_path) (paths w) then w
  else
    let parents := fst (fs_makedirs w output_path) in
    match snd (fs_makedirs w output_path) with
    | Some _ =>
        {| listing := listing w;
           paths := (rev parents ++ paths w)%list;
           log := log w;
           fs_makedirs := fs_makedirs w;
           fs_open := fs_open w |}
    | None =>
        {| listing := listing w;
           paths := output_path :: (rev parents ++ paths w)%list;
           log := (log w ++ [EvMakedirs output_path])%list;
           fs_makedirs := fs_makedirs w;
           fs_open := fs_open w |}
    end.


(** A sequence of edges whose consecutive elements differ by [w]. *)
Fixpoint constant_step (w : npfloat) (edges : arr1) : Prop :=
  match edges with
  | e :: ((e' :: _) as r) => fsub e' e = w /\ constant_step w r
  | _ => True
  end.

Fixpoint strictly_increasing (edges : arr1) : Prop :=
  match edges with
  | e :: ((e' :: _) as r) => flt e e' = true /\ strictly_increasing r
  | _ => True
  end.

End Spec.
Export Spec.

(* ================================================================== *)
(** ** Concrete runs *)
(* ================================================================== *)

Module Demo.

Local Open Scope string_scope.

(** A frame whose pixel in row [r] holds [v r]. *)
Definition frame_of (v : nat -> Q) : arr2 :=
  map (fun r => repeat (Fin (v r)) 96) (seq 0 344).

(** Channel [k] occupies the rows [4 + 21 k .. 4 + 21 k + 19]. *)
Definition channel_rows (channel_pos : arr1) (sep : npfloat) (k : nat)
  : list nat :=
  match nth k channel_pos NaN, sep with
  | Fin c, Fin s => seq (Z.to_nat (Qfloor (c - s / 2))) (Z.to_nat (Qfloor s))
  | _, _ => []
  end.

Definition slice_of_frame (channel_pos : arr1) (sep : npfloat)
  (spatial_axis : list Z) (fr : arr2) : arr3 :=
  map (fun y =>
         map (fun k =>
                map (fun r => nth y (nth r fr []) NaN)
                    (channel_rows channel_pos sep k))
             (seq 0 (List.length channel_pos)))
      (seq 0 (List.length (hd [] fr))).

(** Exposures of the demonstration folder. *)
Definition in_channel (k r : nat) : bool :=
  ((4 + 21 * k <=? r) && (r <? 4 + 21 * k + 20))%nat.

Definition exposure (f : string) : result arr3 :=
  if String.eqb f "data/dark_empty.mat" then Ok []
  else if String.eqb f "data/dark_ramp.mat" then
    Ok [frame_of (fun r => inject_Z (Z.of_nat r));
        frame_of (fun r => inject_Z (2 * Z.of_nat r))]
  else if String.eqb f "data/dark_hot_a.mat" then
    Ok [frame_of (fun r => if in_channel 3 r then 1000 else 0)]
  else if String.eqb f "data/dark_hot_b.mat" then
    Ok [frame_of (fun r => if in_channel 3 r then -1000 else 0)]
  else Raise (FileNotFoundError f).

(** The fit refuses data that is not finite and otherwise returns its
    initial guess. *)
Definition fit (xdata ydata p0 : arr1) : result arr1 :=
  if forallb is_finite ydata then Ok p0
  else Raise (ValueError "array must not contain infs or NaNs").

Definition E : externals :=
  {| Null := exposure;
     get_channel_positions :=
       fun n => (map (fun k => Fin (inject_Z (14 + 21 * Z.of_nat k)))
                     (seq 0 (Z.to_nat n)), Fin 20);
     channel_slice := slice_of_frame;
     curve_fit := fit;
     np_histogram_auto :=
       fun a n => if (n <=? 0)%Z
                  then Raise (ValueError "`bins` must be positive")
                  else Ok ([Z.of_nat (List.length a)], [Fin 0; Fin 1]);
     np_std := fun _ => Fin 0;
     np_polyfit :=
       fun x y deg => match x with
                      | [] => Raise (TypeError "expected non-empty vector for x")
                      | _ => Ok [Fin 0; Fin 0]
                      end |}.

Definition folder (names : list string) (d : string)
  : option (list string) :=
  if String.eqb d "data/" then Some names else None.

(** A world whose data folder holds [names] and where [dirs] exist;
    every directory and file can be created, no parent is missing. *)
Definition world_of (names dirs : list string) : world :=
  {| listing := folder names; paths := dirs; log := [];
     fs_makedirs := fun _ => ([], None);
     fs_open := fun _ => None |}.

(** The same world on a file system that refuses every creation. *)
Definition read_only_world (names dirs : list string) : world :=
  {| listing := folder names; paths := dirs; log := [];
     fs_makedirs := fun p => ([], Some (PermissionError p));
     fs_open := fun p => Some (PermissionError p) |}.

(** The same world where the output folder lies two levels below the
    existing directories: [os.makedirs] creates its parent first. *)
Definition nested_world (names dirs : list string) : world :=
  {| listing := folder names; paths := dirs; log := [];
     fs_makedirs := fun p => (if String.eqb p "results/dark/"
                              then ["results"] else [], None);
     fs_open := fun _ => None |}.

(** The averages per channel that [get_average_dark] computes for the
    files of the data folder whose name contains [keyword]. *)
Definition average_of (names : list string) (keyword : string) : arr3 :=
  match fst (get_average_dark E "data/" "out/" (None, None) false false
               (-2, 2)%Z keyword (world_of names ["out/"])) with
  | Ok (_, sdc, _) => sdc
  | Raise _ => []
  end.

Definition edges_2 : arr1 :=
  match histogram_edges (-2) 2 with
  | Ok (bin_hist, _) => bin_hist
  | Raise _ => []
  end.

(** The variables of [check_dark] after its loop over [dark_list], with
    the baseline [sdc] and the edges for the bounds (-2, 2). *)
Definition diag_after (dark_list : list string) (sdc : arr3)
  : result diag :=
  fst (for_each (diagnose E dark_list
                          (fst (get_channel_positions E NB_TRACKS))
                          (snd (get_channel_positions E NB_TRACKS))
                          edges_2 sdc)
                dark_list diag0 (world_of [] ["out/"])).

Definition ramp_names : list string := ["dark_ramp.mat"].
Definition ramp_list : list string := ["data/dark_ramp.mat"].
Definition hot_names : list string := ["dark_hot_a.mat"; "dark_hot_b.mat"].
Definition hot_list : list string :=
  ["data/dark_hot_a.mat"; "data/dark_hot_b.mat"].

End Demo.

(* ================================================================== *)
(** * Vocabulary of the properties of the loops and of the written files *)
(* ================================================================== *)

Module Props.

Definition in_range (lo hi x : npfloat) : bool := fle lo x && fle x hi.

(** The path an event writes, if it writes one. *)
Definition event_path (ev : event) : option string :=
  match ev with
  | EvMakedirs p | EvNpSave p _ | EvH5Open p _ | EvH5Dataset p _ _
  | EvSavefig p => Some p
  | EvPrint _ _ | EvLoad _ => None
  end.

(** An event that writes nothing outside of [output_path]: its path, if
    any, starts with [output_path]. *)
Definition under (output_path : string) (ev : event) : bool :=
  match event_path ev with
  | Some p => String.prefix output_path p
  | None => true
  end.

(** The dataset written for the key of index [i]. *)
Definition dataset_of (dic_data : ndarray) (i : nat) : ndarray :=
  match nd_getitem dic_data i with
  | Ok d => d
  | Raise _ => Nd0 NaN
  end.

(** The world after [h5py.File(path, mode)] and the datasets [ds]. *)
Definition with_h5_file (path : string) (ds : list (string * ndarray))
  (w : world) : world :=
  {| listing := listing w;
     paths := path :: paths w;
     log := (log w
             ++ EvH5Open path
                  (if existsb (String.eqb path) (paths w) then "w" else "a")
             :: map (fun kd => EvH5Dataset path (fst kd) (snd kd)) ds)%list;
     fs_makedirs := fs_makedirs w;
     fs_open := fs_open w |}.

Definition has_shape2 (n m : nat) (a : arr2) : Prop :=
  List.length a = n /\ Forall (fun r => List.length r = m) a.

Definition has_shape3 (n m k : nat) (a : arr3) : Prop :=
  List.length a = n /\ Forall (has_shape2 m k) a.

(** What the loop of [get_average_dark] keeps true of its variables once
    it has processed the files [done]. *)
Definition accumulated (E : externals) (monitor : bool)
  (done : list string) (st : acc) : Prop :=
  has_shape2 344 96 (super_dark st) /\
  has_shape3 96 16 20 (super_dark_channel st) /\
  frame_count_total E done = Some (nb_img st) /\
  (monitor = true ->
   match avg_dark st with
   | None => done = []
   | Some a => Z.of_nat (List.length a) = nb_img st
   end) /\
  (done <> [] -> exists sa, spatial_axis st = Some sa).

(** What the loop of [check_dark] keeps true of its variables once it
    has processed the files [done]: one table of 16 histograms and one
    global histogram per file; the series are unbound before the first
    file; afterwards [dark_current] and [dk56] hold one row per frame,
    and [dk56bis] a single row after the first file and the rows of
    [dk56] followed by a single row after the next ones. *)
Definition diagnosed (E : externals) (done : list string) (st : diag)
  : Prop :=
  List.length (hist_slices st) = List.length done /\
  Forall (fun h => List.length h = 16%nat) (hist_slices st) /\
  List.length (list_hist st) = List.length done /\
  exists n,
    frame_count_total E done = Some n /\
    match done with
    | [] => dark_current st = None /\ dk56 st = None /\ dk56bis st = None
    | _ :: rest =>
        exists dc d row,
          dark_current st = Some dc /\ dk56 st = Some d /\
          dk56bis st = Some (match rest with
                             | [] => [row]
                             | _ :: _ => (d ++ [row])%list
                             end) /\
          Z.of_nat (List.length dc) = n /\ Z.of_nat (List.length d) = n
    end.

(** The variables of [check_dark] when its loop over the files
    completes, for the edges of the bounds [edge_min] and [edge_max]. *)
Definition check_dark_loop (E : externals) (dark_list : list string)
  (channel_pos : arr1) (sep : npfloat) (edge_min edge_max : Z)
  (super_dark_channel : arr3) (w : world) : result diag :=
  rbind (histogram_edges edge_min edge_max) (fun eb =>
    fst (for_each (diagnose E dark_list channel_pos sep (fst eb)
                            super_dark_channel)
                  dark_list diag0 w)).

(** The histogram of channel [k] summed over the files. *)
Definition channel_counts (st : diag) (k : nat) : list Z :=
  nth k (sum_files (hist_slices st)) [].

(** [hist_to_save[k, :, 0]]: the histogram of channel [k] in what
    [check_dark] returns. *)
Definition saved_histogram (hist_channels : arr3) (k : nat) : arr1 :=
  map (fun pair => hd NaN pair) (nth k hist_channels []).

(** [bin_hist_cent] of [check_dark]: the left edges plus half a step. *)
Definition bin_centres (edge_min edge_max : Z) : arr1 :=
  match histogram_edges edge_min edge_max with
  | Ok (bin_hist, step) =>
      map (fun e => fadd e (fdiv step (Fin 2))) (removelast bin_hist)
  | Raise _ => []
  end.

(** A table of histograms of one file over [nbins] bins: one row per
    channel, counts that are not negative. *)
Definition histogram_table (nbins : nat) (t : list (list Z)) : Prop :=
  List.length t = 16%nat /\
  Forall (fun h => List.length h = nbins /\
                   Forall (fun c => (0 <= c)%Z) h) t.

End Props.
Export Props.

(* ================================================================== *)
(** * Runs of the demonstration exposures *)
(* ================================================================== *)

Module Runs.

Local Open Scope string_scope.

(** An exposure of ten frames without signal, beside the exposures of
    [Demo.exposure]. *)
Definition exposure10 (f : string) : result arr3 :=
  if String.eqb f "data/dark_flat.mat"
  then Ok (repeat (Demo.frame_of (fun _ => 0%Q)) 10)
  else Demo.exposure f.

Definition E10 : externals :=
  {| Null := exposure10;
     get_channel_positions := get_channel_positions Demo.E;
     channel_slice := channel_slice Demo.E;
     curve_fit := curve_fit Demo.E;
     np_histogram_auto := np_histogram_auto Demo.E;
     np_std := np_std Demo.E;
     np_polyfit := np_polyfit Demo.E |}.

Definition flat_list : list string := ["data/dark_flat.mat"].

(** Whether a call returned. *)
Definition is_ok {A : Type} (r : result A) : bool :=
  match r with Ok _ => true | Raise _ => false end.

(** The value a call returned, or [d] when it raised. *)
Definition returned {A : Type} (d : A) (r : result A) : A :=
  match r with Ok x => x | Raise _ => d end.

Definition no_average : arr2 * arr3 * option (arr2 * arr3 * arr2) :=
  ([], [], None).

Definition no_check : arr2 * arr3 * arr2 := ([], [], []).

(** The runs below are abbreviations: each name stands for the call
    that it shows. *)

(** The loop of [get_average_dark] over the ramp exposure, with
    monitoring, and its variables at the end. *)
Abbreviation ramp_loop :=
  (fst (for_each (accumulate Demo.E true
                    (fst (get_channel_positions Demo.E NB_TRACKS))
                    (snd (get_channel_positions Demo.E NB_TRACKS))
                    Demo.ramp_list)
                 Demo.ramp_list acc0 (Demo.world_of [] ["out/"]))).

Abbreviation ramp_acc := (returned acc0 ramp_loop).

(** [get_average_dark] over the ramp exposure, saving, and what it
    returns. *)
Abbreviation ramp_run :=
  (fst (get_average_dark Demo.E "data/" "out/" (None, None) true false
                         (-2, 2)%Z "ramp"
                         (Demo.world_of Demo.ramp_names ["out/"]))).

Abbreviation ramp_sd := (fst (fst (returned no_average ramp_run))).
Abbreviation ramp_sdc := (snd (fst (returned no_average ramp_run))).
Abbreviation ramp_monitored := (snd (returned no_average ramp_run)).

(** The loop of [check_dark] over the ramp exposure. *)
Abbreviation ramp_diag_loop :=
  (fst (for_each (diagnose Demo.E Demo.ramp_list
                    (fst (get_channel_positions Demo.E NB_TRACKS))
                    (snd (get_channel_positions Demo.E NB_TRACKS))
                    Demo.edges_2 (Demo.average_of Demo.ramp_names "ramp"))
                 Demo.ramp_list diag0 (Demo.world_of [] ["out/"]))).

Abbreviation ramp_diag := (returned diag0 ramp_diag_loop).

(** [check_dark] over the exposure of ten frames, and what it
    returns. *)
Abbreviation flat_check :=
  (fst (check_dark E10 flat_list (repeat [Fin 0] 10)
          (fst (get_channel_positions E10 NB_TRACKS))
          (snd (get_channel_positions E10 NB_TRACKS))
          (arange 10) (-2) 2 (zeros3 96 16 20) true "out/"
          (Demo.world_of [] ["out/"]))).

Abbreviation flat_params := (fst (fst (returned no_check flat_check))).
Abbreviation flat_hist_channels := (snd (fst (returned no_check flat_check))).
Abbreviation flat_hist_global := (snd (returned no_check flat_check)).

(** The loop of [check_dark] over the two exposures whose channel 3
    lies outside of the edges. *)
Abbreviation hot_loop :=
  (check_dark_loop Demo.E Demo.hot_list
     (fst (get_channel_positions Demo.E NB_TRACKS))
     (snd (get_channel_positions Demo.E NB_TRACKS))
     (-2) 2 (Demo.average_of Demo.hot_names "hot")
     (Demo.world_of [] ["out/"])).

Abbreviation hot_diag := (returned diag0 hot_loop).

End Runs.

(* ================================================================== *)
(** ** Strings *)
(* ================================================================== *)

Section StringFacts.

Local Open Scope string_scope.

Lemma prefix_spec (sub s : string) :
  String.prefix sub s = true <-> exists post, s = sub ++ post.
Proof.
  revert s. induction sub as [|c sub IH]; intros s.
  - split; [intros _; now exists s | intros _; now destruct s].
  - destruct s as [|d s]; simpl.
    + split; [discriminate | intros [post H]; discriminate].
    + destruct (Ascii.ascii_dec c d) as [->|Hcd].
      * rewrite IH. split; intros [post H]; exists post.
        -- now rewrite H.
        -- now inversion H.
      * split; [discriminate | intros [post H]; inversion H; congruence].
Qed.

Lemma str_in_unfold (sub s : string) :
  str_in sub s =
  String.prefix sub s
  || match s with
     | EmptyString => false
     | String _ s' => str_in sub s'
     end.
Proof. destruct s; cbn [str_in]; now destruct (String.prefix sub _). Qed.

Lemma str_in_spec (sub s : string) :
  str_in sub s = true <-> is_substring sub s.
Proof.
  unfold is_substring. induction s as [|c s IH];
    rewrite str_in_unfold, orb_true_iff, prefix_spec.
  - split.
    + intros [[post H]|H]; [now exists "", post | discriminate].
    + intros [pre [post H]]. left. exists post.
      destruct pre; [exact H | discriminate].
  - rewrite IH. split.
    + intros [[post H]|[pre [post H]]].
      * now exists "", post.
      * exists (String c pre), post. simpl. now rewrite H.
    + intros [pre [post H]]. destruct pre as [|d pre].
      * left. now exists post.
      * right. simpl in H. inversion H. now exists pre, post.
Qed.

Lemma str_endswith_spec (suffix s : string) :
  str_endswith suffix s = true <-> has_suffix suffix s.
Proof.
  unfold has_suffix. induction s as [|c s IH]; cbn [str_endswith].
  - destruct (String.eqb_spec "" suffix) as [<-|Hne].
    + split; [intros _; now exists "" | reflexivity].
    + split; [discriminate |].
      intros [pre H]. destruct pre; [|discriminate]. simpl in H. congruence.
  - destruct (String.eqb_spec (String c s) suffix) as [<-|Hne].
    + split; [intros _; now exists "" | reflexivity].
    + rewrite IH. split.
      * intros [pre H]. exists (String c pre). simpl. now rewrite H.
      * intros [pre H]. destruct pre as [|d pre].
        -- simpl in H. congruence.
        -- simpl in H. inversion H. now exists pre.
Qed.

End StringFacts.

(* ================================================================== *)
(** ** Reasoning about effects *)
(* ================================================================== *)

Section Effects.

Variable P : event -> bool.
Variable T : string -> bool.

Local Open Scope py_scope.

Lemma extends_refl w : extends P T w w.
Proof.
  repeat split.
  - exists []. now rewrite app_nil_r.
  - now exists [].
Qed.

Lemma extends_trans w1 w2 w3 :
  extends P T w1 w2 -> extends P T w2 w3 -> extends P T w1 w3.
Proof.
  intros (Hl1 & (e1 & He1 & Hp1) & (p1 & Hq1 & Ht1))
         (Hl2 & (e2 & He2 & Hp2) & (p2 & Hq2 & Ht2)).
  repeat split.
  - congruence.
  - exists (e1 ++ e2)%list. rewrite He2, He1, app_assoc, forallb_app, Hp1, Hp2.
    now split.
  - exists (p2 ++ p1)%list. rewrite Hq2, Hq1, app_assoc, forallb_app, Ht1, Ht2.
    now split.
Qed.

Lemma effects_ret {A} (a : A) (Q : A -> Prop) : Q a -> effects P T (ret a) Q.
Proof. intros H w. split; [apply extends_refl | exact H]. Qed.

Lemma effects_raise {A} (e : exn) (Q : A -> Prop) : effects P T (raise e) Q.
Proof. intros w. split; [apply extends_refl | exact I]. Qed.

Lemma effects_lift {A} (r : result A) (Q : A -> Prop) :
  (forall a, r = Ok a -> Q a) -> effects P T (lift r) Q.
Proof.
  intros H w. split; [apply extends_refl |].
  simpl. destruct r; [now apply H | exact I].
Qed.

Lemma effects_bind {A B} (m : M A) (k : A -> M B) (Q : A -> Prop)
  (R : B -> Prop) :
  effects P T m Q -> (forall a, Q a -> effects P T (k a) R) ->
  effects P T (bind m k) R.
Proof.
  intros Hm Hk w. unfold bind. destruct (Hm w) as [He Hq].
  destruct (m w) as [[a|e] w1]; simpl in *.
  - destruct (Hk a Hq w1) as [He' Hr]. split; [|exact Hr].
    eapply extends_trans; eassumption.
  - split; [exact He | exact I].
Qed.

Lemma effects_weaken {A} (m : M A) (Q R : A -> Prop) :
  effects P T m Q -> (forall a, Q a -> R a) -> effects P T m R.
Proof.
  intros Hm H w. destruct (Hm w) as [He Hq]. split; [exact He|].
  destruct (fst (m w)); [now apply H | exact I].
Qed.

Lemma effects_emit (ev : event) :
  P ev = true -> effects P T (emit ev) (fun _ => True).
Proof.
  intros H w. split; [|exact I]. repeat split; simpl.
  - exists [ev]. simpl. now rewrite H.
  - now exists [].
Qed.

Lemma effects_touch (p : string) :
  T p = true -> effects P T (touch p) (fun _ => True).
Proof.
  intros H w. split; [|exact I]. repeat split; simpl.
  - exists []. now rewrite app_nil_r.
  - exists [p]. simpl. now rewrite H.
Qed.

Lemma effects_when (b : bool) (m : M unit) :
  (b = true -> effects P T m (fun _ => True)) ->
  effects P T (when b m) (fun _ => True).
Proof.
  intros H. destruct b; simpl; [now apply H | now apply effects_ret].
Qed.

Lemma effects_for_each {A S} (body : S -> A -> M S) (I : S -> Prop)
  (l : list A) :
  (forall s x, In x l -> I s -> effects P T (body s x) I) ->
  forall s, I s -> effects P T (for_each body l s) I.
Proof.
  induction l as [|x l IH]; intros Hb s Hs; simpl.
  - now apply effects_ret.
  - eapply effects_bind.
    + apply Hb; [now left | exact Hs].
    + intros s' Hs'. apply IH; [|exact Hs'].
      intros s0 y Hy. apply Hb. now right.
Qed.

Lemma effects_os_path_exists (p : string) :
  effects P T (os_path_exists p) (fun _ => True).
Proof. intros w. split; [apply extends_refl | exact I]. Qed.

Lemma effects_open_for_writing (p : string) :
  effects P T (open_for_writing p) (fun _ => True).
Proof.
  intros w. unfold open_for_writing.
  destruct (fs_open w p); (split; [apply extends_refl | exact I]).
Qed.

End Effects.

Lemma new_events_extends {A} (m : M A) (w : world) (evs : list event) :
  log (snd (m w)) = (log w ++ evs)%list -> new_events m w = evs.
Proof.
  intros H. unfold new_events. rewrite H.
  rewrite skipn_app, skipn_all, Nat.sub_diag. reflexivity.
Qed.

Section DarkEffects.

Variable P : event -> bool.
Variable T : string -> bool.
Variable E : externals.

Hypothesis Hprint : forall fmt args, P (EvPrint fmt args) = true.
Hypothesis Hload : forall f, P (EvLoad f) = true.

Local Open Scope py_scope.

Lemma effects_lift_any {A} (r : result A) :
  effects P T (lift r) (fun _ => True).
Proof. now apply effects_lift. Qed.

Lemma effects_print fmt args :
  effects P T (print fmt args) (fun _ => True).
Proof. apply effects_emit, Hprint. Qed.

Lemma effects_load f :
  effects P T (load E f) (fun data => Null E f = Ok data).
Proof.
  unfold load. eapply effects_bind.
  - apply effects_emit, Hload.
  - intros _ _. now apply effects_lift.
Qed.

Lemma effects_monitor_average st data :
  effects P T (monitor_average st data) (fun _ => True).
Proof.
  unfold monitor_average.
  destruct (rbind _ _) as [v|e].
  - now apply effects_ret.
  - destruct (is_NameError e).
    + eapply effects_bind; [apply effects_print | intros _ _].
      now apply effects_ret.
    + apply effects_raise.
Qed.

Lemma effects_accumulate monitor channel_pos sep dark_list st f :
  effects P T (accumulate E monitor channel_pos sep dark_list st f)
    (fun st' => exists data,
       Null E f = Ok data /\ nb_img st' = (nb_img st + nbimg data)%Z).
Proof.
  unfold accumulate.
  eapply effects_bind; [apply effects_lift_any | intros i _].
  eapply effects_bind; [apply effects_print | intros _ _].
  eapply effects_bind; [apply effects_load | intros data Hdata].
  eapply effects_bind; [apply effects_lift_any | intros sd _].
  eapply effects_bind; [apply effects_lift_any | intros sdc _].
  eapply effects_bind with (Q := fun _ => True).
  - destruct monitor; [apply effects_monitor_average | now apply effects_ret].
  - intros avg _. apply effects_ret. now exists data.
Qed.

Lemma effects_time_series st slices :
  effects P T (time_series st slices) (fun _ => True).
Proof.
  unfold time_series. destruct (extend_series st slices) as [r|e].
  - now apply effects_ret.
  - destruct (is_NameError e); [|apply effects_raise].
    unfold start_series.
    eapply effects_bind; [apply effects_print | intros _ _].
    eapply effects_bind; [apply effects_lift_any | intros n56 _].
    eapply effects_bind; [apply effects_lift_any | intros nbis _].
    now apply effects_ret.
Qed.

Lemma effects_diagnose dark_list channel_pos sep bin_hist sdc st f :
  effects P T (diagnose E dark_list channel_pos sep bin_hist sdc st f)
    (fun _ => True).
Proof.
  unfold diagnose.
  eapply effects_bind; [apply effects_lift_any | intros i _].
  eapply effects_bind; [apply effects_print | intros _ _].
  eapply effects_bind; [apply effects_load | intros data _].
  eapply effects_bind; [apply effects_lift_any | intros hist _].
  eapply effects_bind; [apply effects_lift_any | intros slices _].
  eapply effects_bind; [apply effects_time_series | intros [[dc d56] dbis] _].
  eapply effects_bind; [apply effects_lift_any | intros hpf _].
  now apply effects_ret.
Qed.

Lemma effects_drift_channel dc i :
  effects P T (drift_channel E dc i) (fun _ => True).
Proof.
  unfold drift_channel.
  eapply effects_bind; [apply effects_lift_any | intros col _].
  eapply effects_bind; [apply effects_print | intros _ _].
  apply effects_lift_any.
Qed.

(** Writers are reached only under [if save]. *)
Section Writers.

Variable save : bool.
Hypothesis Hopen : save = true -> forall p m, P (EvH5Open p m) = true.
Hypothesis Hdata : save = true -> forall p k a, P (EvH5Dataset p k a) = true.
Hypothesis Hfig : save = true -> forall p, P (EvSavefig p) = true.
Hypothesis Htouch : save = true -> forall p, T p = true.

Lemma effects_save_histo_dark path dic_data mode :
  save = true ->
  effects P T (save_histo_dark path dic_data mode) (fun _ => True).
Proof.
  intros Hs. unfold save_histo_dark.
  eapply effects_bind; [apply effects_os_path_exists | intros ex _].
  assert (forall m, effects P T (h5_open path m) (fun _ => True)) as Ho.
  { intros m. unfold h5_open.
    eapply effects_bind; [apply effects_open_for_writing | intros _ _].
    eapply effects_bind; [apply effects_emit, Hopen, Hs | intros _ _].
    apply effects_touch, Htouch, Hs. }
  destruct (String.eqb mode "channel").
  - eapply effects_bind; [apply Ho | intros _ _].
    apply effects_for_each with (I := fun _ => True); [|exact I].
    intros [] kv _ _.
    eapply effects_bind; [apply effects_lift_any | intros d _].
    apply effects_emit, Hdata, Hs.
  - eapply effects_bind; [apply Ho | intros _ _].
    apply effects_emit, Hdata, Hs.
Qed.

Lemma effects_when_savefig path :
  effects P T (when save (plt_savefig path)) (fun _ => True).
Proof.
  apply effects_when. intros Hs. unfold plt_savefig.
  eapply effects_bind; [apply effects_open_for_writing | intros _ _].
  eapply effects_bind; [apply effects_emit, Hfig, Hs | intros _ _].
  apply effects_touch, Htouch, Hs.
Qed.

Lemma effects_check_dark dark_list avg channel_pos sep spatial_axis
  edge_min edge_max sdc output_path :
  effects P T
    (check_dark E dark_list avg channel_pos sep spatial_axis edge_min
                edge_max sdc save output_path)
    (fun _ => True).
Proof.
  unfold check_dark.
  eapply effects_bind; [apply effects_lift_any | intros [bin_hist step] _].
  eapply effects_bind.
  { apply effects_for_each with (I := fun _ => True); [|exact I].
    intros s x _ _. apply effects_diagnose. }
  intros st _.
  eapply effects_bind; [apply effects_lift_any | intros super_hist _].
  eapply effects_bind; [apply effects_lift_any | intros params _].
  eapply effects_bind.
  { apply effects_when. intros Hs.
    eapply effects_bind; [now apply effects_save_histo_dark | intros _ _].
    eapply effects_bind; [now apply effects_save_histo_dark | intros _ _].
    now apply effects_save_histo_dark. }
  intros _ _.
  eapply effects_bind; [apply effects_lift_any | intros _ _].
  eapply effects_bind; [apply effects_when_savefig | intros _ _].
  eapply effects_bind; [apply effects_when_savefig | intros _ _].
  eapply effects_bind; [apply effects_when_savefig | intros _ _].
  eapply effects_bind; [apply effects_lift_any | intros d56 _].
  eapply effects_bind; [apply effects_lift_any | intros _ _].
  eapply effects_bind; [apply effects_lift_any | intros dbis _].
  eapply effects_bind; [apply effects_lift_any | intros _ _].
  eapply effects_bind; [apply effects_lift_any | intros dc _].
  eapply effects_bind.
  { apply effects_for_each with (I := fun _ => True); [|exact I].
    intros [] i _ _.
    eapply effects_bind; [apply effects_drift_channel | intros _ _].
    now apply effects_ret. }
  intros _ _.
  eapply effects_bind; [apply effects_when_savefig | intros _ _].
  eapply effects_bind; [apply effects_lift_any | intros _ _].
  eapply effects_bind; [apply effects_when_savefig | intros _ _].
  now apply effects_ret.
Qed.

End Writers.

(** The two [np.save] are reached only with [save] and a frame count
    that is not zero. *)
Lemma effects_finalize st save output_path :
  (save = true -> nb_img st <> 0%Z ->
   (forall p a, P (EvNpSave p a) = true) /\ (forall p, T p = true)) ->
  effects P T (finalize st save output_path) (fun _ => True).
Proof.
  intros H. unfold finalize.
  destruct (Z.eqb_spec (nb_img st) 0) as [Hz|Hz]; simpl.
  - now apply effects_ret.
  - eapply effects_bind; [|intros _ _; now apply effects_ret].
    apply effects_when. intros Hs. destruct (H Hs Hz) as [Hp Ht].
    unfold np_save.
    eapply effects_bind.
    { eapply effects_bind; [apply effects_open_for_writing | intros _ _].
      eapply effects_bind; [apply effects_emit, Hp | intros _ _].
      apply effects_touch, Ht. }
    intros _ _.
    eapply effects_bind; [apply effects_open_for_writing | intros _ _].
    eapply effects_bind; [apply effects_emit, Hp | intros _ _].
    apply effects_touch, Ht.
Qed.

End DarkEffects.

(* ================================================================== *)
(** ** get_average_dark: selection, accumulation, finalization *)
(* ================================================================== *)

Section AverageDark.

Variable E : externals.

Local Open Scope py_scope.

Lemma touch_all (ds : list string) (w : world) :
  for_each (fun (_ : unit) d => touch d) ds tt w
  = (Ok tt, {| listing := listing w;
               paths := (rev ds ++ paths w)%list;
               log := log w;
               fs_makedirs := fs_makedirs w;
               fs_open := fs_open w |}).
Proof.
  revert w. induction ds as [|d ds IH]; intros w.
  - destruct w; reflexivity.
  - cbn [for_each]. unfold bind at 1. cbn [touch]. rewrite IH.
    cbn [listing paths log fs_makedirs fs_open rev].
    now rewrite <- app_assoc.
Qed.

(** The creation of the output folder, the first effect of
    [get_average_dark]. *)
Lemma output_dir_step output_path w :
  (ex <- os_path_exists output_path ;;
   when (negb ex) (os_makedirs output_path)) w
  = (match output_dir_error output_path w with
     | Some e => Raise e
     | None => Ok tt
     end, with_output_dir output_path w).
Proof.
  unfold output_dir_error, with_output_dir, bind at 1, os_path_exists.
  destruct (existsb (String.eqb output_path) (paths w)) eqn:Hex;
    cbn [negb when]; [reflexivity|].
  unfold os_makedirs, bind at 1, os_path_exists. rewrite Hex.
  unfold bind at 1. destruct (fs_makedirs w output_path) as [parents err].
  unfold bind at 1. rewrite touch_all. cbn [fst snd].
  destruct err as [e|]; reflexivity.
Qed.

(** With a data folder that can be listed and an output folder that
    exists or can be created, [get_average_dark] is [average_dark_list]
    on the selected files, in the world where the output folder
    exists. *)
Lemma get_average_dark_run w data_path output_path nb_files save monitor
  edges keyword names :
  listing w data_path = Some names ->
  output_dir_error output_path w = None ->
  get_average_dark E data_path output_path nb_files save monitor edges
                   keyword w
  = average_dark_list E (select_files data_path keyword nb_files names)
                      output_path save monitor (fst edges) (snd edges)
                      (with_output_dir output_path w).
Proof.
  intros Hl Hd. destruct edges as [edge_min edge_max].
  pose proof (output_dir_step output_path w) as Hs. rewrite Hd in Hs.
  unfold get_average_dark, bind at 1, os_listdir. rewrite Hl.
  unfold bind at 1 in Hs. unfold bind at 1.
  unfold os_path_exists in *. cbv beta iota in *.
  unfold bind at 1. now rewrite Hs.
Qed.

(** When the output folder cannot be created, the error of
    [os.makedirs] ends the run before anything else is done. *)
Lemma get_average_dark_no_output_dir w data_path output_path nb_files
  save monitor edges keyword names e :
  listing w data_path = Some names ->
  output_dir_error output_path w = Some e ->
  get_average_dark E data_path output_path nb_files save monitor edges
                   keyword w
  = (Raise e, with_output_dir output_path w).
Proof.
  intros Hl Hd. destruct edges as [edge_min edge_max].
  pose proof (output_dir_step output_path w) as Hs. rewrite Hd in Hs.
  unfold get_average_dark, bind at 1, os_listdir. rewrite Hl.
  unfold bind at 1 in Hs. unfold bind at 1.
  unfold os_path_exists in *. cbv beta iota in *.
  unfold bind at 1. now rewrite Hs.
Qed.

Lemma get_average_dark_no_folder w data_path output_path nb_files save
  monitor edges keyword :
  listing w data_path = None ->
  get_average_dark E data_path output_path nb_files save monitor edges
                   keyword w
  = (Raise (FileNotFoundError data_path), w).
Proof.
  intros Hl. destruct edges as [edge_min edge_max].
  unfold get_average_dark, bind at 1, os_listdir. now rewrite Hl.
Qed.

(** A run that returns has listed the data folder and found or made the
    output folder. *)
Lemma get_average_dark_returned w data_path output_path nb_files save
  monitor edges keyword r :
  fst (get_average_dark E data_path output_path nb_files save monitor
                        edges keyword w) = Ok r ->
  exists names,
    listing w data_path = Some names /\
    output_dir_error output_path w = None.
Proof.
  intros H. destruct (listing w data_path) as [names|] eqn:Hl.
  - exists names. split; [reflexivity|].
    destruct (output_dir_error output_path w) as [e|] eqn:Hd;
      [|reflexivity].
    erewrite get_average_dark_no_output_dir in H by eassumption.
    discriminate H.
  - erewrite get_average_dark_no_folder in H by exact Hl. discriminate H.
Qed.

Lemma extends_with_output_dir (P : event -> bool) (T : string -> bool)
  output_path w :
  P (EvMakedirs output_path) = true -> T output_path = true ->
  forallb T (fst (fs_makedirs w output_path)) = true ->
  extends P T w (with_output_dir output_path w).
Proof.
  intros Hp Ht Hps. unfold with_output_dir.
  destruct (existsb _ _); [apply extends_refl|].
  assert (forallb T (rev (fst (fs_makedirs w output_path))) = true)
    as Hrev.
  { apply forallb_forall. intros x Hx. apply in_rev in Hx.
    now apply (proj1 (forallb_forall _ _) Hps). }
  destruct (snd (fs_makedirs w output_path)); repeat split; simpl.
  - exists []. now rewrite app_nil_r.
  - now exists (rev (fst (fs_makedirs w output_path))).
  - exists [EvMakedirs output_path]. simpl. now rewrite Hp.
  - exists (output_path :: rev (fst (fs_makedirs w output_path))).
    simpl. now rewrite Ht, Hrev.
Qed.

Lemma list_index_in f l : In f l -> exists i, list_index f l = Ok i.
Proof.
  induction l as [|y l IH]; [intros []|]. intros Hin. simpl.
  destruct (String.eqb_spec f y) as [|Hne]; [now exists O|].
  destruct Hin as [->|Hin]; [congruence|].
  destruct (IH Hin) as [i Hi]. rewrite Hi. now exists (S i).
Qed.

Lemma frame_count_total_nonneg l n :
  frame_count_total E l = Some n -> (0 <= n)%Z.
Proof.
  revert n. induction l as [|f l IH]; simpl; intros n H.
  - inversion H. lia.
  - destruct (Null E f) as [data|]; [|discriminate].
    destruct (frame_count_total E l) as [m|]; [|discriminate].
    inversion H. specialize (IH m eq_refl). unfold nbimg. lia.
Qed.

(** A total frame count of zero: every exposure loads and has no frame. *)
Lemma frame_count_total_zero l :
  frame_count_total E l = Some 0%Z <-> Forall (fun f => Null E f = Ok []) l.
Proof.
  induction l as [|f l IH]; simpl.
  - split; [constructor | reflexivity].
  - split.
    + intros H. destruct (Null E f) as [data|] eqn:Hn; [|discriminate].
      destruct (frame_count_total E l) as [m|] eqn:Hm; [|discriminate].
      pose proof (frame_count_total_nonneg l Hm) as Hpos.
      inversion H as [H0]. unfold nbimg in H0.
      assert (m = 0%Z) by lia. subst m.
      constructor; [|now apply IH].
      destruct data; [exact Hn | simpl in H0; lia].
    + intros H. inversion H as [|? ? Hf Hl]; subst.
      rewrite Hf. apply IH in Hl. rewrite Hl. reflexivity.
Qed.

End AverageDark.

Section ZeroFrames.

Variable E : externals.

Local Open Scope py_scope.

Lemma bind_ok {A B} (m : M A) (k : A -> M B) w a :
  fst (m w) = Ok a -> bind m k w = k a (snd (m w)).
Proof. unfold bind. destruct (m w) as [r w']. simpl. now intros ->. Qed.

Lemma add_zero_frames_2 :
  ew2 fadd (zeros2 344 96) (sum_axis0 add2 (zeros2 344 96) [])
  = Ok (zeros2 344 96).
Proof. vm_compute. reflexivity. Qed.

Lemma add_zero_frames_3 :
  ew3 fadd (zeros3 96 16 20) (sum_axis0 add3 (zeros3 96 16 20) [])
  = Ok (zeros3 96 16 20).
Proof. vm_compute. reflexivity. Qed.

(** An exposure without frames leaves the sums and the count as they
    are. *)
Lemma accumulate_no_frame channel_pos sep dark_list st f w :
  In f dark_list -> Null E f = Ok [] ->
  super_dark st = zeros2 344 96 ->
  super_dark_channel st = zeros3 96 16 20 ->
  fst (accumulate E false channel_pos sep dark_list st f w)
  = Ok {| super_dark := zeros2 344 96;
          super_dark_channel := zeros3 96 16 20;
          nb_img := nb_img st;
          avg_dark := avg_dark st;
          spatial_axis := Some [] |}.
Proof.
  intros Hin Hnull Hsd Hsdc. destruct (list_index_in f dark_list Hin) as [i Hi].
  unfold accumulate, load. rewrite Hi, Hnull, Hsd, Hsdc.
  cbv beta iota zeta delta [bind lift print emit ret].
  rewrite add_zero_frames_2.
  change (getChannels E channel_pos sep (arange (List.length (@nil arr2))) [])
    with (@nil arr3).
  cbv beta iota. rewrite add_zero_frames_3.
  unfold nbimg. cbn [List.length Z.of_nat fst arange seq map].
  rewrite Z.add_0_r. reflexivity.
Qed.

Lemma loop_no_frame channel_pos sep dark_list l :
  (forall f, In f l -> In f dark_list) ->
  Forall (fun f => Null E f = Ok []) l ->
  forall st w,
    super_dark st = zeros2 344 96 ->
    super_dark_channel st = zeros3 96 16 20 ->
    exists sa,
      fst (for_each (accumulate E false channel_pos sep dark_list) l st w)
      = Ok {| super_dark := zeros2 344 96;
              super_dark_channel := zeros3 96 16 20;
              nb_img := nb_img st;
              avg_dark := avg_dark st;
              spatial_axis := sa |}.
Proof.
  induction l as [|f l IH]; intros Hsub Hall st w Hsd Hsdc.
  - exists (spatial_axis st). simpl. destruct st; simpl in *. now subst.
  - inversion Hall as [|? ? Hf Hl]; subst.
    cbn [for_each].
    erewrite bind_ok
      by (apply accumulate_no_frame; [apply Hsub; now left | assumption ..]).
    match goal with
    | |- context [for_each _ l ?s ?w'] =>
        destruct (IH (fun g Hg => Hsub g (or_intror Hg)) Hl s w'
                     eq_refl eq_refl) as [sa Hsa]
    end.
    exists sa. exact Hsa.
Qed.

(** The value of [average_dark_list] without monitoring when no frame is
    read. *)
Lemma average_dark_list_no_frame dark_list output_path save edge_min
  edge_max w :
  Forall (fun f => Null E f = Ok []) dark_list ->
  fst (average_dark_list E dark_list output_path save false edge_min
                         edge_max w)
  = Ok (zeros2 344 96, zeros3 96 16 20, None).
Proof.
  intros Hall. unfold average_dark_list.
  destruct (get_channel_positions E NB_TRACKS) as [channel_pos sep].
  destruct (loop_no_frame channel_pos sep dark_list (fun f H => H) Hall
              acc0 w eq_refl eq_refl) as [sa Hloop].
  erewrite bind_ok by exact Hloop.
  reflexivity.
Qed.

End ZeroFrames.

Section AverageDarkEffects.

Variable E : externals.

Local Open Scope py_scope.

Lemma py_slice_nil {A} lo hi : py_slice lo hi (@nil A) = [].
Proof. unfold py_slice. rewrite skipn_nil. apply firstn_nil. Qed.

Lemma select_files_none data_path keyword nb_files names :
  filter (selected keyword) names = [] ->
  select_files data_path keyword nb_files names = [].
Proof. intros H. unfold select_files. rewrite H. apply py_slice_nil. Qed.

(** Without any file the loop is not entered: with monitoring the
    unbound [avg_dark] is read, without it the zero arrays are
    returned. *)
Lemma average_dark_list_nil output_path save monitor edge_min edge_max w :
  average_dark_list E [] output_path save monitor edge_min edge_max w
  = (if monitor then Raise (UnboundLocalError "avg_dark")
     else Ok (zeros2 344 96, zeros3 96 16 20, None), w).
Proof.
  unfold average_dark_list.
  destruct (get_channel_positions E NB_TRACKS) as [channel_pos sep].
  destruct monitor; reflexivity.
Qed.

(** Without [save] and without monitoring only progress lines and
    loads happen. *)
Lemma effects_average_dark_list_unsaved dark_list output_path edge_min
  edge_max :
  effects quiet (fun _ => false)
    (average_dark_list E dark_list output_path false false edge_min
                       edge_max)
    (fun _ => True).
Proof.
  unfold average_dark_list.
  destruct (get_channel_positions E NB_TRACKS) as [channel_pos sep].
  eapply effects_bind with (Q := fun _ => True).
  - apply effects_for_each with (I := fun _ => True); [|exact I].
    intros s f _ _. eapply effects_weaken.
    + now apply effects_accumulate.
    + trivial.
  - intros st _. eapply effects_bind.
    + apply effects_finalize. discriminate.
    + intros [sd sdc] _. now apply effects_ret.
Qed.

(** When no frame is read, whatever [save] and [monitor] are, no
    [np.save] happens. *)
Lemma effects_average_dark_list_zero dark_list output_path save monitor
  edge_min edge_max :
  Forall (fun f => Null E f = Ok []) dark_list ->
  effects not_np_save (fun _ => true)
    (average_dark_list E dark_list output_path save monitor edge_min
                       edge_max)
    (fun _ => True).
Proof.
  intros Hall. unfold average_dark_list.
  destruct (get_channel_positions E NB_TRACKS) as [channel_pos sep].
  eapply effects_bind with (Q := fun st => nb_img st = 0%Z).
  - apply effects_for_each with (I := fun st => nb_img st = 0%Z);
      [|reflexivity].
    intros s f Hin Hs. eapply effects_weaken.
    + now apply effects_accumulate.
    + intros st' [data [Hd Hn]]. rewrite Forall_forall in Hall.
      rewrite (Hall f Hin) in Hd. inversion Hd. subst data.
      rewrite Hn, Hs. reflexivity.
  - intros st Hst. eapply effects_bind.
    + apply effects_finalize. intros _ Hne. contradiction.
    + intros [sd sdc] _. destruct monitor; [|now apply effects_ret].
      eapply effects_bind; [now apply effects_lift_any | intros avg _].
      eapply effects_bind; [now apply effects_lift_any | intros sa _].
      eapply effects_bind; [|intros r _; now apply effects_ret].
      now apply effects_check_dark.
Qed.

End AverageDarkEffects.

(* ================================================================== *)
(** ** Properties of get_average_dark *)
(* ================================================================== *)

Section AverageDarkProperties.

Local Open Scope string_scope.

(** C1, as stated, fails with monitoring on: with an empty selection the
    total frame count is zero and the run raises instead of returning
    the zero-initialized arrays. *)
Lemma zero_frame_count_with_monitor_raises :
  frame_count_total Demo.E (select_files "data/" "dark" (None, None) [])
  = Some 0%Z /\
  fst (get_average_dark Demo.E "data/" "out/" (None, None) false true
         (-50, 50)%Z "dark" (Demo.world_of [] []))
  = Raise (UnboundLocalError "avg_dark").
Proof. split; reflexivity. Qed.

(** C1 (amended): for every run of [get_average_dark] without monitoring
    in which the selected exposures contribute a total frame count of
    zero, the division is skipped; when the output folder exists or
    can be created the function returns the zero-initialized 344x96 and
    96x16x20 arrays without raising, and when [os.makedirs] fails its
    error is what the run raises. *)
Theorem zero_frame_count_returns_zero_arrays
  (E : externals) (w : world) (data_path output_path : string)
  (nb_files : option Z * option Z) (save : bool) (edges : Z * Z)
  (keyword : string) (names : list string) :
  listing w data_path = Some names ->
  frame_count_total E (select_files data_path keyword nb_files names)
  = Some 0%Z ->
  fst (get_average_dark E data_path output_path nb_files save false edges
                        keyword w)
  = match output_dir_error output_path w with
    | Some e => Raise e
    | None => Ok (zeros2 344 96, zeros3 96 16 20, None)
    end.
Proof.
  intros Hl Hz. destruct (output_dir_error output_path w) as [e|] eqn:Hd.
  - now erewrite get_average_dark_no_output_dir by eassumption.
  - erewrite get_average_dark_run by eassumption.
    apply average_dark_list_no_frame. now apply frame_count_total_zero.
Qed.

Lemma zero_frame_count_returns_zero_arrays_witness :
  fst (get_average_dark Demo.E "data/" "out/" (None, None) true false
         (-50, 50)%Z "dark"
         (Demo.world_of ["dark_empty.mat"; "notes.txt"] []))
  = Ok (zeros2 344 96, zeros3 96 16 20, None) /\
  fst (get_average_dark Demo.E "data/" "out/" (None, None) true false
         (-50, 50)%Z "dark"
         (Demo.read_only_world ["dark_empty.mat"; "notes.txt"] []))
  = Raise (PermissionError "out/").
Proof.
  split.
  - exact (@zero_frame_count_returns_zero_arrays Demo.E
             (Demo.world_of ["dark_empty.mat"; "notes.txt"] [])
             "data/" "out/" (None, None) true (-50, 50)%Z "dark"
             ["dark_empty.mat"; "notes.txt"] eq_refl eq_refl).
  - exact (@zero_frame_count_returns_zero_arrays Demo.E
             (Demo.read_only_world ["dark_empty.mat"; "notes.txt"] [])
             "data/" "out/" (None, None) true (-50, 50)%Z "dark"
             ["dark_empty.mat"; "notes.txt"] eq_refl eq_refl).
Defined.

(** C4, as stated, fails: when the keyword matches no file the run
    raises nothing and returns the zero-initialized arrays. *)
Lemma no_file_selected_returns :
  filter (selected "dark") ["notes.txt"; "flat_01.mat"] = [] /\
  fst (get_average_dark Demo.E "data/" "out/" (None, None) false false
         (-50, 50)%Z "dark"
         (Demo.world_of ["notes.txt"; "flat_01.mat"] []))
  = Ok (zeros2 344 96, zeros3 96 16 20, None).
Proof. split; reflexivity. Qed.

(** C4 (amended): when the keyword filter over the listing of the data
    folder matches no file, no [ConfigurationError] is raised for it: no
    exposure is loaded or processed, and the run ends as follows: with
    the error of [os.makedirs] when the output folder has to be created
    and cannot be; otherwise, without monitoring, by returning the
    zero-initialized arrays and, with monitoring, with the
    [UnboundLocalError] of the unbound [avg_dark]. *)
Theorem no_file_selected_no_processing
  (E : externals) (w : world) (data_path output_path : string)
  (nb_files : option Z * option Z) (save monitor : bool) (edges : Z * Z)
  (keyword : string) (names : list string) :
  listing w data_path = Some names ->
  filter (selected keyword) names = [] ->
  forallb (fun ev => negb (is_load ev))
    (new_events (get_average_dark E data_path output_path nb_files save
                                  monitor edges keyword) w) = true /\
  fst (get_average_dark E data_path output_path nb_files save monitor
                        edges keyword w)
  = match output_dir_error output_path w with
    | Some e => Raise e
    | None =>
        if monitor then Raise (UnboundLocalError "avg_dark")
        else Ok (zeros2 344 96, zeros3 96 16 20, None)
    end.
Proof.
  intros Hl Hf.
  assert (forallb (fun ev => negb (is_load ev))
            (skipn (List.length (log w))
                   (log (with_output_dir output_path w))) = true) as Hlog.
  { unfold with_output_dir. destruct (existsb _ _).
    - now rewrite skipn_all.
    - destruct (snd (fs_makedirs w output_path)); cbn [log].
      + now rewrite skipn_all.
      + rewrite skipn_app, skipn_all, Nat.sub_diag. reflexivity. }
  unfold new_events.
  destruct (output_dir_error output_path w) as [e|] eqn:Hd.
  - erewrite get_average_dark_no_output_dir by eassumption.
    split; [exact Hlog | reflexivity].
  - erewrite get_average_dark_run by eassumption.
    rewrite select_files_none by exact Hf. rewrite average_dark_list_nil.
    split; [exact Hlog | reflexivity].
Qed.

Lemma no_file_selected_no_processing_witness :
  (forallb (fun ev => negb (is_load ev))
     (new_events (get_average_dark Demo.E "data/" "out/" (None, None) false
                    false (-50, 50)%Z "dark")
                 (Demo.world_of ["notes.txt"; "flat_01.mat"] [])) = true /\
   fst (get_average_dark Demo.E "data/" "out/" (None, None) false false
          (-50, 50)%Z "dark"
          (Demo.world_of ["notes.txt"; "flat_01.mat"] []))
   = Ok (zeros2 344 96, zeros3 96 16 20, None)) /\
  fst (get_average_dark Demo.E "data/" "out/" (None, None) false false
         (-50, 50)%Z "dark"
         (Demo.read_only_world ["notes.txt"; "flat_01.mat"] []))
  = Raise (PermissionError "out/").
Proof.
  split.
  - exact (@no_file_selected_no_processing Demo.E
             (Demo.world_of ["notes.txt"; "flat_01.mat"] [])
             "data/" "out/" (None, None) false false (-50, 50)%Z "dark"
             ["notes.txt"; "flat_01.mat"] eq_refl eq_refl).
  - exact (proj2 (@no_file_selected_no_processing Demo.E
             (Demo.read_only_world ["notes.txt"; "flat_01.mat"] [])
             "data/" "out/" (None, None) false false (-50, 50)%Z "dark"
             ["notes.txt"; "flat_01.mat"] eq_refl eq_refl)).
Defined.

(** C8, as stated, fails: with [save] and [monitor] unset the output
    folder is still created when it does not exist. *)
Lemma unsaved_run_creates_output_folder :
  paths (Demo.world_of ["dark_empty.mat"] []) = [] /\
  paths (snd (get_average_dark Demo.E "data/" "out/" (None, None) false
                false (-50, 50)%Z "dark"
                (Demo.world_of ["dark_empty.mat"] [])))
  = ["out/"] /\
  In (EvMakedirs "out/")
     (log (snd (get_average_dark Demo.E "data/" "out/" (None, None) false
                  false (-50, 50)%Z "dark"
                  (Demo.world_of ["dark_empty.mat"] [])))).
Proof.
  split; [reflexivity|]. split; [reflexivity|].
  vm_compute. left. reflexivity.
Qed.

(** The creation of the output folder makes its missing parent
    directories as well. *)
Lemma unsaved_run_creates_parents :
  paths (snd (get_average_dark Demo.E "data/" "results/dark/" (None, None)
                false false (-50, 50)%Z "dark"
                (Demo.nested_world ["dark_empty.mat"] [])))
  = ["results/dark/"; "results"].
Proof. vm_compute. reflexivity. Qed.

(** C8 (amended): a run of [get_average_dark] with [save] unset and
    monitoring off writes no artifact; its only change to the file
    system is made by [os.makedirs(output_path)], which is called
    exactly when the data folder can be listed and the output folder
    does not exist: it creates the missing parent directories and the
    output folder, or it raises, which ends the run with the
    directories made so far. *)
Theorem unsaved_run_effects
  (E : externals) (w : world) (data_path output_path : string)
  (nb_files : option Z * option Z) (edges : Z * Z) (keyword : string) :
  let w' := snd (get_average_dark E data_path output_path nb_files false
                                  false edges keyword w) in
  let parents := fst (fs_makedirs w output_path) in
  exists evs,
    forallb quiet evs = true /\
    if match listing w data_path with
       | Some _ => negb (existsb (String.eqb output_path) (paths w))
       | None => false
       end
    then match snd (fs_makedirs w output_path) with
         | Some _ =>
             log w' = log w /\ paths w' = (rev parents ++ paths w)%list
         | None =>
             log w' = (log w ++ EvMakedirs output_path :: evs)%list /\
             paths w' = output_path :: (rev parents ++ paths w)%list
         end
    else log w' = (log w ++ evs)%list /\ paths w' = paths w.
Proof.
  cbv zeta. destruct (listing w data_path) as [names|] eqn:Hl.
  - destruct (output_dir_error output_path w) as [e|] eqn:Hd.
    + erewrite get_average_dark_no_output_dir by eassumption.
      exists []. split; [reflexivity|]. cbn [snd].
      unfold output_dir_error in Hd. unfold with_output_dir.
      destruct (existsb _ _); [discriminate Hd|]. cbn [negb].
      rewrite Hd. now split.
    + erewrite get_average_dark_run by eassumption.
      match goal with
      | |- context [average_dark_list E ?l ?o false false ?a ?b] =>
          destruct (effects_average_dark_list_unsaved E l o a b
                      (with_output_dir output_path w))
            as [(_ & (evs & Hlog & Hq) & (ps & Hps & Ht)) _]
      end.
      destruct ps; [|discriminate]. exists evs. split; [exact Hq|].
      rewrite Hlog, Hps. unfold output_dir_error in Hd.
      unfold with_output_dir.
      destruct (existsb _ _); cbn [negb].
      * now split.
      * rewrite Hd. cbn [log paths app].
        split; [|reflexivity]. now rewrite <- app_assoc.
  - erewrite get_average_dark_no_folder by exact Hl.
    exists []. split; [reflexivity|]. cbn [snd]. now rewrite app_nil_r.
Qed.

(** C9: for every run of [get_average_dark] with [save] set in which
    the total frame count is zero, no [np.save] happens: neither the
    superdark nor the superdarkchannel artifact is written. *)
Theorem zero_frame_count_saves_nothing
  (E : externals) (w : world) (data_path output_path : string)
  (nb_files : option Z * option Z) (monitor : bool) (edges : Z * Z)
  (keyword : string) (names : list string) :
  listing w data_path = Some names ->
  frame_count_total E (select_files data_path keyword nb_files names)
  = Some 0%Z ->
  forallb not_np_save
    (new_events (get_average_dark E data_path output_path nb_files true
                                  monitor edges keyword) w) = true.
Proof.
  intros Hl Hz. apply frame_count_total_zero in Hz.
  assert (forallb (fun _ : string => true)
            (fst (fs_makedirs w output_path)) = true) as Hps
    by now apply forallb_forall.
  pose proof (extends_with_output_dir not_np_save (fun _ => true)
                output_path w eq_refl eq_refl Hps) as H1.
  destruct (output_dir_error output_path w) as [e|] eqn:Hd.
  - destruct H1 as (_ & (evs & Hlog & Hp) & _).
    unfold new_events.
    erewrite get_average_dark_no_output_dir by eassumption.
    cbn [snd]. rewrite Hlog, skipn_app, skipn_all, Nat.sub_diag.
    exact Hp.
  - destruct (effects_average_dark_list_zero E output_path true monitor
                (fst edges) (snd edges) Hz (with_output_dir output_path w))
      as [H2 _].
    destruct (extends_trans H1 H2) as (_ & (evs & Hlog & Hp) & _).
    erewrite <- get_average_dark_run in Hlog by eassumption.
    now rewrite (new_events_extends _ _ _ Hlog).
Qed.

Lemma zero_frame_count_saves_nothing_witness :
  forallb not_np_save
    (new_events (get_average_dark Demo.E "data/" "out/" (None, None) true
                   true (-50, 50)%Z "dark")
                (Demo.world_of ["dark_empty.mat"; "notes.txt"] [])) = true.
Proof.
  apply (@zero_frame_count_saves_nothing Demo.E
           (Demo.world_of ["dark_empty.mat"; "notes.txt"] [])
           "data/" "out/" (None, None) true (-50, 50)%Z "dark"
           ["dark_empty.mat"; "notes.txt"]);
    reflexivity.
Defined.

(** C10: for every run of [get_average_dark] with monitoring on in
    which the selected exposure list is empty, the function raises: the
    unbound [avg_dark] is read when the arguments of [check_dark] are
    evaluated, unless the creation of the output folder has already
    raised. *)
Theorem monitor_without_exposure_raises
  (E : externals) (w : world) (data_path output_path : string)
  (nb_files : option Z * option Z) (save : bool) (edges : Z * Z)
  (keyword : string) (names : list string) :
  listing w data_path = Some names ->
  select_files data_path keyword nb_files names = [] ->
  fst (get_average_dark E data_path output_path nb_files save true edges
                        keyword w)
  = Raise (match output_dir_error output_path w with
           | Some e => e
           | None => UnboundLocalError "avg_dark"
           end).
Proof.
  intros Hl Hs. destruct (output_dir_error output_path w) as [e|] eqn:Hd.
  - now erewrite get_average_dark_no_output_dir by eassumption.
  - erewrite get_average_dark_run by eassumption. rewrite Hs.
    now rewrite average_dark_list_nil.
Qed.

Lemma monitor_without_exposure_raises_witness :
  fst (get_average_dark Demo.E "data/" "out/" (Some 3%Z, None) true true
         (-50, 50)%Z "dark"
         (Demo.world_of ["dark_empty.mat"; "notes.txt"] []))
  = Raise (UnboundLocalError "avg_dark").
Proof.
  exact (@monitor_without_exposure_raises Demo.E
           (Demo.world_of ["dark_empty.mat"; "notes.txt"] [])
           "data/" "out/" (Some 3%Z, None) true (-50, 50)%Z "dark"
           ["dark_empty.mat"; "notes.txt"] eq_refl eq_refl).
Defined.

End AverageDarkProperties.

(* ================================================================== *)
(** ** The file selection *)
(* ================================================================== *)

Section Selection.

Local Open Scope string_scope.

Lemma py_slice_all {A} (l : list A) : py_slice None None l = l.
Proof.
  unfold py_slice, slice_bound. rewrite Z.sub_0_r, Nat2Z.id.
  cbn [Z.to_nat skipn]. apply firstn_all.
Qed.

(** C7, as stated, fails: a name that contains the keyword and holds
    [.txt] elsewhere than at its end is not selected. *)
Lemma txt_inside_name_not_selected :
  is_substring "dark" "dark.txt.bak" /\
  ~ has_suffix ".txt" "dark.txt.bak" /\
  selected "dark" "dark.txt.bak" = false /\
  select_files "data/" "dark" (None, None) ["dark.txt.bak"] = [].
Proof.
  split; [now apply str_in_spec|].
  split; [|split; reflexivity].
  intros H. apply str_endswith_spec in H. discriminate.
Qed.

(** C7 (amended): a file name of the data folder is selected, before
    the index-range slicing, if and only if it contains the keyword as
    a substring and does not contain [.txt] anywhere; a name holding
    [.txt] elsewhere than at its end is excluded as well. *)
Theorem selected_iff_keyword_without_txt (data_path keyword f : string)
  (names : list string) :
  (selected keyword f = true <->
   is_substring keyword f /\ ~ is_substring ".txt" f) /\
  (In f (filter (selected keyword) names) <->
   In f names /\ is_substring keyword f /\ ~ is_substring ".txt" f) /\
  select_files data_path keyword (None, None) names
  = map (fun g => data_path ++ g) (filter (selected keyword) names).
Proof.
  assert (selected keyword f = true <->
          is_substring keyword f /\ ~ is_substring ".txt" f) as Hsel.
  { unfold selected. rewrite andb_true_iff, negb_true_iff, str_in_spec.
    rewrite <- (str_in_spec ".txt" f).
    now destruct (str_in ".txt" f). }
  split; [exact Hsel|]. split.
  - rewrite filter_In, Hsel. tauto.
  - unfold select_files. apply py_slice_all.
Qed.

End Selection.

(* ================================================================== *)
(** ** Normalization of the histograms *)
(* ================================================================== *)

Section Normalization.

Local Open Scope Q_scope.

Lemma Qeq_bool_inject_Z_0 (t : Z) :
  t <> 0%Z -> Qeq_bool (inject_Z t) 0 = false.
Proof.
  intros Ht. destruct (Qeq_bool (inject_Z t) 0) eqn:Hq; [|reflexivity].
  apply Qeq_bool_eq in Hq. unfold Qeq in Hq. simpl in Hq. lia.
Qed.

Lemma inject_Z_nonzero (t : Z) : t <> 0%Z -> ~ inject_Z t == 0.
Proof.
  intros Ht H. unfold Qeq in H. simpl in H. lia.
Qed.


(** The quotient by a zero total is never finite. *)
Lemma fdiv_of_Z_0 (c : Z) : is_finite (fdiv (of_Z c) (of_Z 0)) = false.
Proof. unfold fdiv, of_Z. simpl. now destruct c. Qed.

Lemma fold_add_shift (l : list Z) (z : Z) :
  fold_left Z.add l z = (z + fold_left Z.add l 0)%Z.
Proof.
  revert z. induction l as [|d l IH]; intros z; simpl; [lia|].
  rewrite (IH (z + d)%Z), (IH d). lia.
Qed.

Lemma sumZ_cons (c : Z) (l : list Z) : sumZ (c :: l) = (c + sumZ l)%Z.
Proof. unfold sumZ. simpl. apply fold_add_shift. Qed.





Lemma normalize_zero_total (row : list Z) :
  sumZ row = 0%Z ->
  forallb (fun x => negb (is_finite x)) (normalize row) = true.
Proof.
  intros Ht. unfold normalize. rewrite Ht, forallb_forall.
  intros x Hx. apply in_map_iff in Hx. destruct Hx as [c [<- _]].
  now rewrite fdiv_of_Z_0.
Qed.

Lemma sumZ_nonneg (row : list Z) :
  Forall (fun c => (0 <= c)%Z) row -> (0 <= sumZ row)%Z.
Proof.
  induction 1 as [|c row Hc _ IH]; [now unfold sumZ|].
  rewrite sumZ_cons. lia.
Qed.

Lemma zero_total_zero_counts (row : list Z) :
  Forall (fun c => (0 <= c)%Z) row -> sumZ row = 0%Z ->
  Forall (fun c => c = 0%Z) row.
Proof.
  induction 1 as [|c row Hc Hrow IH]; intros Hs; [constructor|].
  rewrite sumZ_cons in Hs. pose proof (sumZ_nonneg Hrow).
  constructor; [lia | apply IH; lia].
Qed.

(** With counts that are not negative, a row of total zero becomes a
    row of [nan]: every entry is [0 / 0]. *)
Lemma normalize_zero_counts (row : list Z) :
  sumZ row = 0%Z -> Forall (fun c => (0 <= c)%Z) row ->
  normalize row = repeat NaN (List.length row).
Proof.
  intros Ht Hpos. unfold normalize. rewrite Ht.
  pose proof (zero_total_zero_counts Hpos Ht) as Hz. clear Ht Hpos.
  induction Hz as [|c row Hc _ IH]; [reflexivity|]. subst c.
  cbn [map List.length repeat]. rewrite IH. reflexivity.
Qed.

(** The rows of [super_hist]: each row of the summed histograms over
    its own total. *)
Lemma super_hist_row (hs : list (list (list Z))) (k : nat) (row : list Z) :
  hs <> [] -> nth_error (sum_files hs) k = Some row ->
  exists sh,
    super_hist_of hs = Ok sh /\ nth_error sh k = Some (normalize row).
Proof.
  intros Hne Hk. exists (normalize_rows (sum_files hs)). split.
  - unfold super_hist_of. destruct hs; [contradiction | reflexivity].
  - unfold normalize_rows. now rewrite nth_error_map, Hk.
Qed.

End Normalization.

(* ================================================================== *)
(** ** The edges of the histograms *)
(* ================================================================== *)

Section Edges.

Local Open Scope Q_scope.

Lemma set_last_snoc {A} (l : list A) (x v : A) :
  set_last (l ++ [x]) v = (l ++ [v])%list.
Proof.
  unfold set_last. rewrite removelast_last.
  destruct l; reflexivity.
Qed.

Lemma flt_of_positive_gap (a b d : Q) :
  b - a == d -> 0 < d -> flt (Fin a) (Fin b) = true.
Proof.
  intros Hg Hd. unfold flt. apply negb_true_iff.
  destruct (Qle_bool b a) eqn:Hle; [|reflexivity].
  apply Qle_bool_iff in Hle. exfalso.
  apply (Qlt_irrefl 0). apply Qlt_le_trans with d; [exact Hd|].
  rewrite <- Hg. rewrite <- (Qplus_opp_r a). apply Qplus_le_l. exact Hle.
Qed.

Lemma fsub_of_gap (a b d : Q) :
  b - a == d -> fsub (Fin b) (Fin a) = Fin (Qred d).
Proof. intros Hg. unfold fsub. f_equal. now apply Qred_complete. Qed.

(** Edges in arithmetic progression: [h k, h (k+1), ..] with a last
    edge [e] one more step away. *)
Lemma progression_steps (h : nat -> Q) (d e : Q) (len k : nat) :
  (forall i, h (S i) - h i == d) ->
  e - h (k + len)%nat == d ->
  0 < d ->
  constant_step (Fin (Qred d))
    (map (fun i => Fin (h i)) (seq k (S len)) ++ [Fin e]) /\
  strictly_increasing
    (map (fun i => Fin (h i)) (seq k (S len)) ++ [Fin e]).
Proof.
  intros Hh He Hd. revert k He. induction len as [|len IH]; intros k He.
  - rewrite Nat.add_0_r in He.
    cbn [seq map app constant_step strictly_increasing].
    repeat split.
    + now apply fsub_of_gap.
    + now apply flt_of_positive_gap with d.
  - assert (e - h (S k + len)%nat == d) as He'
      by (now rewrite <- Nat.add_succ_comm in He).
    destruct (IH (S k) He') as [Hc Hs].
    change (seq k (S (S len))) with (k :: seq (S k) (S len)).
    cbn [map app]. cbn [seq map app] in Hc, Hs.
    cbn [constant_step strictly_increasing]. repeat split.
    + apply fsub_of_gap, Hh.
    + exact Hc.
    + apply flt_of_positive_gap with d; [apply Hh | exact Hd].
    + exact Hs.
Qed.

Lemma linspace_fin (s e : Q) (n : Z) :
  (0 < n)%Z ->
  let st := Qred (Qred (e - s) / inject_Z n) in
  Qeq_bool st 0 = false ->
  linspace (Fin s) (Fin e) (n + 1)
  = Ok ((map (fun i => Fin (Qred (Qred (inject_Z (Z.of_nat i) * st) + s)))
            (seq 0 (Z.to_nat n)) ++ [Fin e])%list, Fin st).
Proof.
  intros Hn st Hst. unfold linspace.
  destruct (Z.ltb_spec (n + 1) 0) as [|_]; [lia|].
  replace (n + 1 - 1)%Z with n by lia.
  destruct (Z.ltb_spec 0 n) as [_|]; [|lia].
  destruct (Z.ltb_spec 1 (n + 1)) as [_|]; [|lia].
  change (fsub (Fin e) (Fin s)) with (Fin (Qred (e - s))).
  assert (fdiv (Fin (Qred (e - s))) (of_Z n) = Fin st) as Hstep.
  { unfold fdiv, of_Z. now rewrite Qeq_bool_inject_Z_0 by lia. }
  rewrite Hstep. change (feqb (Fin st) (Fin 0)) with (Qeq_bool st 0).
  rewrite Hst. f_equal. f_equal.
  replace (Z.to_nat (n + 1)) with (S (Z.to_nat n)) by lia.
  rewrite seq_S, !map_app. cbn [map Nat.add]. rewrite set_last_snoc.
  f_equal. rewrite !map_map. reflexivity.
Qed.

(** The step of the edges between two integer bounds. *)
Lemma edges_step_value (edge_min edge_max : Z) :
  (edge_min < edge_max)%Z ->
  Qred (inject_Z edge_max + (1 # 2)) - Qred (inject_Z edge_min - (1 # 2))
  == inject_Z (edge_max - edge_min + 1).
Proof.
  intros _. rewrite !Qred_correct.
  rewrite inject_Z_plus. unfold Z.sub. rewrite inject_Z_plus, inject_Z_opp.
  change (inject_Z 1) with 1. field.
Qed.

End Edges.

Section EdgesProperties.

Local Open Scope Q_scope.

(** C5, as stated, fails: for the bounds (-50, 50) the 101 edges are
    101/100 apart, not 1. *)
Lemma histogram_edges_not_unit_width :
  exists bin_hist,
    histogram_edges (-50) 50 = Ok (bin_hist, Fin (101 # 100)) /\
    firstn 2 bin_hist = [Fin (-101 # 2); Fin (-4949 # 100)] /\
    ~ constant_step (Fin 1) bin_hist.
Proof.
  destruct (histogram_edges (-50) 50) as [[bin_hist step]|] eqn:H;
    vm_compute in H; [|discriminate].
  inversion H; subst. eexists. split; [reflexivity|].
  split; [reflexivity|].
  intros [Hstep _]. vm_compute in Hstep. discriminate.
Qed.

(** C5 (amended): for integer bounds edge_min < edge_max, the edges
    built by linspace from edge_min - 0.5 to edge_max + 0.5 with
    edge_max - edge_min + 1 points are strictly increasing and equally
    spaced, every pair of consecutive edges differing (in exact
    arithmetic) by (edge_max - edge_min + 1) / (edge_max - edge_min),
    which is more than 1. *)
Theorem histogram_edges_equally_spaced (edge_min edge_max : Z) :
  (edge_min < edge_max)%Z ->
  let n := (edge_max - edge_min)%Z in
  let width := Fin (Qred (inject_Z (n + 1) / inject_Z n)) in
  exists bin_hist,
    histogram_edges edge_min edge_max = Ok (bin_hist, width) /\
    List.length bin_hist = Z.to_nat (n + 1) /\
    constant_step width bin_hist /\
    strictly_increasing bin_hist /\
    flt (Fin 1) width = true.
Proof.
  intros Hlt n width.
  assert (0 < n)%Z as Hn by (unfold n; lia).
  assert (~ inject_Z n == 0) as Hn0 by (apply inject_Z_nonzero; lia).
  assert (0 < inject_Z n) as Hnq
    by (change 0 with (inject_Z 0); now rewrite <- Zlt_Qlt).
  set (s := Qred (inject_Z edge_min - (1 # 2))).
  set (e := Qred (inject_Z edge_max + (1 # 2))).
  set (st := Qred (Qred (e - s) / inject_Z n)).
  assert (e - s == inject_Z (n + 1)) as Hes
    by (now apply edges_step_value).
  assert (st = Qred (inject_Z (n + 1) / inject_Z n)) as Hst.
  { unfold st. apply Qred_complete. now rewrite Qred_correct, Hes. }
  assert (st == 1 + 1 / inject_Z n) as Hval.
  { rewrite Hst, Qred_correct, inject_Z_plus.
    change (inject_Z 1) with 1. now field. }
  assert (0 < 1 / inject_Z n) as Hinv.
  { unfold Qdiv. rewrite Qmult_1_l. now apply Qinv_lt_0_compat. }
  assert (0 < st) as Hpos.
  { rewrite Hval. apply Qlt_trans with 1; [reflexivity|].
    rewrite <- (Qplus_0_r 1) at 1. now apply Qplus_lt_r. }
  assert (Qeq_bool st 0 = false) as Hne.
  { destruct (Qeq_bool st 0) eqn:Hq; [|reflexivity].
    apply Qeq_bool_eq in Hq. rewrite Hq in Hpos.
    now apply Qlt_irrefl in Hpos. }
  pose proof (linspace_fin s e Hn Hne) as Hlin.
  fold st in Hlin.
  unfold width. rewrite <- Hst.
  eexists. split; [exact Hlin|].
  destruct (Z.to_nat n) as [|len] eqn:Hlen; [lia|].
  split.
  { rewrite length_app, length_map, length_seq. cbn. lia. }
  set (h := fun i => Qred (Qred (inject_Z (Z.of_nat i) * st) + s)).
  assert (forall i, h (S i) - h i == st) as Hh.
  { intros i. unfold h. rewrite !Qred_correct.
    rewrite Nat2Z.inj_succ. unfold Z.succ. rewrite inject_Z_plus.
    change (inject_Z 1) with 1. ring. }
  assert (e - h (0 + len)%nat == st) as He.
  { unfold h. cbn [Nat.add]. rewrite !Qred_correct.
    assert (inject_Z (Z.of_nat len) == inject_Z n - 1) as ->.
    { replace (Z.of_nat len) with (n - 1)%Z by lia.
      unfold Z.sub. rewrite inject_Z_plus, inject_Z_opp.
      change (inject_Z 1) with 1. ring. }
    rewrite Hval.
    assert (e == s + inject_Z n + 1) as ->.
    { transitivity (s + (e - s)); [ring|].
      rewrite Hes, inject_Z_plus. change (inject_Z 1) with 1. ring. }
    now field. }
  destruct (progression_steps h len 0 Hh He Hpos) as [Hc Hs].
  replace (Qred st) with st in Hc
    by (unfold st; symmetry; apply Qred_complete, Qred_correct).
  split; [exact Hc|]. split; [exact Hs|].
  apply flt_of_positive_gap with (1 / inject_Z n); [|exact Hinv].
  rewrite Hval. ring.
Qed.

Lemma histogram_edges_equally_spaced_witness :
  exists bin_hist,
    histogram_edges (-50) 50
    = Ok (bin_hist, Fin (Qred (inject_Z (50 - -50 + 1) / inject_Z (50 - -50)))) /\
    List.length bin_hist = Z.to_nat (50 - -50 + 1) /\
    constant_step (Fin (Qred (inject_Z (50 - -50 + 1) / inject_Z (50 - -50))))
                  bin_hist /\
    strictly_increasing bin_hist /\
    flt (Fin 1) (Fin (Qred (inject_Z (50 - -50 + 1) / inject_Z (50 - -50))))
    = true.
Proof. apply (@histogram_edges_equally_spaced (-50) 50). reflexivity. Defined.

End EdgesProperties.

(* ================================================================== *)
(** ** The time series of check_dark *)
(* ================================================================== *)

Section TimeSeries.

Local Open Scope string_scope.

Lemma mapr_length {A B} (f : A -> result B) (l : list A) (r : list B) :
  mapr f l = Ok r -> List.length r = List.length l.
Proof.
  revert r. induction l as [|x l IH]; intros r H; simpl in H.
  - now inversion H.
  - destruct (f x) as [y|]; [|discriminate]. simpl in H.
    destruct (mapr f l) as [ys|]; [|discriminate]. simpl in H.
    inversion H. simpl. now rewrite (IH ys eq_refl).
Qed.

Lemma vstack_app (a b c : arr2) : vstack a b = Ok c -> c = (a ++ b)%list.
Proof.
  unfold vstack. destruct a as [|ra a], b as [|rb b];
    try (now intros H; inversion H).
  destruct (_ =? _)%nat; [now intros H; inversion H | discriminate].
Qed.

(** What one exposure contributes to [dk56] and to [dk56bis]: one row
    per frame for the first, a single row for the second, whatever the
    number of frames. *)
Lemma new_dk56_length (slices : arr4) (r : arr2) :
  new_dk56 slices = Ok r -> List.length r = List.length slices.
Proof.
  unfold new_dk56. destruct (mapr at_56_15 slices) as [px|] eqn:H;
    [|discriminate].
  simpl. intros Hr. inversion Hr. unfold reshape_col.
  rewrite !length_map. now apply mapr_length in H.
Qed.

Lemma new_dk56bis_length (slices : arr4) (r : arr2) :
  new_dk56bis slices = Ok r -> List.length r = 1%nat.
Proof.
  unfold new_dk56bis. destruct (mapr at_56_15_10 slices); [|discriminate].
  simpl. intros Hr. now inversion Hr.
Qed.

(** From the second file on, [dk56bis] is the extended [dk56] followed
    by a single row; what [dk56bis] held before is dropped. *)
Lemma extend_series_dk56bis (st : diag) (slices : arr4) (dc d b : arr2) :
  extend_series st slices = Ok (dc, d, b) ->
  exists row, b = (d ++ [row])%list.
Proof.
  unfold extend_series.
  destruct (read_local "dark_current" (dark_current st)) as [dc0|];
    [|discriminate]. cbn [rbind].
  destruct (vstack dc0 _) as [dc'|]; [|discriminate]. cbn [rbind].
  destruct (read_local "dk56" (dk56 st)) as [d0|]; [|discriminate].
  cbn [rbind].
  destruct (new_dk56 slices) as [n56|]; [|discriminate]. cbn [rbind].
  destruct (vstack d0 n56) as [d'|]; [|discriminate]. cbn [rbind].
  destruct (new_dk56bis slices) as [nbis|] eqn:Hn; [|discriminate].
  cbn [rbind].
  destruct (vstack d' nbis) as [bis'|] eqn:Hv; [|discriminate].
  cbn [rbind]. intros H. inversion H; subst.
  apply vstack_app in Hv. apply new_dk56bis_length in Hn.
  destruct nbis as [|row [|? ?]]; try discriminate. now exists row.
Qed.

(** C3 on the code: [check_dark] over one exposure of two frames, with
    the averages of [get_average_dark] as baseline.  [dk56] has one
    entry per frame; [dk56bis] has a single entry, the mean over the two
    frames of the sample at (56, 15, 10), where the claim expects the
    two samples -329/2 and 329/2. *)
Lemma dk56bis_single_entry_for_two_frames :
  rbind (Null Demo.E "data/dark_ramp.mat")
        (fun data => Ok (List.length data)) = Ok 2%nat /\
  rbind (Demo.diag_after Demo.ramp_list
           (Demo.average_of Demo.ramp_names "ramp"))
        (fun st => Ok (dk56 st, dk56bis st))
  = Ok (Some [[Fin (-657 # 4)]; [Fin (657 # 4)]], Some [[Fin 0]]).
Proof. split; vm_compute; reflexivity. Qed.

(** C3 on the code, second file: [dk56bis] is [dk56] and one more
    entry. *)
Lemma dk56bis_rebuilt_from_dk56 :
  rbind (Demo.diag_after Demo.hot_list (Demo.average_of Demo.hot_names "hot"))
        (fun st => Ok (dk56 st, dk56bis st))
  = Ok (Some [[Fin 0]; [Fin 0]], Some [[Fin 0]; [Fin 0]; [Fin 0]]).
Proof. vm_compute. reflexivity. Qed.

(** C6, as stated, fails: two exposures whose channel 3 lies outside of
    the edges; the summed histogram of channel 3 has a total of zero,
    and its normalized row is the result of dividing by that zero. *)
Lemma zero_total_channel_divided_by_zero :
  rbind (Demo.diag_after Demo.hot_list (Demo.average_of Demo.hot_names "hot"))
        (fun st => getitem (sum_files (hist_slices st)) 3)
  = Ok [0; 0; 0; 0]%Z /\
  rbind (Demo.diag_after Demo.hot_list (Demo.average_of Demo.hot_names "hot"))
        (fun st => rbind (super_hist_of (hist_slices st))
                         (fun sh => getitem sh 3))
  = Ok [NaN; NaN; NaN; NaN].
Proof. split; vm_compute; reflexivity. Qed.

End TimeSeries.

(* ================================================================== *)
(** ** The index range of the selection *)
(* ================================================================== *)

Section Slicing.

Local Open Scope string_scope.

(** Whatever the bounds, a slice is a run of consecutive elements of
    the list. *)
Lemma py_slice_segment {A} (lo hi : option Z) (l : list A) :
  exists pre post, l = (pre ++ py_slice lo hi l ++ post)%list.
Proof.
  unfold py_slice.
  set (a := Z.to_nat (slice_bound _ 0%Z lo)).
  set (k := Z.to_nat (_ - _)).
  exists (firstn a l), (skipn k (skipn a l)).
  now rewrite firstn_skipn, firstn_skipn.
Qed.

Lemma py_slice_incl {A} (lo hi : option Z) (l : list A) (x : A) :
  In x (py_slice lo hi l) -> In x l.
Proof.
  intros H. destruct (py_slice_segment lo hi l) as [pre [post Hl]].
  rewrite Hl, !in_app_iff. tauto.
Qed.

Lemma selected_spec (keyword f : string) :
  selected keyword f = true <->
  is_substring keyword f /\ ~ is_substring ".txt" f.
Proof.
  unfold selected. rewrite andb_true_iff, negb_true_iff, str_in_spec.
  rewrite <- (str_in_spec ".txt" f). now destruct (str_in ".txt" f).
Qed.

Lemma py_slice_in_range {A} (a b : nat) (l : list A) :
  (a <= b <= List.length l)%nat ->
  py_slice (Some (Z.of_nat a)) (Some (Z.of_nat b)) l
  = firstn (b - a) (skipn a l).
Proof.
  intros H. unfold py_slice, slice_bound.
  destruct (Z.ltb_spec (Z.of_nat a) 0); [lia|].
  destruct (Z.ltb_spec (Z.of_nat b) 0); [lia|].
  rewrite !Z.min_l by lia. rewrite Nat2Z.id. f_equal. lia.
Qed.

(** X1: every path of the selection, whatever the index range, is the
    data path followed by a name of the folder that contains the
    keyword and does not contain [.txt]. *)
Theorem select_files_sound (data_path keyword : string)
  (nb_files : option Z * option Z) (names : list string) (p : string) :
  In p (select_files data_path keyword nb_files names) ->
  exists f, p = data_path ++ f /\ In f names /\
            is_substring keyword f /\ ~ is_substring ".txt" f.
Proof.
  unfold select_files. intros H. apply py_slice_incl in H.
  apply in_map_iff in H. destruct H as [f [<- Hf]].
  exists f. split; [reflexivity|].
  apply filter_In in Hf. destruct Hf as [Hin Hsel].
  apply selected_spec in Hsel. tauto.
Qed.

Lemma select_files_sound_witness :
  exists f, "data/dark_02.mat" = "data/" ++ f /\
            In f ["dark_01.mat"; "dark_02.mat"; "dark.txt"; "flat.mat"] /\
            is_substring "dark" f /\ ~ is_substring ".txt" f.
Proof.
  apply (@select_files_sound "data/" "dark" (Some (-1)%Z, None)
           ["dark_01.mat"; "dark_02.mat"; "dark.txt"; "flat.mat"]
           "data/dark_02.mat").
  left. reflexivity.
Defined.

(** X2: with bounds [a <= b] within the number of matching names, the
    selection holds the matching names at the positions [a .. b - 1], in
    the order of the listing, and nothing else. *)
Theorem select_files_range (data_path keyword : string) (a b : nat)
  (names : list string) (i : nat) :
  (a <= b <= List.length (filter (selected keyword) names))%nat ->
  nth_error (select_files data_path keyword
               (Some (Z.of_nat a), Some (Z.of_nat b)) names) i
  = if (i <? b - a)%nat
    then option_map (fun f => data_path ++ f)
           (nth_error (filter (selected keyword) names) (a + i))
    else None.
Proof.
  intros H. unfold select_files. cbn [fst snd].
  rewrite py_slice_in_range by (now rewrite length_map).
  rewrite nth_error_firstn. destruct (i <? b - a)%nat; [|reflexivity].
  now rewrite nth_error_skipn, nth_error_map.
Qed.

Lemma select_files_range_witness :
  select_files "data/" "dark" (Some 1%Z, Some 3%Z)
    ["dark_0"; "dark_1"; "notes.txt"; "dark_2"; "dark_3"; "dark_4"]
  = ["data/dark_1"; "data/dark_2"] /\
  nth_error (select_files "data/" "dark" (Some (Z.of_nat 1), Some (Z.of_nat 3))
               ["dark_0"; "dark_1"; "notes.txt"; "dark_2"; "dark_3";
                "dark_4"]) 1
  = Some "data/dark_2".
Proof.
  split; [reflexivity|].
  rewrite (@select_files_range "data/" "dark" 1 3
             ["dark_0"; "dark_1"; "notes.txt"; "dark_2"; "dark_3"; "dark_4"]
             1).
  - reflexivity.
  - cbn. lia.
Defined.

End Slicing.

(* ================================================================== *)
(** ** get_histogram *)
(* ================================================================== *)

Section Histogram.

Lemma cum_counts_length (a bins : arr1) :
  List.length (cum_counts a bins) = List.length bins.
Proof.
  induction bins as [|e [|e' r] IH]; [reflexivity | reflexivity |].
  change (cum_counts a (e :: e' :: r))
    with (count (fun x => sort_lt x e) a :: cum_counts a (e' :: r)).
  cbn [List.length]. now rewrite IH.
Qed.

Lemma diff_length (l : list Z) :
  List.length (diff l) = (List.length l - 1)%nat.
Proof.
  induction l as [|x [|y r] IH]; [reflexivity | reflexivity |].
  change (diff (x :: y :: r)) with ((y - x)%Z :: diff (y :: r)).
  cbn [List.length] in *. rewrite IH. lia.
Qed.

Lemma last_cons {A} (x y : A) (r : list A) : last (y :: r) x = last r y.
Proof.
  revert x y. induction r as [|z r IH]; intros x y; [reflexivity|].
  change (last (y :: z :: r) x) with (last (z :: r) x).
  now rewrite (IH x z), (IH y z).
Qed.

(** The sum of consecutive differences telescopes. *)
Lemma diff_sum (x : Z) (l : list Z) :
  sumZ (diff (x :: l)) = (last l x - x)%Z.
Proof.
  revert x. induction l as [|y r IH]; intros x.
  - cbn. unfold sumZ. cbn. lia.
  - change (diff (x :: y :: r)) with ((y - x)%Z :: diff (y :: r)).
    rewrite sumZ_cons, IH, last_cons. lia.
Qed.

Lemma count_mono (p q : npfloat -> bool) (a : arr1) :
  (forall x, p x = true -> q x = true) -> (count p a <= count q a)%Z.
Proof.
  intros H. unfold count. apply inj_le.
  induction a as [|x a IH]; [reflexivity|]. cbn [filter].
  destruct (p x) eqn:Hp.
  - rewrite (H x Hp). cbn. lia.
  - destruct (q x); cbn; lia.
Qed.

Lemma count_minus (p q : npfloat -> bool) (a : arr1) :
  (forall x, q x = true -> p x = true) ->
  (count p a - count q a)%Z = count (fun x => p x && negb (q x)) a.
Proof.
  intros H. unfold count.
  induction a as [|x a IH]; [reflexivity|]. cbn [filter].
  destruct (q x) eqn:Hq.
  - rewrite (H x Hq). cbn [andb negb List.length]. lia.
  - destruct (p x); cbn [andb negb List.length]; lia.
Qed.

Lemma count_ext (p q : npfloat -> bool) (a : arr1) :
  (forall x, p x = q x) -> count p a = count q a.
Proof.
  intros H. unfold count. f_equal. f_equal. now apply filter_ext.
Qed.

(** Order facts on finite edges. *)
Lemma sort_lt_le_fin (e e' : Q) (x : npfloat) :
  fgt (Fin e) (Fin e') = false ->
  sort_lt x (Fin e) = true -> sort_le x (Fin e') = true.
Proof.
  unfold fgt, flt. intros He. apply negb_false_iff in He.
  apply Qle_bool_iff in He.
  destruct x as [q| | |]; cbn; try easy.
  intros Hx. apply negb_true_iff in Hx. apply Qle_bool_iff.
  destruct (Qlt_le_dec q e) as [Hlt|Hle].
  - apply Qlt_le_weak. now apply Qlt_le_trans with e.
  - apply Qle_bool_iff in Hle. congruence.
Qed.

Lemma sort_lt_lt_fin (e e' : Q) (x : npfloat) :
  fgt (Fin e) (Fin e') = false ->
  sort_lt x (Fin e) = true -> sort_lt x (Fin e') = true.
Proof.
  unfold fgt, flt. intros He. apply negb_false_iff in He.
  apply Qle_bool_iff in He.
  destruct x as [q| | |]; cbn; try easy.
  intros Hx. apply negb_true_iff in Hx. apply negb_true_iff.
  destruct (Qle_bool e' q) eqn:Hq; [|reflexivity].
  apply Qle_bool_iff in Hq.
  assert (Qle_bool e q = true) as Hc
    by (apply Qle_bool_iff; now apply Qle_trans with e').
  congruence.
Qed.

Lemma fle_trans_fin (a b c : Q) :
  fgt (Fin a) (Fin b) = false -> fle (Fin b) (Fin c) = true ->
  fle (Fin a) (Fin c) = true.
Proof.
  unfold fgt, flt, fle. intros Hab Hbc.
  apply negb_false_iff in Hab. apply Qle_bool_iff in Hab, Hbc.
  apply Qle_bool_iff. now apply Qle_trans with b.
Qed.

(** With finite increasing edges the cumulative counts do not
    decrease. *)
Lemma cum_counts_sorted (a bins : arr1) :
  forallb is_finite bins = true -> increasing_edges bins = true ->
  Forall (fun d => (0 <= d)%Z) (diff (cum_counts a bins)).
Proof.
  induction bins as [|e [|e' bins] IH]; intros Hfin Hinc;
    [constructor | constructor |].
  cbn [forallb] in Hfin. apply andb_true_iff in Hfin.
  destruct Hfin as [Hfe Hfin].
  change (increasing_edges (e :: e' :: bins))
    with (negb (fgt e e') && increasing_edges (e' :: bins)) in Hinc.
  apply andb_true_iff in Hinc. destruct Hinc as [Hee Hinc].
  apply negb_true_iff in Hee.
  specialize (IH Hfin Hinc).
  change (cum_counts a (e :: e' :: bins))
    with (count (fun x => sort_lt x e) a :: cum_counts a (e' :: bins)).
  destruct e as [qe| | |]; try discriminate.
  assert (exists qe', e' = Fin qe') as [qe' ->].
  { cbn [forallb] in Hfin. apply andb_true_iff in Hfin.
    destruct e'; try (destruct Hfin; discriminate). eauto. }
  destruct bins as [|e'' bins].
  - cbn [cum_counts diff]. constructor; [|constructor].
    assert (count (fun x => sort_lt x (Fin qe)) a
            <= count (fun x => sort_le x (Fin qe')) a)%Z; [|lia].
    apply count_mono. intros x. now apply sort_lt_le_fin.
  - change (cum_counts a (Fin qe' :: e'' :: bins))
      with (count (fun x => sort_lt x (Fin qe')) a
            :: cum_counts a (e'' :: bins)) in *.
    set (c0 := count (fun x => sort_lt x (Fin qe)) a).
    set (c1 := count (fun x => sort_lt x (Fin qe')) a) in *.
    change (diff (c0 :: c1 :: cum_counts a (e'' :: bins)))
      with ((c1 - c0)%Z :: diff (c1 :: cum_counts a (e'' :: bins))).
    constructor; [|exact IH].
    assert (c0 <= c1)%Z; [|lia].
    apply count_mono. intros x. now apply sort_lt_lt_fin.
Qed.

(** First and last cumulative counts. *)
Lemma cum_counts_ends (a : arr1) (e e' : npfloat) (bins : arr1) :
  exists r,
    cum_counts a (e :: e' :: bins)
    = count (fun x => sort_lt x e) a :: r /\
    last r 0%Z = count (fun x => sort_le x (last bins e')) a.
Proof.
  revert e e'. induction bins as [|e'' bins IH]; intros e e'.
  - eexists. split; reflexivity.
  - destruct (IH e' e'') as [r [Hr Hl]].
    change (cum_counts a (e :: e' :: e'' :: bins))
      with (count (fun x => sort_lt x e) a
            :: cum_counts a (e' :: e'' :: bins)).
    rewrite Hr. eexists. split; [reflexivity|].
    rewrite !last_cons. rewrite <- Hl.
    pose proof (cum_counts_length a (e' :: e'' :: bins)) as Hlen.
    rewrite Hr in Hlen. destruct r as [|c r]; [discriminate|].
    now rewrite !last_cons.
Qed.

(** The first finite edge of increasing edges is below the last. *)
Lemma edges_first_le_last (e : Q) (bins : arr1) :
  forallb is_finite (Fin e :: bins) = true ->
  increasing_edges (Fin e :: bins) = true ->
  exists l, last bins (Fin e) = Fin l /\ fle (Fin e) (Fin l) = true.
Proof.
  revert e. induction bins as [|e' bins IH]; intros e Hfin Hinc.
  - exists e. split; [reflexivity|]. cbn. apply Qle_bool_iff, Qle_refl.
  - cbn [forallb] in Hfin. apply andb_true_iff in Hfin.
    destruct Hfin as [_ Hfin].
    change (increasing_edges (Fin e :: e' :: bins))
      with (negb (fgt (Fin e) e') && increasing_edges (e' :: bins)) in Hinc.
    apply andb_true_iff in Hinc. destruct Hinc as [Hee Hinc].
    apply negb_true_iff in Hee.
    destruct e' as [q'| | |];
      try (cbn [forallb is_finite] in Hfin; discriminate).
    destruct (IH q' Hfin Hinc) as [l [Hl Hle]].
    exists l. split.
    + rewrite last_cons. exact Hl.
    + now apply fle_trans_fin with q'.
Qed.

Lemma np_histogram_ok (data bins : arr1) (h : list Z) :
  np_histogram data bins = Ok h ->
  h = diff (cum_counts data bins) /\ increasing_edges bins = true.
Proof.
  unfold np_histogram. destruct (increasing_edges bins); [|discriminate].
  intros H. split; [congruence | reflexivity].
Qed.

End Histogram.

Section HistogramProperties.

(** X3: [get_histogram] returns one count per bin, and with finite
    edges no count is negative. *)
Theorem get_histogram_counts (data bins : arr1) (h : list Z) :
  get_histogram data bins = Ok h ->
  List.length h = (List.length bins - 1)%nat /\
  (forallb is_finite bins = true -> Forall (fun c => (0 <= c)%Z) h).
Proof.
  unfold get_histogram. intros H.
  apply np_histogram_ok in H. destruct H as [-> Hinc]. split.
  - now rewrite diff_length, cum_counts_length.
  - intros Hfin. now apply cum_counts_sorted.
Qed.

Lemma get_histogram_counts_witness :
  List.length [0; 0; 2; 1]%Z = 4%nat /\
  Forall (fun c => (0 <= c)%Z) [0; 0; 2; 1]%Z.
Proof.
  destruct (@get_histogram_counts
              [Fin 0; Fin 1; Fin (5 # 2); NaN; Fin (-3)]
              [Fin (-5 # 2); Fin (-5 # 4); Fin 0; Fin (5 # 4); Fin (5 # 2)]
              [0; 0; 2; 1]%Z eq_refl) as [H1 H2].
  split; [exact H1 | exact (H2 eq_refl)].
Defined.

(** X4: with at least two finite edges, the counts of [get_histogram]
    add up to the number of samples between the first and the last
    edge, both included; samples outside of the edges and [nan] are
    dropped. *)
Theorem get_histogram_total (data : arr1) (e e' : npfloat) (bins : arr1)
  (h : list Z) :
  forallb is_finite (e :: e' :: bins) = true ->
  get_histogram data (e :: e' :: bins) = Ok h ->
  sumZ h = count (in_range e (last bins e')) data.
Proof.
  unfold get_histogram. intros Hfin H.
  apply np_histogram_ok in H. destruct H as [-> Hinc].
  destruct (cum_counts_ends data e e' bins) as [r [Hr Hl]].
  rewrite Hr, diff_sum.
  destruct e as [qe| | |]; try discriminate.
  destruct (edges_first_le_last qe (e' :: bins) Hfin Hinc) as [l [Hlast Hle]].
  rewrite last_cons in Hlast.
  assert (last r (count (fun x => sort_lt x (Fin qe)) data)
          = count (fun x => sort_le x (Fin l)) data) as ->.
  { rewrite <- Hlast, <- Hl.
    destruct r as [|c r].
    - pose proof (cum_counts_length data (Fin qe :: e' :: bins)) as Hlen.
      rewrite Hr in Hlen. discriminate.
    - now rewrite !last_cons. }
  rewrite count_minus.
  - rewrite Hlast. apply count_ext. intros x. unfold in_range.
    destruct x as [q| | |]; cbn; try reflexivity.
    + rewrite negb_involutive. apply andb_comm.
  - intros x Hx. apply sort_lt_le_fin with qe; [|exact Hx].
    unfold fgt, flt. apply negb_false_iff. exact Hle.
Qed.

Lemma get_histogram_total_witness :
  sumZ [0; 0; 2; 1]%Z
  = count (in_range (Fin (-5 # 2)) (Fin (5 # 2)))
          [Fin 0; Fin 1; Fin (5 # 2); NaN; Fin (-3)].
Proof.
  apply (@get_histogram_total
           [Fin 0; Fin 1; Fin (5 # 2); NaN; Fin (-3)]
           (Fin (-5 # 2)) (Fin (-5 # 4)) [Fin 0; Fin (5 # 4); Fin (5 # 2)]
           [0; 0; 2; 1]%Z); reflexivity.
Defined.

End HistogramProperties.

(* ================================================================== *)
(** ** check_dark: bounds, empty list, effects *)
(* ================================================================== *)

Section CheckDarkEdges.

Local Open Scope string_scope.
Local Open Scope py_scope.

Variable E : externals.

Lemma linspace_ok (s e : npfloat) (num : Z) :
  (0 <= num)%Z -> exists y step, linspace s e num = Ok (y, step).
Proof.
  intros H. unfold linspace.
  destruct (Z.ltb_spec num 0); [lia|].
  destruct (0 <? num - 1)%Z; [destruct (feqb _ _)|];
    eexists; eexists; reflexivity.
Qed.

(** X5: bounds with [edge_max + 1 < edge_min] ask [np.linspace] for a
    negative number of edges: [check_dark] raises [ValueError] before
    it loads, prints or writes anything. *)
Theorem check_dark_negative_range (dark_list : list string) (avg : arr2)
  (channel_pos : arr1) (sep : npfloat) (spatial_axis : list Z)
  (edge_min edge_max : Z) (sdc : arr3) (save : bool)
  (output_path : string) (w : world) :
  (edge_max + 1 < edge_min)%Z ->
  check_dark E dark_list avg channel_pos sep spatial_axis edge_min edge_max
             sdc save output_path w
  = (Raise (ValueError "Number of samples must be non-negative"), w).
Proof.
  intros H. unfold check_dark, histogram_edges, linspace.
  destruct (Z.ltb_spec (edge_max - edge_min + 1) 0); [reflexivity | lia].
Qed.

(** X6: without any exposure, and with bounds that give edges,
    [check_dark] raises at the normalization of the histograms per
    channel (the sum over the files is a scalar without axis 1), before
    any fit, print or write. *)
Theorem check_dark_no_exposure (avg : arr2) (channel_pos : arr1)
  (sep : npfloat) (spatial_axis : list Z) (edge_min edge_max : Z)
  (sdc : arr3) (save : bool) (output_path : string) (w : world) :
  (edge_min <= edge_max + 1)%Z ->
  check_dark E [] avg channel_pos sep spatial_axis edge_min edge_max sdc
             save output_path w
  = (Raise (AxisError "axis 1 is out of bounds for array of dimension 0"),
     w).
Proof.
  intros H. unfold check_dark, histogram_edges.
  destruct (@linspace_ok (fsub (of_Z edge_min) (Fin (1 # 2)))
              (fadd (of_Z edge_max) (Fin (1 # 2)))
              (edge_max - edge_min + 1)%Z) as [y [step Hl]]; [lia|].
  rewrite Hl. reflexivity.
Qed.

End CheckDarkEdges.

Section CheckDarkEdgesWitnesses.

Local Open Scope string_scope.

Lemma check_dark_negative_range_witness :
  check_dark Demo.E Demo.ramp_list [] [] (Fin 20) [] 5 3 [] true "out/"
             (Demo.world_of [] [])
  = (Raise (ValueError "Number of samples must be non-negative"),
     Demo.world_of [] []).
Proof.
  apply (@check_dark_negative_range Demo.E Demo.ramp_list [] [] (Fin 20) []
           5 3 [] true "out/" (Demo.world_of [] [])).
  reflexivity.
Defined.

Lemma check_dark_no_exposure_witness :
  check_dark Demo.E [] [] [] (Fin 20) [] (-50) 50 [] true "out/"
             (Demo.world_of [] [])
  = (Raise (AxisError "axis 1 is out of bounds for array of dimension 0"),
     Demo.world_of [] []).
Proof.
  apply (@check_dark_no_exposure Demo.E [] [] (Fin 20) [] (-50) 50 [] true
           "out/" (Demo.world_of [] [])).
  discriminate.
Defined.

End CheckDarkEdgesWitnesses.

(* ================================================================== *)
(** ** Where the writes go *)
(* ================================================================== *)

Section WritersUnder.

Local Open Scope string_scope.
Local Open Scope py_scope.

Variable P : event -> bool.
Variable T : string -> bool.
Variable E : externals.
Variable output_path : string.

Hypothesis Hprint : forall fmt args, P (EvPrint fmt args) = true.
Hypothesis Hload : forall f, P (EvLoad f) = true.
Hypothesis Hopen : forall s m, P (EvH5Open (output_path ++ s) m) = true.
Hypothesis Hdata :
  forall s k a, P (EvH5Dataset (output_path ++ s) k a) = true.
Hypothesis Hfig : forall s, P (EvSavefig (output_path ++ s)) = true.
Hypothesis Hnp : forall s a, P (EvNpSave (output_path ++ s) a) = true.
Hypothesis Htouch : forall s, T (output_path ++ s) = true.

Lemma string_app_assoc (a b c : string) : (a ++ b) ++ c = a ++ (b ++ c).
Proof. induction a as [|x a IH]; [reflexivity|]. simpl. now rewrite IH. Qed.

Lemma effects_save_histo_dark_under s dic_data mode :
  effects P T (save_histo_dark (output_path ++ s) dic_data mode)
    (fun _ => True).
Proof.
  unfold save_histo_dark.
  eapply effects_bind; [apply effects_os_path_exists | intros ex _].
  assert (forall m, effects P T (h5_open (output_path ++ s) m)
                      (fun _ => True)) as Ho.
  { intros m. unfold h5_open.
    eapply effects_bind; [apply effects_open_for_writing | intros _ _].
    eapply effects_bind; [apply effects_emit, Hopen | intros _ _].
    apply effects_touch, Htouch. }
  destruct (String.eqb mode "channel").
  - eapply effects_bind; [apply Ho | intros _ _].
    apply effects_for_each with (I := fun _ => True); [|exact I].
    intros [] kv _ _.
    eapply effects_bind; [now apply effects_lift_any | intros d _].
    apply effects_emit, Hdata.
  - eapply effects_bind; [apply Ho | intros _ _].
    apply effects_emit, Hdata.
Qed.

Lemma effects_when_savefig_under save s :
  effects P T (when save (plt_savefig (output_path ++ s))) (fun _ => True).
Proof.
  apply effects_when. intros _. unfold plt_savefig.
  eapply effects_bind; [apply effects_open_for_writing | intros _ _].
  eapply effects_bind; [apply effects_emit, Hfig | intros _ _].
  apply effects_touch, Htouch.
Qed.

Lemma effects_np_save_under s a :
  effects P T (np_save (output_path ++ s) a) (fun _ => True).
Proof.
  unfold np_save.
  eapply effects_bind; [apply effects_open_for_writing | intros _ _].
  eapply effects_bind; [apply effects_emit, Hnp | intros _ _].
  apply effects_touch. destruct (str_endswith _ _); [apply Htouch|].
  rewrite string_app_assoc. apply Htouch.
Qed.

Lemma effects_check_dark_under dark_list avg channel_pos sep spatial_axis
  edge_min edge_max sdc save :
  effects P T
    (check_dark E dark_list avg channel_pos sep spatial_axis edge_min
                edge_max sdc save output_path)
    (fun _ => True).
Proof.
  unfold check_dark.
  eapply effects_bind;
    [now apply effects_lift_any | intros [bin_hist step] _].
  eapply effects_bind.
  { apply effects_for_each with (I := fun _ => True); [|exact I].
    intros s x _ _. now apply effects_diagnose. }
  intros st _.
  eapply effects_bind; [now apply effects_lift_any | intros super_hist _].
  eapply effects_bind; [now apply effects_lift_any | intros params _].
  eapply effects_bind.
  { apply effects_when. intros _.
    eapply effects_bind; [apply effects_save_histo_dark_under | intros _ _].
    eapply effects_bind; [apply effects_save_histo_dark_under | intros _ _].
    apply effects_save_histo_dark_under. }
  intros _ _.
  eapply effects_bind; [now apply effects_lift_any | intros _ _].
  eapply effects_bind; [apply effects_when_savefig_under | intros _ _].
  eapply effects_bind; [apply effects_when_savefig_under | intros _ _].
  eapply effects_bind; [apply effects_when_savefig_under | intros _ _].
  eapply effects_bind; [now apply effects_lift_any | intros d56 _].
  eapply effects_bind; [now apply effects_lift_any | intros _ _].
  eapply effects_bind; [now apply effects_lift_any | intros dbis _].
  eapply effects_bind; [now apply effects_lift_any | intros _ _].
  eapply effects_bind; [now apply effects_lift_any | intros dc _].
  eapply effects_bind.
  { apply effects_for_each with (I := fun _ => True); [|exact I].
    intros [] i _ _.
    eapply effects_bind; [now apply effects_drift_channel | intros _ _].
    now apply effects_ret. }
  intros _ _.
  eapply effects_bind; [apply effects_when_savefig_under | intros _ _].
  eapply effects_bind; [now apply effects_lift_any | intros _ _].
  eapply effects_bind; [apply effects_when_savefig_under | intros _ _].
  now apply effects_ret.
Qed.

Lemma effects_average_dark_list_under dark_list save monitor edge_min
  edge_max :
  effects P T
    (average_dark_list E dark_list output_path save monitor edge_min
                       edge_max)
    (fun _ => True).
Proof.
  unfold average_dark_list.
  destruct (get_channel_positions E NB_TRACKS) as [channel_pos sep].
  eapply effects_bind with (Q := fun _ => True).
  - apply effects_for_each with (I := fun _ => True); [|exact I].
    intros s f _ _. eapply effects_weaken.
    + now apply effects_accumulate.
    + trivial.
  - intros st _. eapply effects_bind with (Q := fun _ => True).
    + unfold finalize. destruct (negb _); [|now apply effects_ret].
      eapply effects_bind; [|intros _ _; now apply effects_ret].
      apply effects_when. intros _.
      eapply effects_bind; [apply effects_np_save_under | intros _ _].
      apply effects_np_save_under.
    + intros [sd sdc] _. destruct monitor; [|now apply effects_ret].
      eapply effects_bind; [now apply effects_lift_any | intros avg _].
      eapply effects_bind; [now apply effects_lift_any | intros sa _].
      eapply effects_bind; [|intros r _; now apply effects_ret].
      apply effects_check_dark_under.
Qed.

End WritersUnder.

Section WritesProperties.

Local Open Scope string_scope.

Lemma prefix_app (p s : string) : String.prefix p (p ++ s) = true.
Proof. apply prefix_spec. now exists s. Qed.

Lemma prefix_refl (p : string) : String.prefix p p = true.
Proof. apply prefix_spec. exists "". induction p; simpl; congruence. Qed.

(** X7: [check_dark] with [save] unset writes nothing: it only prints
    progress lines and loads exposures, and the paths of the file system
    are as before. *)
Theorem check_dark_unsaved_writes_nothing (E : externals)
  (dark_list : list string) (avg : arr2) (channel_pos : arr1)
  (sep : npfloat) (spatial_axis : list Z) (edge_min edge_max : Z)
  (sdc : arr3) (output_path : string) (w : world) :
  forallb quiet
    (new_events (check_dark E dark_list avg channel_pos sep spatial_axis
                            edge_min edge_max sdc false output_path) w)
  = true /\
  paths (snd (check_dark E dark_list avg channel_pos sep spatial_axis
                         edge_min edge_max sdc false output_path w))
  = paths w.
Proof.
  destruct (@effects_check_dark quiet (fun _ => false) E
              (fun _ _ => eq_refl) (fun _ => eq_refl) false
              ltac:(discriminate) ltac:(discriminate) ltac:(discriminate)
              ltac:(discriminate)
              dark_list avg channel_pos sep spatial_axis edge_min edge_max
              sdc output_path w)
    as [(_ & (evs & Hlog & Hq) & (ps & Hps & Ht)) _].
  split.
  - now rewrite (new_events_extends _ _ _ Hlog).
  - destruct ps; [exact Hps | discriminate].
Qed.

(** X8: whatever its arguments and the outcome, every write of
    [get_average_dark] names a path that starts with [output_path], and
    apart from the directories that [os.makedirs(output_path)] makes
    (the output folder and its missing parents) every path it creates
    starts with [output_path]. *)
Theorem get_average_dark_writes_under_output_path (E : externals)
  (w : world) (data_path output_path : string)
  (nb_files : option Z * option Z) (save monitor : bool) (edges : Z * Z)
  (keyword : string) :
  forallb (under output_path)
    (new_events (get_average_dark E data_path output_path nb_files save
                                  monitor edges keyword) w) = true /\
  exists ps,
    paths (snd (get_average_dark E data_path output_path nb_files save
                                 monitor edges keyword w))
    = (ps ++ paths (match listing w data_path with
                    | Some _ => with_output_dir output_path w
                    | None => w
                    end))%list /\
    forallb (String.prefix output_path) ps = true.
Proof.
  destruct (listing w data_path) as [names|] eqn:Hl.
  - assert (exists ev0,
              log (with_output_dir output_path w) = (log w ++ ev0)%list /\
              forallb (under output_path) ev0 = true) as (ev0 & Hl0 & Hu0).
    { unfold with_output_dir. destruct (existsb _ _).
      - exists []. now rewrite app_nil_r.
      - destruct (snd (fs_makedirs w output_path)); cbn [log].
        + exists []. now rewrite app_nil_r.
        + exists [EvMakedirs output_path]. split; [reflexivity|].
          cbn. now rewrite prefix_refl. }
    destruct (output_dir_error output_path w) as [e|] eqn:Hd.
    + unfold new_events.
      erewrite get_average_dark_no_output_dir by eassumption. cbn [snd].
      rewrite Hl0, skipn_app, skipn_all, Nat.sub_diag.
      split; [exact Hu0 | now exists []].
    + destruct (@effects_average_dark_list_under (under output_path)
                  (String.prefix output_path) E output_path
                  (fun _ _ => eq_refl) (fun _ => eq_refl)
                  (fun s _ => prefix_app output_path s)
                  (fun s _ _ => prefix_app output_path s)
                  (fun s => prefix_app output_path s)
                  (fun s _ => prefix_app output_path s)
                  (fun s => prefix_app output_path s)
                  (select_files data_path keyword nb_files names)
                  save monitor (fst edges) (snd edges)
                  (with_output_dir output_path w))
        as [(_ & (evs & Hlog & Hp) & Hps) _].
      erewrite <- get_average_dark_run in Hlog, Hps by eassumption.
      split; [|exact Hps].
      rewrite Hl0, <- app_assoc in Hlog.
      rewrite (new_events_extends _ _ _ Hlog), forallb_app, Hu0, Hp.
      reflexivity.
  - unfold new_events. erewrite get_average_dark_no_folder by exact Hl.
    cbn [snd]. rewrite skipn_all. split; [reflexivity|]. now exists [].
Qed.

End WritesProperties.

(* ================================================================== *)
(** ** save_histo_dark *)
(* ================================================================== *)

Section SaveHistoDark.

Local Open Scope string_scope.
Local Open Scope py_scope.

Lemma track_id_indices : Permutation (map snd track_id) (seq 0 16).
Proof.
  apply NoDup_Permutation.
  - repeat constructor; cbn; lia.
  - apply seq_NoDup.
  - intros i. rewrite in_seq. cbn. lia.
Qed.

Lemma track_id_keys : NoDup (map fst track_id).
Proof.
  repeat constructor; cbn; intros H;
    repeat (destruct H as [H|H]; [discriminate|]); exact H.
Qed.

(** The loop over the keys, when every index it reads exists. *)
Lemma write_datasets (path : string) (dic_data : ndarray)
  (l : list (string * nat)) (w : world) :
  Forall (fun kv => exists d, nd_getitem dic_data (snd kv) = Ok d) l ->
  for_each (fun (_ : unit) (kv : string * nat) =>
              bind (lift (nd_getitem dic_data (snd kv)))
                   (fun d => h5_create_dataset path (fst kv) d))
           l tt w
  = (Ok tt,
     {| listing := listing w;
        paths := paths w;
        log := (log w
                ++ map (fun kv => EvH5Dataset path (fst kv)
                                    (dataset_of dic_data (snd kv))) l)%list;
        fs_makedirs := fs_makedirs w;
        fs_open := fs_open w |}).
Proof.
  revert w. induction l as [|kv l IH]; intros w Hall.
  - cbn. rewrite app_nil_r. now destruct w.
  - inversion Hall as [|? ? [d Hd] Hl]; subst.
    cbn [for_each]. unfold bind at 1. unfold bind at 1, lift at 1.
    rewrite Hd. unfold h5_create_dataset at 1, emit.
    rewrite IH by exact Hl. cbn [listing paths log fs_makedirs fs_open map].
    unfold dataset_of at 2. rewrite Hd. now rewrite <- app_assoc.
Qed.

End SaveHistoDark.

Section SaveHistoDarkProperties.

Local Open Scope string_scope.

(** X9: in channel mode, for data with the rows 0 to 15: when the
    file cannot be opened for writing, [save_histo_dark] raises the
    error of [h5py.File] and writes nothing; otherwise it opens the
    file (mode [w] when the path exists, [a] otherwise) and writes
    sixteen datasets, one for each key of the table in its order,
    holding the row of the index of the key.  The keys are distinct and
    their indices are the sixteen rows, each once. *)
Theorem save_histo_dark_channel (path : string) (dic_data : ndarray)
  (w : world) :
  (forall i, (i < 16)%nat -> exists d, nd_getitem dic_data i = Ok d) ->
  save_histo_dark path dic_data "channel" w
  = match fs_open w path with
    | Some e => (Raise e, w)
    | None =>
        (Ok tt,
         with_h5_file path
           (map (fun kv => (fst kv, dataset_of dic_data (snd kv)))
                track_id) w)
    end
  /\ NoDup (map fst track_id)
  /\ Permutation (map snd track_id) (seq 0 16).
Proof.
  intros Hrows. split; [|split; [apply track_id_keys | apply track_id_indices]].
  unfold save_histo_dark, bind at 1, os_path_exists.
  cbn [String.eqb Ascii.eqb Bool.eqb].
  unfold bind at 1, h5_open, bind at 1, open_for_writing.
  destruct (fs_open w path) as [e|]; [reflexivity|].
  unfold bind at 1, emit, touch.
  rewrite write_datasets.
  - unfold with_h5_file. cbn [listing paths log fs_makedirs fs_open].
    rewrite map_map. cbn [fst snd]. now rewrite <- app_assoc.
  - apply Forall_forall. intros kv Hin. apply Hrows.
    assert (In (snd kv) (map snd track_id)) as Hi by now apply in_map.
    apply (Permutation_in _ track_id_indices) in Hi.
    apply in_seq in Hi. lia.
Qed.

Lemma save_histo_dark_channel_witness :
  save_histo_dark "out/hist_dk_params.hdf5"
    (Nd2 (map (fun i => [of_nat i; Fin 0; Fin 50]) (seq 0 16)))
    "channel" (Demo.world_of [] ["out/"])
  = (Ok tt,
     with_h5_file "out/hist_dk_params.hdf5"
       (map (fun kv =>
               (fst kv,
                dataset_of
                  (Nd2 (map (fun i => [of_nat i; Fin 0; Fin 50]) (seq 0 16)))
                  (snd kv))) track_id)
       (Demo.world_of [] ["out/"])) /\
  save_histo_dark "out/hist_dk_params.hdf5"
    (Nd2 (map (fun i => [of_nat i; Fin 0; Fin 50]) (seq 0 16)))
    "channel" (Demo.read_only_world [] [])
  = (Raise (PermissionError "out/hist_dk_params.hdf5"),
     Demo.read_only_world [] []).
Proof.
  assert (forall i, (i < 16)%nat ->
            exists d,
              nd_getitem
                (Nd2 (map (fun i => [of_nat i; Fin 0; Fin 50]) (seq 0 16)))
                i = Ok d) as Hrows.
  { intros i Hi.
    do 16 (destruct i as [|i]; [eexists; reflexivity|]). lia. }
  split.
  - exact (proj1 (@save_histo_dark_channel "out/hist_dk_params.hdf5"
             (Nd2 (map (fun i => [of_nat i; Fin 0; Fin 50]) (seq 0 16)))
             (Demo.world_of [] ["out/"]) Hrows)).
  - exact (proj1 (@save_histo_dark_channel "out/hist_dk_params.hdf5"
             (Nd2 (map (fun i => [of_nat i; Fin 0; Fin 50]) (seq 0 16)))
             (Demo.read_only_world [] []) Hrows)).
Defined.

(** X10: in channel mode, data without a row 15 (fewer than sixteen
    rows): when the file cannot be opened for writing,
    [save_histo_dark] raises the error of [h5py.File] and nothing is
    written; otherwise it raises at the first key, after the file has
    been opened, truncating an existing one, and before any dataset is
    written. *)
Theorem save_histo_dark_short_data (path : string) (dic_data : ndarray)
  (e : exn) (w : world) :
  nd_getitem dic_data 15 = Raise e ->
  save_histo_dark path dic_data "channel" w
  = match fs_open w path with
    | Some e' => (Raise e', w)
    | None => (Raise e, with_h5_file path [] w)
    end.
Proof.
  intros H. unfold save_histo_dark, bind at 1, os_path_exists.
  cbn [String.eqb Ascii.eqb Bool.eqb].
  unfold bind at 1, h5_open, bind at 1, open_for_writing.
  destruct (fs_open w path) as [e'|]; [reflexivity|].
  unfold bind at 1, emit, touch.
  cbn [track_id for_each]. unfold bind at 1. unfold bind at 1, lift at 1.
  cbn [snd]. rewrite H. reflexivity.
Qed.

Lemma save_histo_dark_short_data_witness :
  save_histo_dark "out/hist_dk_params.hdf5"
    (Nd2 [[Fin 1; Fin 0; Fin 50]; [Fin 2; Fin 0; Fin 50]])
    "channel" (Demo.world_of [] ["out/hist_dk_params.hdf5"])
  = (Raise (IndexError "index out of range"),
     with_h5_file "out/hist_dk_params.hdf5" []
       (Demo.world_of [] ["out/hist_dk_params.hdf5"])) /\
  save_histo_dark "out/hist_dk_params.hdf5"
    (Nd2 [[Fin 1; Fin 0; Fin 50]; [Fin 2; Fin 0; Fin 50]])
    "channel" (Demo.read_only_world [] ["out/hist_dk_params.hdf5"])
  = (Raise (PermissionError "out/hist_dk_params.hdf5"),
     Demo.read_only_world [] ["out/hist_dk_params.hdf5"]).
Proof.
  split.
  - exact (@save_histo_dark_short_data "out/hist_dk_params.hdf5"
             (Nd2 [[Fin 1; Fin 0; Fin 50]; [Fin 2; Fin 0; Fin 50]])
             (IndexError "index out of range")
             (Demo.world_of [] ["out/hist_dk_params.hdf5"]) eq_refl).
  - exact (@save_histo_dark_short_data "out/hist_dk_params.hdf5"
             (Nd2 [[Fin 1; Fin 0; Fin 50]; [Fin 2; Fin 0; Fin 50]])
             (IndexError "index out of range")
             (Demo.read_only_world [] ["out/hist_dk_params.hdf5"])
             eq_refl).
Defined.

End SaveHistoDarkProperties.

(* ================================================================== *)
(** ** The loop of get_average_dark *)
(* ================================================================== *)

Section Shapes.

Lemma zip_with_r_Forall2 {A B C} (f : A -> B -> result C) (a : list A)
  (b : list B) (c : list C) :
  zip_with_r f a b = Ok c ->
  Forall2 (fun x z => exists y, f x y = Ok z) a c.
Proof.
  revert b c. induction a as [|x a IH]; intros [|y b] c H;
    cbn [zip_with_r] in H; try discriminate.
  - injection H as <-. constructor.
  - destruct (f x y) as [z|] eqn:Hf; [|discriminate]. cbn [rbind] in H.
    destruct (zip_with_r f a b) as [r|] eqn:Hr; [|discriminate].
    cbn [rbind] in H. injection H as <-.
    constructor; [eauto | now apply (IH b)].
Qed.

Lemma mapr_Forall2 {A B} (g : A -> result B) (a : list A) (c : list B) :
  mapr g a = Ok c -> Forall2 (fun x z => g x = Ok z) a c.
Proof.
  revert c. induction a as [|x a IH]; intros c H; cbn [mapr] in H.
  - injection H as <-. constructor.
  - destruct (g x) as [z|] eqn:Hg; [|discriminate]. cbn [rbind] in H.
    destruct (mapr g a) as [r|] eqn:Hr; [|discriminate].
    cbn [rbind] in H. injection H as <-.
    constructor; [exact Hg | now apply IH].
Qed.

(** Broadcasting keeps the length of an axis that is not of length 1,
    and what holds of its entries. *)
Lemma broadcast_r_shape {A B C} (f : A -> B -> result C)
  (Pa : A -> Prop) (Pc : C -> Prop) (a : list A) (b : list B)
  (c : list C) :
  List.length a <> 1%nat ->
  Forall Pa a ->
  (forall x y z, Pa x -> f x y = Ok z -> Pc z) ->
  broadcast_r f a b = Ok c ->
  List.length c = List.length a /\ Forall Pc c.
Proof.
  intros Hn Ha Hf H.
  assert (Forall2 (fun x z => exists y, f x y = Ok z) a c) as H2.
  { unfold broadcast_r in H.
    destruct a as [|x [|x' a]]; [| now contradiction Hn |].
    - destruct b as [|y [|y' b]].
      + now apply zip_with_r_Forall2 in H.
      + cbn [mapr] in H. injection H as <-. constructor.
      + discriminate H.
    - destruct b as [|y [|y' b]].
      + discriminate H.
      + apply mapr_Forall2 in H.
        eapply Forall2_impl; [|exact H]. cbv beta. eauto.
      + now apply zip_with_r_Forall2 in H. }
  split; [symmetry; now apply Forall2_length in H2|].
  clear Hn H. induction H2 as [|x z a c [y Hy] _ IH]; [constructor|].
  apply Forall_cons_iff in Ha. destruct Ha as [Hx Ha].
  constructor; [now apply (Hf x y z) | now apply IH].
Qed.

Lemma ew1_length op (a b c : arr1) :
  List.length a <> 1%nat ->
  ew1 op a b = Ok c -> List.length c = List.length a.
Proof.
  intros Hn H.
  apply (@broadcast_r_shape _ _ _ _ (fun _ => True) (fun _ => True)
           a b c Hn) in H; [tauto | | trivial].
  apply Forall_forall. trivial.
Qed.

Lemma ew2_shape op (n m : nat) (a b c : arr2) :
  n <> 1%nat -> m <> 1%nat ->
  has_shape2 n m a -> ew2 op a b = Ok c -> has_shape2 n m c.
Proof.
  intros Hn1 Hm1 [Hn Hm] H.
  apply (@broadcast_r_shape _ _ _ _ (fun r => List.length r = m)
           (fun r => List.length r = m) a b c) in H.
  - destruct H as [Hl Hc].
    split; [transitivity (List.length a); [exact Hl | exact Hn] | exact Hc].
  - intros H1. apply Hn1. rewrite <- Hn. exact H1.
  - exact Hm.
  - intros x y z Hx Hz. apply ew1_length in Hz.
    + transitivity (List.length x); [exact Hz | exact Hx].
    + intros H1. apply Hm1. rewrite <- Hx. exact H1.
Qed.

Lemma ew3_shape op (n m k : nat) (a b c : arr3) :
  n <> 1%nat -> m <> 1%nat -> k <> 1%nat ->
  has_shape3 n m k a -> ew3 op a b = Ok c -> has_shape3 n m k c.
Proof.
  intros Hn1 Hm1 Hk1 [Hn Hm] H.
  apply (@broadcast_r_shape _ _ _ _ (has_shape2 m k) (has_shape2 m k)
           a b c) in H.
  - destruct H as [Hl Hc].
    split; [transitivity (List.length a); [exact Hl | exact Hn] | exact Hc].
  - intros H1. apply Hn1. rewrite <- Hn. exact H1.
  - exact Hm.
  - intros x y z Hx Hz. eapply ew2_shape; eassumption.
Qed.

Lemma div2_shape (n m : nat) (a : arr2) (d : npfloat) :
  has_shape2 n m a -> has_shape2 n m (div2 a d).
Proof.
  intros [Hn Hm]. unfold div2, div1. split; [now rewrite length_map|].
  apply Forall_map. eapply Forall_impl; [|exact Hm].
  intros r Hr. now rewrite length_map.
Qed.

Lemma div3_shape (n m k : nat) (a : arr3) (d : npfloat) :
  has_shape3 n m k a -> has_shape3 n m k (div3 a d).
Proof.
  intros [Hn Hm]. unfold div3. split; [now rewrite length_map|].
  apply Forall_map. eapply Forall_impl; [|exact Hm].
  intros r Hr. now apply div2_shape.
Qed.

Lemma zeros2_shape (n m : nat) : has_shape2 n m (zeros2 n m).
Proof.
  unfold zeros2, zeros1. split; [apply repeat_length|].
  apply Forall_forall. intros r Hr. apply repeat_spec in Hr. subst r.
  apply repeat_length.
Qed.

Lemma zeros3_shape (n m k : nat) : has_shape3 n m k (zeros3 n m k).
Proof.
  unfold zeros3. split; [apply repeat_length|].
  apply Forall_forall. intros r Hr. apply repeat_spec in Hr. subst r.
  apply zeros2_shape.
Qed.

End Shapes.

Section IndexedLoop.

Variable P : event -> bool.
Variable T : string -> bool.

(** A loop whose invariant mentions the elements already processed. *)
Lemma effects_for_each_indexed {A S} (body : S -> A -> M S)
  (I : list A -> S -> Prop) (l : list A) :
  (forall done x s, I done s ->
     effects P T (body s x) (I (done ++ [x])%list)) ->
  forall done s, I done s ->
    effects P T (for_each body l s) (I (done ++ l)%list).
Proof.
  intros Hb. induction l as [|x l IH]; intros done s Hs; cbn [for_each].
  - rewrite app_nil_r. now apply effects_ret.
  - eapply effects_bind; [apply (Hb done x s Hs)|].
    intros s' Hs'. specialize (IH (done ++ [x])%list s' Hs').
    now rewrite <- app_assoc in IH.
Qed.

End IndexedLoop.

Section AccumulateLoop.

Local Open Scope string_scope.
Local Open Scope py_scope.

Variable E : externals.

Lemma frame_count_total_snoc (done : list string) (f : string) (n : Z)
  (data : arr3) :
  frame_count_total E done = Some n -> Null E f = Ok data ->
  frame_count_total E (done ++ [f]) = Some (n + nbimg data)%Z.
Proof.
  revert n. induction done as [|g done IH]; intros n Hn Hf.
  - cbn in *. injection Hn as <-. rewrite Hf. f_equal. lia.
  - cbn [app frame_count_total] in *.
    destruct (Null E g) as [dg|]; [|discriminate].
    destruct (frame_count_total E done) as [m|]; [|discriminate].
    injection Hn as <-. rewrite (IH m eq_refl Hf). f_equal. lia.
Qed.

Lemma vstack_raises (a b : arr2) (e : exn) :
  vstack a b = Raise e -> is_NameError e = false.
Proof.
  unfold vstack. destruct a, b; try discriminate.
  destruct (_ =? _)%nat; [discriminate|]. now intros [= <-].
Qed.

(** The monitoring statement keeps one row per counted frame. *)
Lemma effects_monitor_average_rows (P : event -> bool)
  (T : string -> bool) (st : acc) (data : arr3) :
  (forall fmt args, P (EvPrint fmt args) = true) ->
  match avg_dark st with
  | None => nb_img st = 0%Z
  | Some a => Z.of_nat (List.length a) = nb_img st
  end ->
  effects P T (monitor_average st data)
    (fun avg => exists a, avg = Some a /\
       Z.of_nat (List.length a) = (nb_img st + nbimg data)%Z).
Proof.
  intros Hprint Hinv. unfold monitor_average.
  assert (List.length (reshape_col (mean_per_frame data))
          = List.length data) as Hcol
    by (unfold reshape_col, mean_per_frame; now rewrite !length_map).
  destruct (avg_dark st) as [a|]; cbn [read_local rbind].
  - destruct (vstack a _) as [v|e] eqn:Hv.
    + apply effects_ret. exists v. split; [reflexivity|].
      apply vstack_app in Hv. subst v.
      rewrite length_app, Hcol. unfold nbimg. lia.
    + rewrite (vstack_raises _ _ Hv). apply effects_raise.
  - cbn [is_NameError].
    eapply effects_bind; [apply effects_emit, Hprint | intros _ _].
    apply effects_ret. eexists. split; [reflexivity|].
    rewrite Hcol, Hinv. unfold nbimg. lia.
Qed.

(** One iteration keeps the invariant. *)
Lemma effects_accumulate_invariant (P : event -> bool)
  (T : string -> bool) (monitor : bool) (channel_pos : arr1)
  (sep : npfloat) (dark_list done : list string) (st : acc) (f : string) :
  (forall fmt args, P (EvPrint fmt args) = true) ->
  (forall g, P (EvLoad g) = true) ->
  accumulated E monitor done st ->
  effects P T (accumulate E monitor channel_pos sep dark_list st f)
    (accumulated E monitor (done ++ [f])).
Proof.
  intros Hprint Hload (Hsd & Hsdc & Hcount & Havg & Hsa).
  unfold accumulate.
  eapply effects_bind; [now apply effects_lift_any | intros i _].
  eapply effects_bind; [now apply effects_print | intros _ _].
  eapply effects_bind; [now apply effects_load | intros data Hdata].
  eapply effects_bind;
    [apply effects_lift with (Q := fun sd => has_shape2 344 96 sd);
     intros sd Hew;
     exact (@ew2_shape _ 344 96 _ _ _ ltac:(discriminate)
              ltac:(discriminate) Hsd Hew)
    | intros sd Hsd'].
  eapply effects_bind;
    [apply effects_lift with (Q := fun c => has_shape3 96 16 20 c);
     intros c Hew;
     exact (@ew3_shape _ 96 16 20 _ _ _ ltac:(discriminate)
              ltac:(discriminate) ltac:(discriminate) Hsdc Hew)
    | intros sdc Hsdc'].
  eapply effects_bind
    with (Q := fun avg => monitor = true ->
                 exists a, avg = Some a /\
                   Z.of_nat (List.length a) = (nb_img st + nbimg data)%Z).
  - destruct monitor.
    + eapply effects_weaken.
      * apply effects_monitor_average_rows; [exact Hprint|].
        specialize (Havg eq_refl). destruct (avg_dark st); [exact Havg|].
        subst done. cbn in Hcount. now injection Hcount.
      * intros avg H _. exact H.
    + apply effects_ret. discriminate.
  - intros avg Hrows. apply effects_ret.
    split; [exact Hsd'|]. split; [exact Hsdc'|]. cbn [nb_img avg_dark
      spatial_axis super_dark super_dark_channel].
    split; [now apply frame_count_total_snoc|]. split.
    + intros Hm. destruct (Hrows Hm) as [a [-> Ha]]. exact Ha.
    + intros _. eauto.
Qed.

Lemma accumulated_acc0 (monitor : bool) : accumulated E monitor [] acc0.
Proof.
  split; [apply zeros2_shape|]. split; [apply zeros3_shape|].
  split; [reflexivity|]. split; [reflexivity|]. intros H. now elim H.
Qed.

Lemma effects_accumulate_loop (P : event -> bool) (T : string -> bool)
  (monitor : bool) (channel_pos : arr1) (sep : npfloat)
  (dark_list l : list string) :
  (forall fmt args, P (EvPrint fmt args) = true) ->
  (forall g, P (EvLoad g) = true) ->
  effects P T
    (for_each (accumulate E monitor channel_pos sep dark_list) l acc0)
    (accumulated E monitor l).
Proof.
  intros Hprint Hload.
  change l with ([] ++ l)%list at 2.
  apply effects_for_each_indexed with (I := accumulated E monitor).
  - intros done x s Hs. now apply effects_accumulate_invariant.
  - apply accumulated_acc0.
Qed.

(** The shapes of what [average_dark_list] returns. *)
Lemma average_dark_list_shapes (dark_list : list string)
  (output_path : string) (save monitor : bool) (edge_min edge_max : Z)
  (w : world) (sd : arr2) (sdc : arr3)
  (r : option (arr2 * arr3 * arr2)) :
  fst (average_dark_list E dark_list output_path save monitor edge_min
                         edge_max w)
  = Ok (sd, sdc, r) ->
  has_shape2 344 96 sd /\ has_shape3 96 16 20 sdc.
Proof.
  assert (effects (fun _ => true) (fun _ => true)
            (average_dark_list E dark_list output_path save monitor
                               edge_min edge_max)
            (fun res => has_shape2 344 96 (fst (fst res)) /\
                        has_shape3 96 16 20 (snd (fst res)))) as Heff.
  { unfold average_dark_list.
    destruct (get_channel_positions E NB_TRACKS) as [channel_pos sep].
    eapply effects_bind;
      [now apply effects_accumulate_loop | intros st (Hsd & Hsdc & _)].
    eapply effects_bind
      with (Q := fun p => has_shape2 344 96 (fst p) /\
                          has_shape3 96 16 20 (snd p)).
    - unfold finalize. destruct (negb _).
      + eapply effects_bind with (Q := fun _ => True).
        * apply effects_when. intros _. unfold np_save.
          eapply effects_bind with (Q := fun _ => True);
            [|intros _ _].
          { eapply effects_bind;
              [apply effects_open_for_writing | intros _ _].
            eapply effects_bind; [now apply effects_emit | intros _ _].
            now apply effects_touch. }
          eapply effects_bind;
            [apply effects_open_for_writing | intros _ _].
          eapply effects_bind; [now apply effects_emit | intros _ _].
          now apply effects_touch.
        * intros _ _. apply effects_ret. cbn [fst snd].
          split; [now apply div2_shape | now apply div3_shape].
      + apply effects_ret. now split.
    - intros [sd' sdc'] [H1 H2]. cbn [fst snd] in H1, H2.
      destruct monitor; [|apply effects_ret; now split].
      eapply effects_bind; [now apply effects_lift_any | intros avg _].
      eapply effects_bind; [now apply effects_lift_any | intros sa _].
      eapply effects_bind with (Q := fun _ => True).
      + apply effects_check_dark; auto.
      + intros res _. apply effects_ret. now split. }
  intros Hrun. destruct (Heff w) as [_ Hq]. rewrite Hrun in Hq.
  exact Hq.
Qed.

End AccumulateLoop.

Section AccumulateProperties.

Local Open Scope string_scope.

(** X11: when the loop of [get_average_dark] over the files [l]
    completes, [nb_img] is the total number of frames of the exposures;
    with monitoring and at least one file, [avg_dark] is bound and has
    one row per frame; with at least one file [spatial_axis] is
    bound. *)
Theorem accumulate_loop_counts (E : externals) (monitor : bool)
  (channel_pos : arr1) (sep : npfloat) (dark_list l : list string)
  (w : world) (st : acc) :
  fst (for_each (accumulate E monitor channel_pos sep dark_list) l acc0 w)
  = Ok st ->
  frame_count_total E l = Some (nb_img st) /\
  (l <> [] -> monitor = true ->
   exists a, avg_dark st = Some a /\
             Z.of_nat (List.length a) = nb_img st) /\
  (l <> [] -> exists sa, spatial_axis st = Some sa).
Proof.
  intros Hrun.
  destruct (@effects_accumulate_loop E (fun _ => true) (fun _ => true)
              monitor channel_pos sep dark_list l
              (fun _ _ => eq_refl) (fun _ => eq_refl) w) as [_ Hq].
  rewrite Hrun in Hq. destruct Hq as (_ & _ & Hcount & Havg & Hsa).
  split; [exact Hcount|]. split; [|exact Hsa].
  intros Hne Hm. specialize (Havg Hm).
  destruct (avg_dark st) as [a|]; [eauto | contradiction].
Qed.

(** X12: whenever [get_average_dark] returns, the whole-frame average
    has 344 rows of 96 values and the average per channel has the shape
    96 x 16 x 20, whatever the exposures were: a sum over the frames
    that numpy broadcasts against the 344 x 96 (or 96 x 16 x 20) zeros
    takes their shape. *)
Theorem get_average_dark_shapes (E : externals) (w : world)
  (data_path output_path : string) (nb_files : option Z * option Z)
  (save monitor : bool) (edges : Z * Z) (keyword : string)
  (sd : arr2) (sdc : arr3) (r : option (arr2 * arr3 * arr2)) :
  fst (get_average_dark E data_path output_path nb_files save monitor
                        edges keyword w)
  = Ok (sd, sdc, r) ->
  has_shape2 344 96 sd /\ has_shape3 96 16 20 sdc.
Proof.
  intros Hrun.
  destruct (get_average_dark_returned _ _ _ _ _ _ _ _ _ Hrun)
    as (names & Hl & Hd).
  erewrite get_average_dark_run in Hrun by eassumption.
  now apply average_dark_list_shapes in Hrun.
Qed.

End AccumulateProperties.

(* ================================================================== *)
(** ** What get_average_dark saves *)
(* ================================================================== *)

Section Saved.

Local Open Scope string_scope.
Local Open Scope py_scope.

Lemma bind_inv {A B} (m : M A) (k : A -> M B) (w : world) (b : B) :
  fst (bind m k w) = Ok b ->
  exists a, fst (m w) = Ok a /\ fst (k a (snd (m w))) = Ok b.
Proof.
  unfold bind. destruct (m w) as [[a|e] w']; cbn [fst snd].
  - intros H. now exists a.
  - discriminate.
Qed.

Lemma quiet_no_np_save (evs : list event) :
  forallb quiet evs = true -> filter is_np_save evs = [].
Proof.
  induction evs as [|ev evs IH]; [reflexivity|]. cbn [forallb filter].
  intros H. apply andb_true_iff in H. destruct H as [Hq H].
  rewrite (IH H). now destruct ev.
Qed.

End Saved.

Section SavedProperties.

Local Open Scope string_scope.
Local Open Scope py_scope.

(** X13: when [get_average_dark] returns with [save] set and monitoring
    off, the arrays it saved are the arrays it returns: with a total
    frame count that is not zero it made exactly two [np.save], the
    returned whole-frame average under [superdark] and the returned
    average per channel under [superdarkchannel], in this order; with a
    total frame count of zero it made none. *)
Theorem saved_arrays_are_returned (E : externals) (w : world)
  (data_path output_path : string) (nb_files : option Z * option Z)
  (edges : Z * Z) (keyword : string) (names : list string)
  (sd : arr2) (sdc : arr3) (r : option (arr2 * arr3 * arr2)) :
  listing w data_path = Some names ->
  fst (get_average_dark E data_path output_path nb_files true false edges
                        keyword w)
  = Ok (sd, sdc, r) ->
  exists n,
    frame_count_total E (select_files data_path keyword nb_files names)
    = Some n /\
    filter is_np_save
      (new_events (get_average_dark E data_path output_path nb_files true
                                    false edges keyword) w)
    = if (n =? 0)%Z then []
      else [EvNpSave (output_path ++ "superdark") (Nd2 sd);
            EvNpSave (output_path ++ "superdarkchannel") (Nd3 sdc)].
Proof.
  intros Hl Hrun. unfold new_events.
  destruct (get_average_dark_returned _ _ _ _ _ _ _ _ _ Hrun)
    as (names' & Hl' & Hd).
  rewrite Hl in Hl'. injection Hl' as <-.
  revert Hrun. erewrite get_average_dark_run by eassumption.
  set (dark_list := select_files data_path keyword nb_files names).
  assert (exists mk, log (with_output_dir output_path w)
                     = (log w ++ mk)%list /\ filter is_np_save mk = [])
    as [mk [Hmk Hmkf]].
  { unfold with_output_dir. destruct (existsb _ _).
    - exists []. now rewrite app_nil_r.
    - destruct (snd (fs_makedirs w output_path)).
      + exists []. cbn [log]. now rewrite app_nil_r.
      + now exists [EvMakedirs output_path]. }
  set (w1 := with_output_dir output_path w) in *.
  unfold average_dark_list.
  destruct (get_channel_positions E NB_TRACKS) as [channel_pos sep].
  intros Hrun. apply bind_inv in Hrun. destruct Hrun as [st [Hloop Hrun]].
  destruct (@effects_accumulate_loop E quiet (fun _ => false) false
              channel_pos sep dark_list dark_list
              (fun _ _ => eq_refl) (fun _ => eq_refl) w1)
    as [(_ & (evs & Hlog & Hq) & _) Hinv].
  rewrite Hloop in Hinv. destruct Hinv as (_ & _ & Hcount & _).
  exists (nb_img st). split; [exact Hcount|].
  rewrite (bind_ok _ _ _ Hloop). cbv beta in Hrun.
  set (w2 := snd (for_each _ dark_list acc0 w1)) in *.
  unfold finalize in *.
  destruct (nb_img st =? 0)%Z eqn:Hz; cbn [negb] in *.
  - cbn [bind ret fst snd] in *. injection Hrun as <- <- <-.
    rewrite Hlog, Hmk, <- app_assoc, skipn_app, skipn_all, Nat.sub_diag.
    cbn [skipn app]. rewrite filter_app, Hmkf, quiet_no_np_save by exact Hq.
    reflexivity.
  - cbv beta iota zeta delta [bind when np_save open_for_writing emit touch
                              ret] in *.
    destruct (fs_open w2 _) as [e1|]; [discriminate Hrun|].
    cbn [fst snd log fs_open] in *.
    destruct (fs_open w2 _) as [e2|]; [discriminate Hrun|].
    cbn [fst snd log] in *.
    injection Hrun as <- <- <-.
    rewrite Hlog, Hmk, <- !app_assoc, skipn_app, skipn_all, Nat.sub_diag.
    cbn [skipn app]. rewrite !filter_app, Hmkf, quiet_no_np_save by exact Hq.
    reflexivity.
Qed.

End SavedProperties.

(* ================================================================== *)
(** ** The loop of check_dark *)
(* ================================================================== *)

Section DiagnoseLoop.

Local Open Scope string_scope.
Local Open Scope py_scope.

Variable E : externals.
Variable P : event -> bool.
Variable T : string -> bool.

Hypothesis Hprint : forall fmt args, P (EvPrint fmt args) = true.
Hypothesis Hload : forall f, P (EvLoad f) = true.

Lemma mapr_raises {A B} (f : A -> result B) (l : list A) (e : exn) :
  mapr f l = Raise e -> exists x, In x l /\ f x = Raise e.
Proof.
  induction l as [|x l IH]; cbn [mapr]; [discriminate|].
  destruct (f x) as [y|e'] eqn:Hf; cbn [rbind].
  - destruct (mapr f l) as [ys|e'']; cbn [rbind]; [discriminate|].
    intros H. injection H as ->. destruct (IH eq_refl) as [z [Hz Hfz]].
    exists z. split; [now right | exact Hfz].
  - intros H. injection H as ->. exists x. split; [now left | exact Hf].
Qed.

Lemma getitem_raises {A} (l : list A) (i : nat) (e : exn) :
  getitem l i = Raise e -> is_NameError e = false.
Proof.
  unfold getitem. destruct (nth_error l i); [discriminate|].
  now intros [= <-].
Qed.

Lemma at_56_15_raises (block : arr3) (e : exn) :
  at_56_15 block = Raise e -> is_NameError e = false.
Proof.
  unfold at_56_15. destruct (getitem block 56) as [row|e'] eqn:H;
    cbn [rbind].
  - apply getitem_raises.
  - intros [= <-]. now apply getitem_raises in H.
Qed.

Lemma new_dk56_raises (slices : arr4) (e : exn) :
  new_dk56 slices = Raise e -> is_NameError e = false.
Proof.
  unfold new_dk56. destruct (mapr at_56_15 slices) as [px|e'] eqn:H;
    cbn [rbind]; [discriminate|].
  intros [= <-]. apply mapr_raises in H. destruct H as [x [_ H]].
  now apply at_56_15_raises in H.
Qed.

Lemma new_dk56bis_raises (slices : arr4) (e : exn) :
  new_dk56bis slices = Raise e -> is_NameError e = false.
Proof.
  unfold new_dk56bis. destruct (mapr at_56_15_10 slices) as [px|e'] eqn:H;
    cbn [rbind]; [discriminate|].
  intros [= <-]. apply mapr_raises in H. destruct H as [x [_ H]].
  unfold at_56_15_10 in H. destruct (at_56_15 x) as [v|e''] eqn:Hv;
    cbn [rbind] in H.
  - now apply getitem_raises in H.
  - injection H as <-. now apply at_56_15_raises in Hv.
Qed.

Lemma new_dark_current_length (slices : arr4) :
  List.length (new_dark_current slices) = List.length slices.
Proof. unfold new_dark_current. apply length_map. Qed.

(** The first file: the handler binds the three series. *)
Lemma effects_time_series_first (st : diag) (slices : arr4) :
  dark_current st = None ->
  effects P T (time_series st slices)
    (fun r => List.length (fst (fst r)) = List.length slices /\
              List.length (snd (fst r)) = List.length slices /\
              exists row, snd r = [row]).
Proof.
  intros Hdc. unfold time_series, extend_series. rewrite Hdc.
  cbn [read_local rbind is_NameError]. unfold start_series.
  eapply effects_bind; [now apply effects_print | intros _ _].
  eapply effects_bind;
    [apply effects_lift with (Q := fun n56 => new_dk56 slices = Ok n56);
     trivial | intros n56 H56].
  eapply effects_bind;
    [apply effects_lift with (Q := fun nb => new_dk56bis slices = Ok nb);
     trivial | intros nbis Hbis].
  apply effects_ret. cbn [fst snd].
  split; [apply new_dark_current_length|].
  split; [now apply new_dk56_length|].
  apply new_dk56bis_length in Hbis.
  destruct nbis as [|row [|? ?]]; try discriminate. now exists row.
Qed.

(** The next files: the series are extended, [dk56bis] from [dk56]. *)
Lemma effects_time_series_next (st : diag) (slices : arr4) (dc d : arr2) :
  dark_current st = Some dc -> dk56 st = Some d ->
  effects P T (time_series st slices)
    (fun r =>
       List.length (fst (fst r))
       = (List.length dc + List.length slices)%nat /\
       List.length (snd (fst r))
       = (List.length d + List.length slices)%nat /\
       exists row, snd r = (snd (fst r) ++ [row])%list).
Proof.
  intros Hdc Hd. unfold time_series.
  destruct (extend_series st slices) as [[[dc' d'] b']|e] eqn:Hext.
  - apply effects_ret. cbn [fst snd].
    pose proof (extend_series_dk56bis _ _ Hext) as Hb.
    unfold extend_series in Hext. rewrite Hdc, Hd in Hext.
    cbn [read_local rbind] in Hext.
    destruct (vstack dc _) as [dc1|] eqn:Hv1; [|discriminate].
    cbn [rbind] in Hext.
    destruct (new_dk56 slices) as [n56|] eqn:H56; [|discriminate].
    cbn [rbind] in Hext.
    destruct (vstack d n56) as [d1|] eqn:Hv2; [|discriminate].
    cbn [rbind] in Hext.
    destruct (new_dk56bis slices) as [nbis|]; [|discriminate].
    cbn [rbind] in Hext.
    destruct (vstack d1 nbis) as [b1|]; [|discriminate].
    cbn [rbind] in Hext. injection Hext as <- <- <-.
    apply vstack_app in Hv1, Hv2. subst dc1 d1.
    rewrite !length_app, new_dark_current_length.
    rewrite (new_dk56_length _ H56). repeat split; exact Hb.
  - assert (is_NameError e = false) as ->; [|apply effects_raise].
    unfold extend_series in Hext. rewrite Hdc, Hd in Hext.
    cbn [read_local rbind] in Hext.
    destruct (vstack dc _) as [dc1|e1] eqn:Hv1; cbn [rbind] in Hext;
      [|injection Hext as <-; now apply vstack_raises in Hv1].
    destruct (new_dk56 slices) as [n56|e2] eqn:H56; cbn [rbind] in Hext;
      [|injection Hext as <-; now apply new_dk56_raises in H56].
    destruct (vstack d n56) as [d1|e3] eqn:Hv2; cbn [rbind] in Hext;
      [|injection Hext as <-; now apply vstack_raises in Hv2].
    destruct (new_dk56bis slices) as [nbis|e4] eqn:Hbis;
      cbn [rbind] in Hext;
      [|injection Hext as <-; now apply new_dk56bis_raises in Hbis].
    destruct (vstack d1 nbis) as [b1|e5] eqn:Hv3; cbn [rbind] in Hext;
      [discriminate|injection Hext as <-; now apply vstack_raises in Hv3].
Qed.

(** One iteration keeps the invariant. *)
Lemma effects_diagnose_invariant (dark_list done : list string)
  (channel_pos : arr1) (sep : npfloat) (bin_hist : arr1) (sdc : arr3)
  (st : diag) (f : string) :
  diagnosed E done st ->
  effects P T (diagnose E dark_list channel_pos sep bin_hist sdc st f)
    (diagnosed E (done ++ [f])).
Proof.
  intros (Hhs & H16 & Hlh & n & Hn & Hseries). unfold diagnose.
  eapply effects_bind; [now apply effects_lift_any | intros i _].
  eapply effects_bind; [now apply effects_print | intros _ _].
  eapply effects_bind; [now apply effects_load | intros data Hdata].
  eapply effects_bind; [now apply effects_lift_any | intros hist _].
  eapply effects_bind;
    [apply effects_lift
       with (Q := fun s => List.length s = List.length data)
    | intros slices Hslices].
  { intros s Hs. apply mapr_length in Hs. rewrite Hs.
    unfold getChannels. apply length_map. }
  pose proof (frame_count_total_snoc E done f Hn Hdata) as Hn'.
  destruct done as [|g rest].
  - destruct Hseries as (Hdc & Hd & Hb).
    eapply effects_bind;
      [now apply effects_time_series_first
      | intros [[dc d56] dbis] (H1 & H2 & row & H3)].
    cbn [fst snd] in H1, H2, H3. subst dbis.
    eapply effects_bind;
      [apply effects_lift
         with (Q := fun h => List.length h = 16%nat)
      | intros hpf Hhpf].
    { intros h Hh. apply mapr_length in Hh. now rewrite Hh. }
    apply effects_ret. unfold diagnosed.
    cbn [hist_slices list_hist dark_current dk56 dk56bis app].
    rewrite !length_app, Hhs, Hlh. cbn [List.length].
    split; [reflexivity|]. split.
    { apply Forall_app. split; [exact H16 | now constructor]. }
    split; [reflexivity|]. eexists. split; [exact Hn'|].
    exists dc, d56, row. repeat split.
    + cbn in Hn. injection Hn as <-. rewrite H1, Hslices.
      unfold nbimg. lia.
    + cbn in Hn. injection Hn as <-. rewrite H2, Hslices.
      unfold nbimg. lia.
  - destruct Hseries as (dc0 & d0 & row0 & Hdc & Hd & Hb & Hl1 & Hl2).
    eapply effects_bind;
      [now apply (effects_time_series_next st slices Hdc Hd)
      | intros [[dc d56] dbis] (H1 & H2 & row & H3)].
    cbn [fst snd] in H1, H2, H3. subst dbis.
    eapply effects_bind;
      [apply effects_lift
         with (Q := fun h => List.length h = 16%nat)
      | intros hpf Hhpf].
    { intros h Hh. apply mapr_length in Hh. now rewrite Hh. }
    apply effects_ret. unfold diagnosed.
    cbn [hist_slices list_hist dark_current dk56 dk56bis].
    rewrite !length_app, Hhs, Hlh. cbn [List.length].
    split; [reflexivity|]. split.
    { apply Forall_app. split; [exact H16 | now constructor]. }
    split; [reflexivity|]. eexists. split; [exact Hn'|].
    change ((g :: rest) ++ [f])%list with (g :: (rest ++ [f]))%list.
    exists dc, d56, row. split; [reflexivity|]. split; [reflexivity|].
    split.
    + destruct rest; reflexivity.
    + rewrite H1, H2, Hslices. unfold nbimg. lia.
Qed.

Lemma diagnosed_diag0 : diagnosed E [] diag0.
Proof.
  split; [reflexivity|]. split; [constructor|]. split; [reflexivity|].
  exists 0%Z. now repeat split.
Qed.

Lemma effects_diagnose_loop (dark_list l : list string)
  (channel_pos : arr1) (sep : npfloat) (bin_hist : arr1) (sdc : arr3) :
  effects P T
    (for_each (diagnose E dark_list channel_pos sep bin_hist sdc) l diag0)
    (diagnosed E l).
Proof.
  change l with ([] ++ l)%list at 2.
  apply effects_for_each_indexed with (I := diagnosed E).
  - intros done x s Hs. now apply effects_diagnose_invariant.
  - apply diagnosed_diag0.
Qed.

Lemma zip_with_length {A B C} (f : A -> B -> C) (a : list A) (b : list B) :
  List.length a = List.length b ->
  List.length (zip_with f a b) = List.length a.
Proof.
  revert b. induction a as [|x a IH]; intros [|y b] H; try discriminate;
    [reflexivity|].
  cbn [zip_with List.length]. f_equal. apply IH. now injection H.
Qed.

(** The sum over the files of tables of 16 rows has 16 rows. *)
Lemma sum_files_length (hs : list (list (list Z))) :
  hs <> [] -> Forall (fun h => List.length h = 16%nat) hs ->
  List.length (sum_files hs) = 16%nat.
Proof.
  unfold sum_files, sum_axis0. destruct hs as [|h hs]; [easy|].
  intros _ Hall. inversion Hall as [|? ? Hh Hhs]; subst. clear Hall.
  revert h Hh. induction hs as [|h' hs IH]; intros h Hh; [exact Hh|].
  inversion Hhs; subst. cbn [fold_left]. apply IH; [assumption|].
  rewrite zip_with_length; congruence.
Qed.

End DiagnoseLoop.

Section DiagnoseProperties.

Local Open Scope string_scope.
Local Open Scope py_scope.

(** X14: when the loop of [check_dark] over the files [l] completes, it
    holds one table of 16 histograms per file; [dark_current] and [dk56]
    hold one row per frame of the exposures; [dk56bis] holds a single
    row after one file and, after two or more, the rows of [dk56]
    followed by a single row. *)
Theorem diagnose_loop_series (E : externals) (dark_list l : list string)
  (channel_pos : arr1) (sep : npfloat) (bin_hist : arr1) (sdc : arr3)
  (w : world) (st : diag) :
  fst (for_each (diagnose E dark_list channel_pos sep bin_hist sdc) l
                diag0 w) = Ok st ->
  List.length (hist_slices st) = List.length l /\
  Forall (fun h => List.length h = 16%nat) (hist_slices st) /\
  exists n,
    frame_count_total E l = Some n /\
    (l <> [] ->
     exists dc d row,
       dark_current st = Some dc /\ dk56 st = Some d /\
       Z.of_nat (List.length dc) = n /\ Z.of_nat (List.length d) = n /\
       dk56bis st = Some (if (List.length l =? 1)%nat then [row]
                          else (d ++ [row])%list)).
Proof.
  intros Hrun.
  destruct (@effects_diagnose_loop E (fun _ => true) (fun _ => true)
              (fun _ _ => eq_refl) (fun _ => eq_refl)
              dark_list l channel_pos sep bin_hist sdc w) as [_ Hq].
  rewrite Hrun in Hq. destruct Hq as (Hhs & H16 & _ & n & Hn & Hser).
  split; [exact Hhs|]. split; [exact H16|]. exists n. split; [exact Hn|].
  intros Hne. destruct l as [|g rest]; [contradiction|].
  destruct Hser as (dc & d & row & Hdc & Hd & Hb & H1 & H2).
  exists dc, d, row. repeat split; try assumption.
  rewrite Hb. now destruct rest.
Qed.

(** X15: whenever [check_dark] returns, it returns the fitted
    parameters of 16 channels, the histograms of 16 channels and the
    global histogram paired with its left edges; the list of exposures
    was not empty. *)
Theorem check_dark_result_shape (E : externals) (dark_list : list string)
  (avg : arr2) (channel_pos : arr1) (sep : npfloat)
  (spatial_axis : list Z) (edge_min edge_max : Z) (sdc : arr3)
  (save : bool) (output_path : string) (w : world)
  (params : arr2) (hist_channels : arr3) (hist_global : arr2) :
  fst (check_dark E dark_list avg channel_pos sep spatial_axis edge_min
                  edge_max sdc save output_path w)
  = Ok (params, hist_channels, hist_global) ->
  List.length params = 16%nat /\
  List.length hist_channels = 16%nat /\
  List.length hist_global = 2%nat /\
  dark_list <> [].
Proof.
  assert (effects (fun _ => true) (fun _ => true)
            (check_dark E dark_list avg channel_pos sep spatial_axis
                        edge_min edge_max sdc save output_path)
            (fun r => List.length (fst (fst r)) = 16%nat /\
                      List.length (snd (fst r)) = 16%nat /\
                      List.length (snd r) = 2%nat /\
                      dark_list <> [])) as Heff.
  { unfold check_dark.
    eapply effects_bind;
      [now apply effects_lift_any | intros [bin_hist step] _].
    eapply effects_bind;
      [now apply effects_diagnose_loop
      | intros st (Hhs & H16 & _)].
    eapply effects_bind;
      [apply effects_lift
         with (Q := fun sh => List.length sh = 16%nat /\ dark_list <> [])
      | intros super_hist [Hsh Hne]].
    { intros sh Hsh. unfold super_hist_of in Hsh.
      destruct (hist_slices st) as [|h hs] eqn:Hst; [discriminate|].
      injection Hsh as <-. split.
      - unfold normalize_rows. rewrite length_map.
        exact (@sum_files_length (h :: hs) ltac:(discriminate) H16).
      - intros ->. discriminate. }
    eapply effects_bind;
      [apply effects_lift with (Q := fun p => List.length p = 16%nat)
      | intros params0 Hp].
    { intros p Hp. apply mapr_length in Hp. now rewrite Hp. }
    eapply effects_bind with (Q := fun _ => True).
    { apply effects_when. intros _.
      eapply effects_bind;
        [apply effects_save_histo_dark with (save := true); auto
        | intros _ _].
      eapply effects_bind;
        [apply effects_save_histo_dark with (save := true); auto
        | intros _ _].
      apply effects_save_histo_dark with (save := true); auto. }
    intros _ _.
    eapply effects_bind; [now apply effects_lift_any | intros _ _].
    eapply effects_bind;
      [apply effects_when_savefig; auto | intros _ _].
    eapply effects_bind;
      [apply effects_when_savefig; auto | intros _ _].
    eapply effects_bind;
      [apply effects_when_savefig; auto | intros _ _].
    eapply effects_bind; [now apply effects_lift_any | intros d56 _].
    eapply effects_bind; [now apply effects_lift_any | intros _ _].
    eapply effects_bind; [now apply effects_lift_any | intros dbis _].
    eapply effects_bind; [now apply effects_lift_any | intros _ _].
    eapply effects_bind; [now apply effects_lift_any | intros dc _].
    eapply effects_bind with (Q := fun _ => True).
    { apply effects_for_each with (I := fun _ => True); [|exact I].
      intros [] i _ _.
      eapply effects_bind; [now apply effects_drift_channel | intros _ _].
      now apply effects_ret. }
    intros _ _.
    eapply effects_bind;
      [apply effects_when_savefig; auto | intros _ _].
    eapply effects_bind; [now apply effects_lift_any | intros _ _].
    eapply effects_bind;
      [apply effects_when_savefig; auto | intros _ _].
    apply effects_ret. cbn [fst snd].
    split; [exact Hp|]. split; [now rewrite length_map|]. now split. }
  intros Hrun. destruct (Heff w) as [_ Hq]. rewrite Hrun in Hq. exact Hq.
Qed.

End DiagnoseProperties.

(* ================================================================== *)
(** ** The normalization of the histograms in check_dark *)
(* ================================================================== *)

Section HistogramTables.

Local Open Scope string_scope.
Local Open Scope py_scope.

Lemma set_last_in {A} (l : list A) (v x : A) :
  In x (set_last l v) -> In x l \/ x = v.
Proof.
  unfold set_last. destruct l as [|a l]; [intros []|].
  intros H. apply in_app_or in H. destruct H as [H|[H|[]]].
  - left. revert H. generalize (a :: l). clear. intros l.
    induction l as [|b [|c l] IH]; cbn [removelast]; [intros [] | intros [] |].
    intros [H|H]; [now left | right; now apply IH].
  - now right.
Qed.

Lemma fdiv_fin_nonzero (a : Q) (d : Z) :
  d <> 0%Z -> is_finite (fdiv (Fin a) (of_Z d)) = true.
Proof.
  intros Hd. unfold fdiv, of_Z. now rewrite Qeq_bool_inject_Z_0.
Qed.

Lemma finite_fadd (x y : npfloat) :
  is_finite x = true -> is_finite y = true -> is_finite (fadd x y) = true.
Proof. now destruct x, y. Qed.

Lemma finite_fmul (x y : npfloat) :
  is_finite x = true -> is_finite y = true -> is_finite (fmul x y) = true.
Proof. now destruct x, y. Qed.

(** The points of [np.linspace] between finite ends are finite. *)
Lemma linspace_finite (s e : Q) (num : Z) (y : arr1) (step : npfloat) :
  linspace (Fin s) (Fin e) num = Ok (y, step) ->
  forallb is_finite y = true.
Proof.
  unfold linspace. destruct (num <? 0)%Z; [discriminate|].
  set (idx := map of_nat (seq 0 (Z.to_nat num))).
  assert (forall i, In i idx -> is_finite i = true) as Hidx.
  { intros i Hi. apply in_map_iff in Hi. now destruct Hi as [n [<- _]]. }
  assert (forall (g : npfloat -> npfloat) (l : arr1) (st : npfloat),
            (forall i, In i idx -> is_finite (g i) = true) ->
            Ok (if (1 <? num)%Z
                then set_last (map (fun v => fadd v (Fin s)) (map g idx))
                              (Fin e)
                else map (fun v => fadd v (Fin s)) (map g idx), st)
            = Ok (y, step) ->
            forallb is_finite y = true) as Hgen.
  { intros g l st Hg H. injection H as <- _. apply forallb_forall.
    intros x Hx.
    assert (In x (map (fun v => fadd v (Fin s)) (map g idx)) \/ x = Fin e)
      as [Hin | ->].
    { destruct (1 <? num)%Z; [now apply set_last_in | now left]. }
    - apply in_map_iff in Hin. destruct Hin as [v [<- Hv]].
      apply in_map_iff in Hv. destruct Hv as [i [<- Hi]].
      apply finite_fadd; [now apply Hg | reflexivity].
    - reflexivity. }
  destruct (Z.ltb_spec 0 (num - 1)) as [Hdiv|Hdiv].
  - assert (num - 1 <> 0)%Z as Hne by lia.
    destruct (feqb _ _).
    + apply (Hgen _ []). intros i Hi. apply finite_fmul; [|reflexivity].
      specialize (Hidx i Hi). destruct i; try discriminate.
      now apply fdiv_fin_nonzero.
    + apply (Hgen _ []). intros i Hi. apply finite_fmul; [now apply Hidx|].
      now apply fdiv_fin_nonzero.
  - apply (Hgen _ []). intros i Hi.
    apply finite_fmul; [now apply Hidx | reflexivity].
Qed.

Lemma histogram_edges_finite (edge_min edge_max : Z) (bin_hist : arr1)
  (step : npfloat) :
  histogram_edges edge_min edge_max = Ok (bin_hist, step) ->
  forallb is_finite bin_hist = true.
Proof. unfold histogram_edges. apply linspace_finite. Qed.

(** What [get_histogram] returns over finite edges. *)
Lemma get_histogram_row (data bins : arr1) (h : list Z) :
  forallb is_finite bins = true ->
  get_histogram data bins = Ok h ->
  List.length h = (List.length bins - 1)%nat /\
  Forall (fun c => (0 <= c)%Z) h.
Proof.
  intros Hfin H. apply np_histogram_ok in H. destruct H as [-> Hinc].
  split; [now rewrite diff_length, cum_counts_length|].
  now apply cum_counts_sorted.
Qed.

Lemma zip_add_row (n : nat) (a b : list Z) :
  (List.length a = n /\ Forall (fun c => (0 <= c)%Z) a) ->
  (List.length b = n /\ Forall (fun c => (0 <= c)%Z) b) ->
  List.length (zip_with Z.add a b) = n /\
  Forall (fun c => (0 <= c)%Z) (zip_with Z.add a b).
Proof.
  intros [Ha Hpa] [Hb Hpb]. split.
  - rewrite zip_with_length; congruence.
  - clear Ha Hb. revert b Hpb.
    induction Hpa as [|x a Hx _ IH]; intros b Hpb; [constructor|].
    destruct Hpb as [|y b Hy Hpb]; [constructor|].
    cbn [zip_with]. constructor; [lia | now apply IH].
Qed.

Lemma zip_add_table (n : nat) (a b : list (list Z)) :
  histogram_table n a -> histogram_table n b ->
  histogram_table n (zip_with (zip_with Z.add) a b).
Proof.
  intros [Ha Hra] [Hb Hrb]. split.
  - rewrite zip_with_length; congruence.
  - clear Ha Hb. revert b Hrb.
    induction Hra as [|x a Hx _ IH]; intros b Hrb; [constructor|].
    destruct Hrb as [|y b Hy Hrb]; [constructor|].
    cbn [zip_with]. constructor; [now apply zip_add_row | now apply IH].
Qed.

(** The histograms summed over the files. *)
Lemma sum_files_table (n : nat) (hs : list (list (list Z))) :
  hs <> [] -> Forall (histogram_table n) hs ->
  histogram_table n (sum_files hs).
Proof.
  unfold sum_files, sum_axis0. destruct hs as [|h hs]; [easy|].
  intros _ Hall. apply Forall_cons_iff in Hall. destruct Hall as [Hh Hhs].
  revert h Hh. induction Hhs as [|h' hs Hh' _ IH]; intros h Hh; [exact Hh|].
  cbn [fold_left]. apply IH. now apply zip_add_table.
Qed.

Variable E : externals.
Variable P : event -> bool.
Variable T : string -> bool.

Hypothesis Hprint : forall fmt args, P (EvPrint fmt args) = true.
Hypothesis Hload : forall f, P (EvLoad f) = true.

(** One iteration of the loop of [check_dark] appends a table of
    histograms over the edges. *)
Lemma effects_diagnose_tables (dark_list : list string)
  (channel_pos : arr1) (sep : npfloat) (bin_hist : arr1) (sdc : arr3)
  (st : diag) (f : string) :
  forallb is_finite bin_hist = true ->
  Forall (histogram_table (List.length bin_hist - 1)) (hist_slices st) ->
  effects P T (diagnose E dark_list channel_pos sep bin_hist sdc st f)
    (fun st' => Forall (histogram_table (List.length bin_hist - 1))
                       (hist_slices st')).
Proof.
  intros Hfin Hinv. unfold diagnose.
  eapply effects_bind; [now apply effects_lift_any | intros i _].
  eapply effects_bind; [now apply effects_print | intros _ _].
  eapply effects_bind; [now apply effects_load | intros data _].
  eapply effects_bind; [now apply effects_lift_any | intros hist _].
  eapply effects_bind; [now apply effects_lift_any | intros slices _].
  eapply effects_bind;
    [now apply effects_time_series | intros [[dc d56] dbis] _].
  eapply effects_bind
    with (Q := histogram_table (List.length bin_hist - 1)).
  - apply effects_lift. intros t Ht. split.
    + apply mapr_length in Ht. now rewrite Ht, length_seq.
    + apply mapr_Forall2 in Ht. clear Hinv.
      induction Ht as [|k h ks t Hk _ IH]; [constructor|].
      constructor; [|exact IH].
      destruct (channel k slices) as [c|]; [|discriminate Hk].
      cbn [rbind] in Hk. now apply (get_histogram_row (ravel3 c)).
  - intros t Ht. apply effects_ret. cbn [hist_slices].
    apply Forall_app. split; [exact Hinv | now constructor].
Qed.

Lemma effects_diagnose_loop_tables (dark_list l : list string)
  (channel_pos : arr1) (sep : npfloat) (bin_hist : arr1) (sdc : arr3) :
  forallb is_finite bin_hist = true ->
  effects P T
    (for_each (diagnose E dark_list channel_pos sep bin_hist sdc) l diag0)
    (fun st => Forall (histogram_table (List.length bin_hist - 1))
                      (hist_slices st)).
Proof.
  intros Hfin. apply effects_for_each; [|constructor].
  intros s x _ Hs. now apply effects_diagnose_tables.
Qed.

End HistogramTables.

Section CheckDarkRows.

Local Open Scope string_scope.
Local Open Scope py_scope.

Variable E : externals.

Lemma length_removelast {A} (l : list A) :
  List.length (removelast l) = (List.length l - 1)%nat.
Proof.
  induction l as [|a [|b l] IH]; [reflexivity | reflexivity |].
  change (removelast (a :: b :: l)) with (a :: removelast (b :: l)).
  cbn [List.length] in *. rewrite IH. lia.
Qed.

(** The first column of the rows paired with the edges. *)
Lemma first_column (row edges : arr1) :
  (List.length row <= List.length edges)%nat ->
  map (fun pair => hd NaN pair) (zip_with (fun h e => [h; e]) row edges)
  = row.
Proof.
  revert edges. induction row as [|x row IH]; intros [|e edges] H;
    cbn [List.length] in H; try lia; [reflexivity | reflexivity |].
  cbn [zip_with map hd]. f_equal. apply IH. lia.
Qed.

Lemma mapr_seq_nth {B} (f : nat -> result B) (s n : nat) (r : list B)
  (k : nat) (d : B) :
  mapr f (seq s n) = Ok r -> (k < n)%nat -> f (s + k)%nat = Ok (nth k r d).
Proof.
  revert s r k. induction n as [|n IH]; intros s r k H Hk; [lia|].
  cbn [seq mapr] in H.
  destruct (f s) as [y|] eqn:Hf; [|discriminate]. cbn [rbind] in H.
  destruct (mapr f (seq (S s) n)) as [ys|] eqn:Hr; [|discriminate].
  cbn [rbind] in H. injection H as <-. destruct k as [|k].
  - now rewrite Nat.add_0_r.
  - cbn [nth]. rewrite <- Nat.add_succ_comm. apply IH; [exact Hr | lia].
Qed.

Lemma getitem_nth {A} (l : list A) (k : nat) (x d : A) :
  getitem l k = Ok x -> x = nth k l d.
Proof.
  unfold getitem. destruct (nth_error l k) as [a|] eqn:Hn; [|discriminate].
  intros H. injection H as <-. symmetry. now apply nth_error_nth.
Qed.

Lemma nth_map_nil {A B} (f : list A -> list B) (l : list (list A))
  (k : nat) :
  f [] = [] -> nth k (map f l) [] = f (nth k l []).
Proof.
  intros H. transitivity (nth k (map f l) (f [])); [now rewrite H|].
  apply map_nth.
Qed.

(** What a run of [check_dark] that returns has computed. *)
Lemma check_dark_returned (dark_list : list string) (avg : arr2)
  (channel_pos : arr1) (sep : npfloat) (spatial_axis : list Z)
  (edge_min edge_max : Z) (sdc : arr3) (save : bool)
  (output_path : string) (w : world)
  (params : arr2) (hist_channels : arr3) (hist_global : arr2) :
  fst (check_dark E dark_list avg channel_pos sep spatial_axis edge_min
                  edge_max sdc save output_path w)
  = Ok (params, hist_channels, hist_global) ->
  exists bin_hist step st super_hist,
    histogram_edges edge_min edge_max = Ok (bin_hist, step) /\
    fst (for_each (diagnose E dark_list channel_pos sep bin_hist sdc)
                  dark_list diag0 w) = Ok st /\
    super_hist_of (hist_slices st) = Ok super_hist /\
    mapr (fun i =>
            rbind (getitem super_hist i)
                  (fit_histogram E
                     (map (fun e => fadd e (fdiv step (Fin 2)))
                          (removelast bin_hist))))
         (seq 0 16) = Ok params /\
    hist_channels
    = map (fun row => zip_with (fun h e => [h; e]) row
                               (removelast bin_hist)) super_hist.
Proof.
  intros H. unfold check_dark in H.
  apply bind_inv in H. destruct H as [[bin_hist step] [H1 H]].
  cbn [lift fst snd] in H1, H.
  apply bind_inv in H. destruct H as [st [H2 H]].
  apply bind_inv in H. destruct H as [super_hist [H3 H]].
  cbn [lift fst snd] in H3.
  apply bind_inv in H. destruct H as [params' [H4 H]].
  cbn [lift fst snd] in H4.
  repeat (apply bind_inv in H; destruct H as [? [_ H]]).
  cbn [ret fst] in H. injection H as <- <- <-.
  exists bin_hist, step, st, super_hist. repeat split; assumption.
Qed.

(** The rows that a run of [check_dark] that returns has normalized and
    fitted. *)
Lemma check_dark_rows (dark_list : list string) (avg : arr2)
  (channel_pos : arr1) (sep : npfloat) (spatial_axis : list Z)
  (edge_min edge_max : Z) (sdc : arr3) (save : bool)
  (output_path : string) (w : world)
  (params : arr2) (hist_channels : arr3) (hist_global : arr2) :
  fst (check_dark E dark_list avg channel_pos sep spatial_axis edge_min
                  edge_max sdc save output_path w)
  = Ok (params, hist_channels, hist_global) ->
  exists st,
    check_dark_loop E dark_list channel_pos sep edge_min edge_max sdc w
    = Ok st /\
    forall k, (k < 16)%nat ->
      Forall (fun c => (0 <= c)%Z) (channel_counts st k) /\
      saved_histogram hist_channels k = normalize (channel_counts st k) /\
      fit_histogram E (bin_centres edge_min edge_max)
                    (normalize (channel_counts st k))
      = Ok (nth k params []).
Proof.
  intros H. apply check_dark_returned in H.
  destruct H as (bin_hist & step & st & super_hist & He & Hloop & Hs & Hp
                 & ->).
  exists st. split.
  { unfold check_dark_loop. rewrite He. exact Hloop. }
  intros k Hk.
  pose proof (histogram_edges_finite _ _ He) as Hfin.
  destruct (@effects_diagnose_loop_tables E (fun _ => true) (fun _ => true)
              (fun _ _ => eq_refl) (fun _ => eq_refl)
              dark_list dark_list channel_pos sep bin_hist sdc Hfin w)
    as [_ Htab].
  rewrite Hloop in Htab.
  unfold super_hist_of in Hs.
  destruct (hist_slices st) as [|t ts] eqn:Hhs; [discriminate Hs|].
  injection Hs as <-.
  change (fold_left (zip_with (zip_with Z.add)) ts t)
    with (sum_files (t :: ts)) in *.
  assert (histogram_table (List.length bin_hist - 1)
            (sum_files (t :: ts))) as [H16 Hrows]
    by (apply sum_files_table; [discriminate | exact Htab]).
  assert (channel_counts st k = nth k (sum_files (t :: ts)) []) as Hcc
    by (unfold channel_counts; now rewrite Hhs).
  assert (List.length (channel_counts st k) = (List.length bin_hist - 1)%nat
          /\ Forall (fun c => (0 <= c)%Z) (channel_counts st k))
    as [Hlen Hpos].
  { rewrite Hcc. apply (proj1 (Forall_forall _ _) Hrows).
    apply nth_In. now rewrite H16. }
  assert (nth k (normalize_rows (sum_files (t :: ts))) []
          = normalize (channel_counts st k)) as Hrow.
  { rewrite Hcc. unfold normalize_rows. now apply nth_map_nil. }
  split; [exact Hpos|]. split.
  - unfold saved_histogram.
    rewrite (@nth_map_nil _ _
               (fun row => zip_with (fun h e => [h; e]) row
                                    (removelast bin_hist)))
      by reflexivity.
    unfold arr3, arr2, arr1 in *. rewrite Hrow. apply first_column.
    unfold normalize. rewrite length_map, length_removelast, Hlen. lia.
  - pose proof (@mapr_seq_nth _ _ 0 16 params k [] Hp Hk) as Hk'.
    cbn [Nat.add] in Hk'.
    destruct (getitem _ k) as [row|] eqn:Hg; [|discriminate Hk'].
    cbn [rbind] in Hk'. apply (@getitem_nth _ _ k row []) in Hg.
    unfold arr3, arr2, arr1 in *. rewrite Hrow in Hg. subst row.
    unfold bin_centres. rewrite He. exact Hk'.
Qed.

End CheckDarkRows.

Section NormalizationProperties.

Local Open Scope string_scope.

Lemma returned_ok {A} (d : A) (r : result A) :
  Runs.is_ok r = true -> r = Ok (Runs.returned d r).
Proof. destruct r; [reflexivity | discriminate]. Qed.

Lemma returned_triple {A B C} (d : A * B * C) (r : result (A * B * C)) :
  Runs.is_ok r = true ->
  r = Ok (fst (fst (Runs.returned d r)), snd (fst (Runs.returned d r)),
          snd (Runs.returned d r)).
Proof. destruct r as [[[a b] c]|e]; [reflexivity | discriminate]. Qed.


Lemma flat_check_returns :
  Runs.flat_check
  = Ok (Runs.flat_params, Runs.flat_hist_channels, Runs.flat_hist_global).
Proof.
  assert (Runs.is_ok Runs.flat_check = true) as Hok
    by (vm_compute; reflexivity).
  exact (returned_triple Runs.no_check Runs.flat_check Hok).
Qed.


(** C6 (amended): the normalization of the histograms per channel in
    [check_dark] is not guarded.  When the loop over the files has
    completed and the summed histogram of a channel has a total of
    zero, its row is divided by that zero: a run that returns returns
    the row of [nan] for this channel and has fitted that row as it
    is, so that its parameters are what the fit made of it; and with a
    fit that refuses data that is not finite, as [curve_fit] does, the
    run raises. *)
Theorem zero_total_row_divided_unguarded (E : externals)
  (dark_list : list string) (avg : arr2) (channel_pos : arr1)
  (sep : npfloat) (spatial_axis : list Z) (edge_min edge_max : Z)
  (sdc : arr3) (save : bool) (output_path : string) (w : world)
  (st : diag) (k : nat) :
  check_dark_loop E dark_list channel_pos sep edge_min edge_max sdc w
  = Ok st ->
  (k < 16)%nat ->
  sumZ (channel_counts st k) = 0%Z ->
  (forall params hist_channels hist_global,
     fst (check_dark E dark_list avg channel_pos sep spatial_axis
                     edge_min edge_max sdc save output_path w)
     = Ok (params, hist_channels, hist_global) ->
     saved_histogram hist_channels k
     = repeat NaN (List.length (channel_counts st k)) /\
     fit_histogram E (bin_centres edge_min edge_max)
                   (repeat NaN (List.length (channel_counts st k)))
     = Ok (nth k params [])) /\
  ((forall xdata ydata p0,
      forallb is_finite ydata = false ->
      exists e, curve_fit E xdata ydata p0 = Raise e) ->
   exists e,
     fst (check_dark E dark_list avg channel_pos sep spatial_axis
                     edge_min edge_max sdc save output_path w)
     = Raise e).
Proof.
  intros Hloop Hk Hz.
  assert (forall params hist_channels hist_global,
            fst (check_dark E dark_list avg channel_pos sep spatial_axis
                            edge_min edge_max sdc save output_path w)
            = Ok (params, hist_channels, hist_global) ->
            saved_histogram hist_channels k
            = repeat NaN (List.length (channel_counts st k)) /\
            fit_histogram E (bin_centres edge_min edge_max)
                          (repeat NaN (List.length (channel_counts st k)))
            = Ok (nth k params [])) as Hret.
  { intros params hc hg H.
    apply check_dark_rows in H. destruct H as [st' [Hloop' Hrows]].
    rewrite Hloop in Hloop'. injection Hloop' as <-.
    destruct (Hrows k Hk) as (Hpos & Hsaved & Hfit).
    rewrite (normalize_zero_counts Hz Hpos) in Hsaved, Hfit.
    now split. }
  split; [exact Hret|]. intros Hrefuse.
  destruct (fst (check_dark E dark_list avg channel_pos sep spatial_axis
                            edge_min edge_max sdc save output_path w))
    as [[[params hc] hg]|e] eqn:Hrun; [|now exists e].
  exfalso. destruct (Hret params hc hg eq_refl) as [_ Hfit].
  unfold fit_histogram in Hfit.
  destruct (List.length (channel_counts st k)) as [|n];
    [discriminate Hfit|].
  cbn [repeat py_max rbind] in Hfit.
  match type of Hfit with
  | curve_fit E ?x ?y ?p = _ => destruct (Hrefuse x y p eq_refl) as [e He]
  end.
  rewrite He in Hfit. discriminate Hfit.
Qed.

Lemma hot_loop_returns : Runs.hot_loop = Ok Runs.hot_diag.
Proof.
  assert (Runs.is_ok Runs.hot_loop = true) as Hok
    by (vm_compute; reflexivity).
  exact (returned_ok diag0 Runs.hot_loop Hok).
Qed.

Lemma hot_channel_silent : sumZ (channel_counts Runs.hot_diag 3) = 0%Z.
Proof. vm_compute. reflexivity. Qed.

Lemma demo_fit_refuses (xdata ydata p0 : arr1) :
  forallb is_finite ydata = false ->
  exists e, curve_fit Demo.E xdata ydata p0 = Raise e.
Proof.
  intros H. cbn [curve_fit Demo.E]. unfold Demo.fit. rewrite H.
  now eexists.
Qed.

Lemma zero_total_row_divided_unguarded_witness :
  exists e,
    fst (check_dark Demo.E Demo.hot_list (repeat [Fin 0] 2)
           (fst (get_channel_positions Demo.E NB_TRACKS))
           (snd (get_channel_positions Demo.E NB_TRACKS))
           (arange 1) (-2) 2 (Demo.average_of Demo.hot_names "hot")
           false "out/" (Demo.world_of [] ["out/"]))
    = Raise e.
Proof.
  exact (proj2 (@zero_total_row_divided_unguarded Demo.E Demo.hot_list
                  (repeat [Fin 0] 2)
                  (fst (get_channel_positions Demo.E NB_TRACKS))
                  (snd (get_channel_positions Demo.E NB_TRACKS))
                  (arange 1) (-2) 2
                  (Demo.average_of Demo.hot_names "hot")
                  false "out/" (Demo.world_of [] ["out/"])
                  Runs.hot_diag 3 hot_loop_returns ltac:(lia)
                  hot_channel_silent)
               demo_fit_refuses).
Defined.

End NormalizationProperties.

(* ================================================================== *)
(** ** The exposures of a run that returns *)
(* ================================================================== *)

Section LoadedProperties.

Local Open Scope string_scope.

(** X18: [get_average_dark] returns only if every selected exposure
    could be loaded: an exposure that fails to load is not skipped, it
    makes the run raise. *)
Theorem get_average_dark_loads_every_exposure (E : externals) (w : world)
  (data_path output_path : string) (nb_files : option Z * option Z)
  (save monitor : bool) (edges : Z * Z) (keyword : string)
  (names : list string) (res : arr2 * arr3 * option (arr2 * arr3 * arr2))
  (f : string) :
  listing w data_path = Some names ->
  fst (get_average_dark E data_path output_path nb_files save monitor
                        edges keyword w) = Ok res ->
  In f (select_files data_path keyword nb_files names) ->
  exists data, Null E f = Ok data.
Proof.
  intros Hl Hrun Hin.
  destruct (get_average_dark_returned _ _ _ _ _ _ _ _ _ Hrun)
    as (names' & Hl' & Hd).
  rewrite Hl in Hl'. injection Hl' as <-.
  erewrite get_average_dark_run in Hrun by eassumption.
  set (dark_list := select_files data_path keyword nb_files names) in *.
  unfold average_dark_list in Hrun.
  destruct (get_channel_positions E NB_TRACKS) as [channel_pos sep].
  apply bind_inv in Hrun. destruct Hrun as [st [Hloop _]].
  destruct (@effects_accumulate_loop E (fun _ => true) (fun _ => true)
              monitor channel_pos sep dark_list dark_list
              (fun _ _ => eq_refl) (fun _ => eq_refl)
              (with_output_dir output_path w)) as [_ Hinv].
  rewrite Hloop in Hinv. destruct Hinv as (_ & _ & Hcount & _).
  clear Hloop. revert Hcount Hin. generalize (nb_img st).
  induction dark_list as [|g l IH]; intros n Hcount Hin; [easy|].
  cbn [frame_count_total] in Hcount.
  destruct (Null E g) as [dg|] eqn:Hg; [|discriminate].
  destruct (frame_count_total E l) as [m|] eqn:Hm; [|discriminate].
  destruct Hin as [->|Hin]; [eauto | now apply (IH m)].
Qed.

End LoadedProperties.

(* ================================================================== *)
(** ** The histograms over the edges of check_dark *)
(* ================================================================== *)

Section EdgesAccepted.

Local Open Scope Q_scope.

Lemma flt_asym (x y : npfloat) : flt x y = true -> flt y x = false.
Proof.
  destruct x as [a| | |], y as [b| | |]; cbn; try easy.
  intros H. apply negb_true_iff in H. apply negb_false_iff.
  apply Qle_bool_iff. destruct (Qlt_le_dec a b) as [Hlt|Hle].
  - now apply Qlt_le_weak.
  - apply Qle_bool_iff in Hle. congruence.
Qed.

Lemma strictly_increasing_edges (l : arr1) :
  strictly_increasing l -> increasing_edges l = true.
Proof.
  induction l as [|e [|e' r] IH]; [reflexivity | reflexivity |].
  intros [He Hr].
  change (increasing_edges (e :: e' :: r))
    with (negb (fgt e e') && increasing_edges (e' :: r)).
  unfold fgt. rewrite (flt_asym _ _ He). now rewrite (IH Hr).
Qed.

(** The edges for bounds [edge_min < edge_max]: finite, strictly
    increasing, one more than the difference of the bounds. *)
Lemma histogram_edges_increasing (edge_min edge_max : Z) :
  (edge_min < edge_max)%Z ->
  exists bin_hist step,
    histogram_edges edge_min edge_max = Ok (bin_hist, step) /\
    List.length bin_hist = S (Z.to_nat (edge_max - edge_min)) /\
    forallb is_finite bin_hist = true /\
    strictly_increasing bin_hist.
Proof.
  intros Hlt. set (n := (edge_max - edge_min)%Z).
  assert (0 < n)%Z as Hn by (unfold n; lia).
  assert (~ inject_Z n == 0) as Hn0 by (apply inject_Z_nonzero; lia).
  assert (0 < inject_Z n) as Hnq
    by (change 0 with (inject_Z 0); now rewrite <- Zlt_Qlt).
  set (s := Qred (inject_Z edge_min - (1 # 2))).
  set (e := Qred (inject_Z edge_max + (1 # 2))).
  set (st := Qred (Qred (e - s) / inject_Z n)).
  assert (e - s == inject_Z (n + 1)) as Hes
    by (now apply edges_step_value).
  assert (st == 1 + 1 / inject_Z n) as Hval.
  { unfold st. rewrite !Qred_correct, Hes, inject_Z_plus.
    change (inject_Z 1) with 1. now field. }
  assert (0 < 1 / inject_Z n) as Hinv.
  { unfold Qdiv. rewrite Qmult_1_l. now apply Qinv_lt_0_compat. }
  assert (0 < st) as Hpos.
  { rewrite Hval. apply Qlt_trans with 1; [reflexivity|].
    rewrite <- (Qplus_0_r 1) at 1. now apply Qplus_lt_r. }
  assert (Qeq_bool st 0 = false) as Hne.
  { destruct (Qeq_bool st 0) eqn:Hq; [|reflexivity].
    apply Qeq_bool_eq in Hq. rewrite Hq in Hpos.
    now apply Qlt_irrefl in Hpos. }
  pose proof (@linspace_fin s e n Hn Hne) as Hlin. fold st in Hlin.
  eexists. eexists. split; [exact Hlin|].
  destruct (Z.to_nat n) as [|len] eqn:Hlen; [lia|].
  split; [rewrite length_app, length_map, length_seq; cbn; lia|].
  split.
  { rewrite forallb_app. apply andb_true_iff. split; [|reflexivity].
    apply forallb_forall.
    intros x Hx. apply in_map_iff in Hx. now destruct Hx as [k [<- _]]. }
  set (h := fun i => Qred (Qred (inject_Z (Z.of_nat i) * st) + s)).
  assert (forall i, h (S i) - h i == st) as Hh.
  { intros i. unfold h. rewrite !Qred_correct.
    rewrite Nat2Z.inj_succ. unfold Z.succ. rewrite inject_Z_plus.
    change (inject_Z 1) with 1. ring. }
  assert (e - h (0 + len)%nat == st) as He.
  { unfold h. cbn [Nat.add]. rewrite !Qred_correct.
    assert (inject_Z (Z.of_nat len) == inject_Z n - 1) as ->.
    { replace (Z.of_nat len) with (n - 1)%Z by lia.
      unfold Z.sub. rewrite inject_Z_plus, inject_Z_opp.
      change (inject_Z 1) with 1. ring. }
    rewrite Hval.
    assert (e == s + inject_Z n + 1) as ->.
    { transitivity (s + (e - s)); [ring|].
      rewrite Hes, inject_Z_plus. change (inject_Z 1) with 1. ring. }
    now field. }
  exact (proj2 (@progression_steps h st e len 0 Hh He Hpos)).
Qed.

End EdgesAccepted.

Section EdgesAcceptedProperties.

(** X19: with bounds [edge_min < edge_max], the edges that [check_dark]
    builds are accepted by [get_histogram] for any data: it never
    raises, and returns [edge_max - edge_min] counts, none negative. *)
Theorem histograms_over_edges_defined (edge_min edge_max : Z)
  (data : arr1) :
  (edge_min < edge_max)%Z ->
  exists bin_hist step h,
    histogram_edges edge_min edge_max = Ok (bin_hist, step) /\
    get_histogram data bin_hist = Ok h /\
    List.length h = Z.to_nat (edge_max - edge_min) /\
    Forall (fun c => (0 <= c)%Z) h.
Proof.
  intros Hlt.
  destruct (histogram_edges_increasing Hlt)
    as (bin_hist & step & Hedges & Hlen & Hfin & Hinc).
  apply strictly_increasing_edges in Hinc.
  exists bin_hist, step, (diff (cum_counts data bin_hist)).
  split; [exact Hedges|]. split.
  - unfold get_histogram, np_histogram. now rewrite Hinc.
  - split.
    + rewrite diff_length, cum_counts_length, Hlen. lia.
    + now apply cum_counts_sorted.
Qed.

Lemma histograms_over_edges_defined_witness :
  exists bin_hist step h,
    histogram_edges (-2) 2 = Ok (bin_hist, step) /\
    get_histogram [Fin 0; Fin 1; Fin (5 # 2); NaN; Fin (-3)] bin_hist
    = Ok h /\
    List.length h = Z.to_nat (2 - -2) /\
    Forall (fun c => (0 <= c)%Z) h.
Proof.
  apply (@histograms_over_edges_defined (-2) 2
           [Fin 0; Fin 1; Fin (5 # 2); NaN; Fin (-3)]).
  reflexivity.
Defined.

End EdgesAcceptedProperties.

(* ================================================================== *)
(** ** Runs of the demonstration exposures *)
(* ================================================================== *)

Section DemoRuns.

Local Open Scope string_scope.

Lemma ramp_loop_returns : Runs.ramp_loop = Ok Runs.ramp_acc.
Proof.
  assert (Runs.is_ok Runs.ramp_loop = true) as Hok
    by (vm_compute; reflexivity).
  exact (returned_ok acc0 Runs.ramp_loop Hok).
Qed.

Lemma accumulate_loop_counts_witness :
  frame_count_total Demo.E Demo.ramp_list
  = Some (nb_img Runs.ramp_acc) /\
  (Demo.ramp_list <> [] -> true = true ->
   exists a, avg_dark Runs.ramp_acc = Some a /\
             Z.of_nat (List.length a) = nb_img Runs.ramp_acc) /\
  (Demo.ramp_list <> [] -> exists sa, spatial_axis Runs.ramp_acc = Some sa).
Proof.
  exact (@accumulate_loop_counts Demo.E true
           (fst (get_channel_positions Demo.E NB_TRACKS))
           (snd (get_channel_positions Demo.E NB_TRACKS))
           Demo.ramp_list Demo.ramp_list (Demo.world_of [] ["out/"])
           Runs.ramp_acc ramp_loop_returns).
Defined.

Lemma ramp_run_returns :
  Runs.ramp_run = Ok (Runs.ramp_sd, Runs.ramp_sdc, Runs.ramp_monitored).
Proof.
  assert (Runs.is_ok Runs.ramp_run = true) as Hok
    by (vm_compute; reflexivity).
  exact (returned_triple Runs.no_average Runs.ramp_run Hok).
Qed.

Lemma get_average_dark_shapes_witness :
  has_shape2 344 96 Runs.ramp_sd /\ has_shape3 96 16 20 Runs.ramp_sdc.
Proof.
  exact (@get_average_dark_shapes Demo.E
           (Demo.world_of Demo.ramp_names ["out/"]) "data/" "out/"
           (None, None) true false (-2, 2)%Z "ramp"
           Runs.ramp_sd Runs.ramp_sdc Runs.ramp_monitored
           ramp_run_returns).
Defined.

Lemma saved_arrays_are_returned_witness :
  exists n,
    frame_count_total Demo.E
      (select_files "data/" "ramp" (None, None) Demo.ramp_names) = Some n /\
    filter is_np_save
      (new_events (get_average_dark Demo.E "data/" "out/" (None, None) true
                     false (-2, 2)%Z "ramp")
                  (Demo.world_of Demo.ramp_names ["out/"]))
    = if (n =? 0)%Z then []
      else [EvNpSave ("out/" ++ "superdark") (Nd2 Runs.ramp_sd);
            EvNpSave ("out/" ++ "superdarkchannel") (Nd3 Runs.ramp_sdc)].
Proof.
  exact (@saved_arrays_are_returned Demo.E
           (Demo.world_of Demo.ramp_names ["out/"]) "data/" "out/"
           (None, None) (-2, 2)%Z "ramp" Demo.ramp_names
           Runs.ramp_sd Runs.ramp_sdc Runs.ramp_monitored eq_refl
           ramp_run_returns).
Defined.

Lemma ramp_diagnose_returns : Runs.ramp_diag_loop = Ok Runs.ramp_diag.
Proof.
  assert (Runs.is_ok Runs.ramp_diag_loop = true) as Hok
    by (vm_compute; reflexivity).
  exact (returned_ok diag0 Runs.ramp_diag_loop Hok).
Qed.

Lemma diagnose_loop_series_witness :
  List.length (hist_slices Runs.ramp_diag) = List.length Demo.ramp_list /\
  Forall (fun h => List.length h = 16%nat) (hist_slices Runs.ramp_diag) /\
  exists n,
    frame_count_total Demo.E Demo.ramp_list = Some n /\
    (Demo.ramp_list <> [] ->
     exists dc d row,
       dark_current Runs.ramp_diag = Some dc /\
       dk56 Runs.ramp_diag = Some d /\
       Z.of_nat (List.length dc) = n /\ Z.of_nat (List.length d) = n /\
       dk56bis Runs.ramp_diag
       = Some (if (List.length Demo.ramp_list =? 1)%nat then [row]
               else (d ++ [row])%list)).
Proof.
  exact (@diagnose_loop_series Demo.E Demo.ramp_list Demo.ramp_list
           (fst (get_channel_positions Demo.E NB_TRACKS))
           (snd (get_channel_positions Demo.E NB_TRACKS))
           Demo.edges_2 (Demo.average_of Demo.ramp_names "ramp")
           (Demo.world_of [] ["out/"]) Runs.ramp_diag
           ramp_diagnose_returns).
Defined.

Lemma get_average_dark_loads_every_exposure_witness :
  exists data, Null Demo.E "data/dark_ramp.mat" = Ok data.
Proof.
  exact (@get_average_dark_loads_every_exposure Demo.E
           (Demo.world_of Demo.ramp_names ["out/"]) "data/" "out/"
           (None, None) true false (-2, 2)%Z "ramp" Demo.ramp_names
           (Runs.ramp_sd, Runs.ramp_sdc, Runs.ramp_monitored)
           "data/dark_ramp.mat"
           eq_refl ramp_run_returns (or_introl eq_refl)).
Defined.

Lemma check_dark_result_shape_witness :
  List.length Runs.flat_params = 16%nat /\
  List.length Runs.flat_hist_channels = 16%nat /\
  List.length Runs.flat_hist_global = 2%nat /\
  Runs.flat_list <> [].
Proof.
  exact (@check_dark_result_shape Runs.E10 Runs.flat_list
           (repeat [Fin 0] 10)
           (fst (get_channel_positions Runs.E10 NB_TRACKS))
           (snd (get_channel_positions Runs.E10 NB_TRACKS))
           (arange 10) (-2) 2 (zeros3 96 16 20) true "out/"
           (Demo.world_of [] ["out/"])
           Runs.flat_params Runs.flat_hist_channels
           Runs.flat_hist_global flat_check_returns).
Defined.

End DemoRuns.
